(* ===== verification/_CoqProject ===== *)
-Q . S2P
Prelude.v
PyStr.v
PyObj.v
Content.v
Agent.v
Runtime.v
Resolver.v
Startup.v
App.v
Invariants.v
Display.v
Contract.v
Trace.v
Process.v
