(* ===== verification/Prelude.v ===== *)
(** * Flood Digital Assistant (src/flood.py): a verification development

    ** The program

    [src/flood.py] is a single Streamlit script.  Streamlit executes the
    whole file, top to bottom, on every event of the front end; the only
    state that survives from one execution to the next is
    [st.session_state], the values of the widgets, the process
    environment and whatever the SQL agent keeps.  One execution does,
    in this order:

    - lines 16-20   load [.env], read [OPENAI_API_KEY], abort with
                    [ValueError] when it is missing or empty;
    - lines 23-30   build the database engine, the database wrapper, the
                    LLM client and the SQL agent: four constructor
                    calls of libraries, made again at every execution;
    - lines 33-99   the constant [data_dictionary];
    - lines 102-127 the constant dict [hardcoded_qa];
    - lines 130-138 title, banner, initialisation of
                    [st.session_state.conversation], the text input;
    - lines 140-161 the query handler: normalise the input, answer from
                    [hardcoded_qa] or call the agent, append the turns,
                    turn an [Exception] into an ["Error: ..."] turn;
    - lines 164-168 render the transcript.

    ** The files, in the order they are compiled

    - [Prelude] (this file): the result type for Python exceptions
      ([result], [try_except]), stateful computations that may raise
      ([sx], with stdpp's monad notations, [sx_try], [sx_for]), the
      tactics [case_result], [inv_result], [sx_unfold], [by_decide], the
      hint databases [py], and the lemmas on trimming a list at both
      ends ([take_while], [drop_while], [strip_by]: specification,
      uniqueness, idempotence).
    - [PyStr]: Python [str] as a list of Unicode code points.
      Literals ([py]), truthiness ([truthy]), [str.strip] ([py_strip],
      with CPython's whitespace set [is_whitespace]), [str.lower]
      ([py_lower]: CPython's loop, final-sigma rule included) over the
      class [UnicodeDB], which holds the three tables CPython reads and
      the laws of the Unicode database the theorems rely on; the
      instance [latin1_db] (Latin-1 and the Greek letters, on which
      [final_sigma_examples] runs the final-sigma rule).  Main theorems: [lower_strip_hits], the
      inputs that [.lower().strip()] maps to a given Basic Latin string,
      and [lower_strip_commute], that lowering and trimming commute.
    - [PyObj]: exceptions ([exn], [is_Exception] for [except
      Exception]) and dicts with string keys ([dict_display], [dict_in],
      [dict_getitem]).
    - [Content]: [data_dictionary] and [hardcoded_qa], code point for
      code point, with the lookup lemmas of the table.
    - [Agent]: the interfaces to the libraries.  The class [Agent] is
      what the script assumes of [agent_executor.invoke]: a call that
      returns a dict or raises and may change its world.  Instances:
      [scripted_agent] (replays replies), [logged_agent] (records the
      inputs of any agent), [service_agent] (the agent made from a
      function of the prompt).  The class [Backend] is what it assumes
      of the constructors of lines 24-30 ([library_call]): each returns
      or raises and may change the world.  Instances: [ready_backend],
      [failing_backend], and [traced_backend] with [traced_agent], which
      record every library call in order ([library_event]).
    - [Runtime]: the state an execution runs on ([run_state]: world of
      the agent, process environment, [st.session_state], widget
      values, page) and the library calls of the script as operations
      on it.
    - [Resolver]: lines 140-161.  [handle_input] with its parts
      [user_input_lower], [query], [compute_result], [try_body],
      [except_clause].  Theorems: the outcome on each branch
      ([handle_input_canned], [_delegated], [_agent_error],
      [_missing_output], [_uncaught]), all branches as one equation
      ([handle_input_eq]), what the handler can raise and what it
      leaves alone ([handle_input_raises_only_base],
      [handle_input_frame]), which inputs reach the table
      ([canned_iff], [case_insensitive], [blank_input_reaches_agent]),
      how often the agent is called ([agent_invocations]).
    - [Startup]: lines 16-30.  [load_api_key] (lines 16-20) and
      [build_agent] (lines 23-30: [create_engine], [sql_database],
      [chat_openai], [create_sql_agent] with the arguments of the
      source).  Theorems: startup as one equation ([load_api_key_eq]),
      the precedence of the process environment
      ([empty_process_key_blocks]), the constructor calls, their
      order, their arguments and that they stop at the first that
      raises ([build_agent_trace]).
    - [App]: the whole script [flood_script], one execution [run], the
      rerun loop ([event], [deliver], [step], [reachable],
      [run_events]).  The lemma [run_cases] gives the outcomes of an
      execution ([run_spec]): the key is missing, a constructor raises,
      the handler raises, the execution returns.  Theorems:
      what a successful execution shows ([run_renders_transcript]),
      that a failed start shows nothing
      ([failed_start_renders_nothing]), that a constructor that raises
      ends the execution before anything is shown
      ([construction_failure_aborts]), which exceptions can end an
      execution ([run_raises_only]), the shape of the transcript in
      every reachable state ([reachable_well_formed], by induction on
      [reachable]), that it only grows ([transcript_grows]), and that
      the input field is never cleared, so that a rerun submits the
      question again ([input_field_keeps_text], [rerun_resubmits]).
      States that differ in the page only are equivalent
      ([same_session], with [deliver], [run], [step] and [transcript]
      as morphisms): a fact of the rerun loop, which starts every
      execution on an empty page, and not a theorem about the script.
    - [Invariants]: the state invariant [well_typed] (the entries of
      [st.session_state] and of the widgets, the speakers, the shape of
      the page) with its preservation by every execution
      ([reachable_well_typed]); the growth of a session
      ([session_bounds]: at most two turns and two lines per
      execution); and that every submission is answered in the
      execution it triggers ([submission_answered]).
    - [Display]: the display loop as Python runs it, [display_loop]: the
      list iterator asks for the element at its index in the live
      list, round by round, with fuel for the rounds.  Theorems: the
      loop terminates after one round per turn with the result of
      [display_conversation] ([display_loop_terminates]); the lines of
      the page can be read back into the transcript
      ([page_read_back], with [read_line] and [read_page]).
    - [Contract]: the resolver as the specification describes it
      (section 4.1), the function [resolve] of the question and of the
      answering service, written from the specification; and the
      refinement theorems, for the agent [service_agent]: the handler
      appends the answer of [resolve] ([handle_input_refines]), one
      execution extends the transcript by the turns of one resolution
      ([step_refines]), and the transcript of a session is the function
      [session_transcript] of its events ([session_refines]).  The one
      difference with the specification is part of the statement: the
      question is not recorded when the resolution fails.
    - [Trace]: the library calls of a session in the order they are
      made, on [traced_backend] and [traced_agent].  Theorems: the calls
      of an execution that returns ([run_trace]: the four constructors,
      then at most one call of the agent); every LLM client is built
      with an API key that startup has checked ([keys_checked]); the
      calls of a whole session as a function of its events
      ([session_trace]: the agent is built again at every execution).

    - [Process]: several sessions in one process.  Each session has its
      own session state, widgets and page ([session]); the environment
      and the world of the libraries are shared ([process]); an
      execution runs for one session ([attach], [detach],
      [process_step]) and [process_run] is an interleaving of the
      events of the sessions.  Theorem: on a service that keeps no
      state, the transcript of each session is the one the
      specification assigns to its own events, whatever the
      interleaving ([session_projection]); with an agent that keeps
      state this fails ([stateful_agent_interferes]).

    ** Conventions

    - A Python [str] is [list N]; a [dict] with string keys is a [gmap];
      an exception is a value of [exn]; a computation that may raise
      returns [result exn A]; a computation that also changes state is a
      function from the state to a result paired with the state after
      it, and a raise keeps the changes made before it, as in Python.
    - Definitions keep the names of the source where it has names
      ([data_dictionary], [hardcoded_qa], [user_input_lower], [query],
      [db_path], [llm], [agent_executor]); a statement of the script
      that has no name is named after what it does.
    - Interfaces are classes: [UnicodeDB] between [str.lower] and the
      Unicode database, [Agent] between the handler and the SQL agent,
      [Backend] between the script and the constructors of the
      libraries.  Theorems are proved for every instance, the
      refinement theorems of [Contract] for every service; the
      witnesses run on [latin1_db], [scripted_agent], a [service_agent],
      [ready_backend] and a [failing_backend].
    - The laws of [UnicodeDB] are facts of the Unicode character
      database (Basic Latin lowers by the ASCII rule; only the Kelvin
      sign lowers into Basic Latin from outside; whitespace is its own
      lower case, nothing else lowers to it, and it is neither cased
      nor case-ignorable).  [latin1_db] shows that they are
      consistent; it is the database on U+0000..U+00FF, the Greek
      letters and the named code points only.
    - A theorem that is a claim states the expected values in full (the
      prompt, the turns, the lines of the page), so that it fails when a
      definition it is about is changed.  Each claim with hypotheses is
      applied to a concrete input at the end of its file.

    ** Bounds and fuel

    The script has one loop, the [for] over the transcript.
    [display_conversation] is that loop by structural recursion on the
    list; [display_loop] is the loop as the list iterator runs it and
    takes fuel, one unit per round: [display_loop_terminates] shows
    that [length conv + 1] rounds are enough, for every transcript, and
    that [length conv] are not.  Every other recursion is structural on
    a list ([lower_from], [drop_while], [sx_for], [field_trace]).  Code
    points are unbounded naturals (the theorems do not depend on the
    bound U+10FFFF).  A call of the agent or of a constructor is a
    function of the world: the model takes such a call to return or to
    raise, and has nothing to say of a call that never comes back.

    ** Assumptions and what is not modelled

    - The SQL agent, the LLM, SQLAlchemy, python-dotenv's parser and the
      Streamlit front end are libraries the script only calls.  The
      agent and the constructors are parameters ([Agent], [Backend]):
      what they answer, raise and change is not modelled, only that the
      script calls them, with which arguments and in which order.  The
      [.env] file is given as the map of its bindings; the front end is
      the two events of [event].
    - The import statements (lines 5-13) bind names and are not
      modelled; [sqlite3] and [pandas] are imported and never used.
    - How Streamlit tells sessions apart and schedules their
      executions is not modelled: [Process] takes an interleaving of
      the events of the sessions as given, one execution at a time.
    - The entry ["output"] of a reply and the turns of the transcript
      are strings.
    - [st.session_state] and the values of keyed widgets share one name
      space in Streamlit; the script uses different keys for the two,
      and the model keeps two maps.
    - The text of an exception raised by a library is its own; the
      theorems only use the class of such an exception and [str(e)]. *)

From stdpp Require Export base tactics option list gmap.
From Stdlib Require Export NArith.

Declare Scope py_scope.
Delimit Scope py_scope with py.
#[global] Open Scope py_scope.

Create HintDb py discriminated.
Create Rewrite HintDb py.

(** ** Results: a value or a raised exception *)

Inductive result (E A : Type) : Type :=
| Ok (a : A)
| Raise (e : E).

Arguments Ok {E A} a.
Arguments Raise {E A} e.

Definition rbind {E A B} (m : result E A) (k : A → result E B) : result E B :=
  match m with
  | Ok a => k a
  | Raise e => Raise e
  end.

Definition is_ok {E A} (m : result E A) : bool :=
  match m with Ok _ => true | Raise _ => false end.

(** [try: body except <matching>: handler].  An exception the clause does
    not match propagates. *)
Definition try_except {E A} (body : result E A) (matching : E → bool)
    (handler : E → result E A) : result E A :=
  match body with
  | Ok a => Ok a
  | Raise e => if matching e then handler e else Raise e
  end.

Notation "'let!' x ':=' m 'in' k" := (rbind m (λ x, k))
  (at level 10, x name, m at level 100, k at level 200,
   format "'[v' 'let!'  x  ':='  m  'in' '/' k ']'") : py_scope.

(** ** Trimming a list at both ends *)

Section trimming.
Context {A : Type} (p : A → bool).
Implicit Types l r : list A.

Fixpoint take_while (l : list A) : list A :=
  match l with
  | [] => []
  | x :: l' => if p x then x :: take_while l' else []
  end.

Fixpoint drop_while (l : list A) : list A :=
  match l with
  | [] => []
  | x :: l' => if p x then drop_while l' else l
  end.

Definition drop_while_end (l : list A) : list A :=
  reverse (drop_while (reverse l)).

Definition strip_by (l : list A) : list A :=
  drop_while_end (drop_while l).

(** The Boolean predicate as a proposition on whole lists. *)
Definition all_p (l : list A) : Prop := Forall (λ x, p x = true) l.

(** A list is trimmed when neither end satisfies [p]. *)
Definition trimmed (l : list A) : Prop :=
  (∀ x, head l = Some x → p x = false) ∧ (∀ x, last l = Some x → p x = false).

Lemma take_drop_while l : take_while l ++ drop_while l = l.
Proof. induction l as [|x l IH]; simpl; [done|]. destruct (p x); simpl; by f_equal. Qed.

Lemma take_while_all l : all_p (take_while l).
Proof.
  induction l as [|x l IH]; simpl; [constructor|].
  destruct (p x) eqn:Hx; by constructor.
Qed.

Lemma drop_while_head l x : head (drop_while l) = Some x → p x = false.
Proof.
  induction l as [|y l IH]; simpl; [done|].
  destruct (p y) eqn:Hy; [done|]. simpl. by intros [= <-].
Qed.

Lemma drop_while_all_app l r : all_p l → drop_while (l ++ r) = drop_while r.
Proof. induction 1 as [|x l Hx _ IH]; simpl; [done|]. by rewrite Hx. Qed.

Lemma drop_while_all l : all_p l → drop_while l = [].
Proof. intros H. rewrite <-(app_nil_r l). by rewrite drop_while_all_app. Qed.

Lemma drop_while_stop l : (∀ x, head l = Some x → p x = false) → drop_while l = l.
Proof. destruct l as [|x l]; simpl; [done|]. intros H. by rewrite (H x). Qed.

Lemma all_p_app l r : all_p (l ++ r) ↔ all_p l ∧ all_p r.
Proof. apply Forall_app. Qed.

Lemma all_p_reverse l : all_p l → all_p (reverse l).
Proof. unfold all_p. by rewrite Forall_reverse. Qed.

Lemma head_reverse l : head (reverse l) = last l.
Proof.
  induction l as [|x l IH] using rev_ind; [done|].
  by rewrite reverse_snoc, last_snoc.
Qed.

Lemma drop_while_end_all_app l r : all_p r → drop_while_end (l ++ r) = drop_while_end l.
Proof.
  intros H. unfold drop_while_end.
  by rewrite reverse_app, drop_while_all_app by by apply all_p_reverse.
Qed.

Lemma drop_while_end_stop l :
  (∀ x, last l = Some x → p x = false) → drop_while_end l = l.
Proof.
  intros H. unfold drop_while_end. rewrite drop_while_stop, reverse_involutive; [done|].
  intros x. rewrite head_reverse. apply H.
Qed.

Lemma drop_while_end_spec l :
  ∃ r, l = drop_while_end l ++ r ∧ all_p r ∧
       (∀ x, last (drop_while_end l) = Some x → p x = false).
Proof.
  exists (reverse (take_while (reverse l))). split_and!.
  - unfold drop_while_end. rewrite <-reverse_app, take_drop_while.
    by rewrite reverse_involutive.
  - apply all_p_reverse, take_while_all.
  - intros x. unfold drop_while_end. rewrite <-head_reverse, reverse_involutive.
    apply drop_while_head.
Qed.

Lemma trimmed_nil : trimmed [].
Proof. by split. Qed.

Lemma strip_by_spec l :
  ∃ a b, l = a ++ strip_by l ++ b ∧ all_p a ∧ all_p b ∧ trimmed (strip_by l).
Proof.
  destruct (drop_while_end_spec (drop_while l)) as (b & Hb & Hall & Hlast).
  exists (take_while l), b. split_and!; [|apply take_while_all|done|split; [|done]].
  - unfold strip_by. by rewrite <-Hb, take_drop_while.
  - intros x Hx. apply (drop_while_head l). rewrite Hb.
    unfold strip_by in Hx. by destruct (drop_while_end (drop_while l)).
Qed.

Lemma strip_by_unique l a m b :
  l = a ++ m ++ b → all_p a → all_p b → trimmed m → strip_by l = m.
Proof.
  intros -> Ha Hb [Hh Hl]. unfold strip_by. rewrite drop_while_all_app by done.
  destruct m as [|x m].
  - simpl. by rewrite drop_while_all.
  - rewrite drop_while_stop by (intros y [= <-]; by apply Hh).
    rewrite drop_while_end_all_app by done. by apply drop_while_end_stop.
Qed.

Lemma strip_by_trimmed l : trimmed l → strip_by l = l.
Proof.
  intros H. apply (strip_by_unique _ [] l []); [by rewrite app_nil_r|constructor..|done].
Qed.

Lemma strip_by_idemp l : strip_by (strip_by l) = strip_by l.
Proof.
  destruct (strip_by_spec l) as (a & b & _ & _ & _ & Ht). by apply strip_by_trimmed.
Qed.

Lemma strip_by_all l : all_p l → strip_by l = [].
Proof.
  intros H. apply (strip_by_unique _ l [] []);
    [by rewrite app_nil_r|done|constructor|apply trimmed_nil].
Qed.

End trimming.

#[export] Hint Resolve take_while_all trimmed_nil : py.

(** ** Tactics of the development *)

(** Case analysis on the result that blocks the goal. *)
Ltac case_result :=
  match goal with
  | |- context [match ?m with Ok _ => _ | Raise _ => _ end] =>
      let E := fresh "Hres" in destruct m eqn:E
  | |- context [rbind ?m _] => let E := fresh "Hres" in destruct m eqn:E; simpl
  end.

(** Inversion of the equations between results that case analysis leaves. *)
Ltac inv_result :=
  repeat match goal with
  | H : Ok _ = Ok _ |- _ => injection H as H; subst
  | H : Raise _ = Raise _ |- _ => injection H as H; subst
  | H : Ok _ = Raise _ |- _ => discriminate H
  | H : Raise _ = Ok _ |- _ => discriminate H
  end.

Lemma rbind_ok {E A B} (m : result E A) (k : A → result E B) b :
  rbind m k = Ok b ↔ ∃ a, m = Ok a ∧ k a = Ok b.
Proof.
  destruct m as [a|e]; simpl; split; [eauto| |done|].
  - by intros (a' & [= <-] & Hk).
  - by intros (a' & [=] & _).
Qed.

Lemma try_except_ok {E A} (a : A) matching (handler : E → result E A) :
  try_except (Ok a) matching handler = Ok a.
Proof. done. Qed.

Lemma try_except_caught {E A} e matching (handler : E → result E A) :
  matching e = true → try_except (Raise e) matching handler = handler e.
Proof. simpl. by intros ->. Qed.

Lemma try_except_uncaught {E A} e matching (handler : E → result E A) :
  matching e = false → try_except (Raise e) matching handler = Raise e.
Proof. simpl. by intros ->. Qed.

#[export] Hint Rewrite @try_except_ok : py.
#[export] Hint Rewrite @try_except_caught @try_except_uncaught using done : py.

(** ** Stateful computations that may raise

    [sx S E A]: from a state to a result and the state after it.  A raise
    keeps the mutations made before it.  [mret]/[≫=] and the notations
    [x ← m; k] and [m;; k] of stdpp apply. *)

Definition sx (S E A : Type) : Type := S → result E A * S.

#[export] Instance sx_ret {S E} : MRet (sx S E) := λ A a s, (Ok a, s).

#[export] Instance sx_bind {S E} : MBind (sx S E) := λ A B k m s,
  match m s with
  | (Ok a, s') => k a s'
  | (Raise e, s') => (Raise e, s')
  end.

Section sx.
Context {S E : Type}.

Definition sx_get : sx S E S := λ s, (Ok s, s).
Definition sx_modify (f : S → S) : sx S E () := λ s, (Ok (), f s).
Definition sx_raise {A} (e : E) : sx S E A := λ s, (Raise e, s).

(** A computation without effect on the state. *)
Definition sx_lift {A} (r : result E A) : sx S E A := λ s, (r, s).

(** [try: body except <matching> as e: handler e] *)
Definition sx_try {A} (body : sx S E A) (matching : E → bool)
    (handler : E → sx S E A) : sx S E A := λ s,
  match body s with
  | (Ok a, s') => (Ok a, s')
  | (Raise e, s') => if matching e then handler e s' else (Raise e, s')
  end.

(** [for x in xs: body x] *)
Fixpoint sx_for {A} (xs : list A) (body : A → sx S E ()) : sx S E () :=
  match xs with
  | [] => mret ()
  | x :: xs' => body x;; sx_for xs' body
  end.

Lemma sx_bind_ok {A B} (m : sx S E A) (k : A → sx S E B) s a s' :
  m s = (Ok a, s') → (m ≫= k) s = k a s'.
Proof. unfold mbind, sx_bind. by intros ->. Qed.

Lemma sx_bind_raise {A B} (m : sx S E A) (k : A → sx S E B) s e s' :
  m s = (Raise e, s') → (m ≫= k) s = (Raise e, s').
Proof. unfold mbind, sx_bind. by intros ->. Qed.

Lemma sx_bind_inv_ok {A B} (m : sx S E A) (k : A → sx S E B) s b s2 :
  (m ≫= k) s = (Ok b, s2) → ∃ a s1, m s = (Ok a, s1) ∧ k a s1 = (Ok b, s2).
Proof.
  unfold mbind, sx_bind. destruct (m s) as [[a|e] s1]; [by eauto|done].
Qed.

Lemma sx_try_ok {A} (body : sx S E A) matching handler s a s' :
  body s = (Ok a, s') → sx_try body matching handler s = (Ok a, s').
Proof. unfold sx_try. by intros ->. Qed.

Lemma sx_try_caught {A} (body : sx S E A) matching handler s e s' :
  body s = (Raise e, s') → matching e = true →
  sx_try body matching handler s = handler e s'.
Proof. unfold sx_try. by intros -> ->. Qed.

Lemma sx_try_uncaught {A} (body : sx S E A) matching handler s e s' :
  body s = (Raise e, s') → matching e = false →
  sx_try body matching handler s = (Raise e, s').
Proof. unfold sx_try. by intros -> ->. Qed.

Lemma sx_for_app {A} (xs ys : list A) (body : A → sx S E ()) s :
  sx_for (xs ++ ys) body s = (sx_for xs body;; sx_for ys body) s.
Proof.
  revert s. induction xs as [|x xs IH]; intros s; simpl; [done|].
  unfold mbind, sx_bind in *. destruct (body x s) as [[[]|e] s1]; [|done].
  apply IH.
Qed.

(** A loop that raises does so in its body, on one of its elements. *)
Lemma sx_for_raise_inv {A} (xs : list A) (body : A → sx S E ()) s e s' :
  sx_for xs body s = (Raise e, s') →
  ∃ x s0, x ∈ xs ∧ body x s0 = (Raise e, s').
Proof.
  revert s. induction xs as [|x xs IH]; intros s; [done|].
  cbn [sx_for]. unfold mbind, sx_bind. destruct (body x s) as [[[]|e1] s1] eqn:Hx.
  - intros (y & s0 & Hy & Hr)%IH. exists y, s0. by split; [right|].
  - intros [= <- <-]. exists x, s. by split; [left|].
Qed.

End sx.

(** Closes a decidable goal by evaluation. *)
Ltac by_decide := apply (bool_decide_unpack _); vm_compute; exact I.

(** Unfolds the monad down to functions on the state. *)
Ltac sx_unfold :=
  unfold mbind, mret, sx_bind, sx_ret, sx_get, sx_modify, sx_raise, sx_lift, sx_try in *.
