(* ===== verification/PyStr.v ===== *)
(** * PyStr: Python strings

    A Python [str] is a sequence of Unicode code points: [list N].  This
    file holds the operations on [str] that [src/flood.py] uses
    (literals, f-string concatenation, truthiness, [==], [str.strip],
    [str.lower]) and their lemmas.

    [str.lower] needs the Unicode character database.  The class
    [UnicodeDB] is the interface between the two: the three tables
    CPython reads ([_PyUnicode_ToLowerFull], [_PyUnicode_IsCased],
    [_PyUnicode_IsCaseIgnorable]) and the laws of the database that the
    theorems of the development rely on.  [latin1_db] is an instance:
    the database restricted to U+0000..U+00FF, the Greek letters
    U+0391..U+03C9 and a few named code points, the identity
    elsewhere. *)

From S2P Require Import Prelude.
From stdpp Require Export strings.

Abbreviation pystr := (list N).

(** ** Literals *)

(** An ASCII literal of the source, as code points. *)
Definition py (s : string) : pystr :=
  Ascii.N_of_ascii <$> String.list_ascii_of_string s.
Arguments py s%_string_scope.

Definition nl : pystr := [10%N].
Definition dq : pystr := [34%N].
Definition sq : pystr := [39%N].

(** A literal between double quotes, as it appears inside another literal. *)
Definition quoted (s : pystr) : pystr := dq ++ s ++ dq.

(** [repr] of a [str] without quote or escape: between single quotes. *)
Definition repr_plain (s : pystr) : pystr := sq ++ s ++ sq.

(** [bool(s)]: the empty string is falsy. *)
Definition truthy (s : pystr) : bool :=
  match s with [] => false | _ :: _ => true end.

(** [bool(x)] for [x] a [str] or [None]. *)
Definition truthy_opt (o : option pystr) : bool :=
  match o with None => false | Some s => truthy s end.

(** ** Code point classes *)

Definition in_range (lo hi c : N) : bool := (lo <=? c)%N && (c <=? hi)%N.

Definition is_ascii (c : N) : bool := (c <? 128)%N.

(** [_PyUnicode_IsWhitespace]: the code points [str.isspace] accepts and
    [str.strip] removes. *)
Definition is_whitespace (c : N) : bool :=
  in_range 0x09 0x0D c || in_range 0x1C 0x20 c
  || (c =? 0x85)%N || (c =? 0xA0)%N || (c =? 0x1680)%N
  || in_range 0x2000 0x200A c
  || (c =? 0x2028)%N || (c =? 0x2029)%N || (c =? 0x202F)%N
  || (c =? 0x205F)%N || (c =? 0x3000)%N.

(** Lower case of a code point of Basic Latin. *)
Definition ascii_lower (c : N) : N :=
  if in_range 65 90 c then (c + 32)%N else c.

(** ** [str.strip()] *)

Definition py_lstrip (s : pystr) : pystr := drop_while is_whitespace s.
Definition py_rstrip (s : pystr) : pystr := drop_while_end is_whitespace s.
Definition py_strip (s : pystr) : pystr := strip_by is_whitespace s.

(** ** The Unicode character database, as [str.lower] sees it *)

Definition capital_sigma : N := 0x3A3%N.
Definition final_small_sigma : N := 0x3C2%N.
Definition small_sigma : N := 0x3C3%N.
Definition kelvin_sign : N := 0x212A%N.

Class UnicodeDB := {
  to_lower_full : N → list N;
  is_cased : N → bool;
  is_case_ignorable : N → bool;
  (** Basic Latin is lowered by the ASCII rule. *)
  lower_ascii c : (c < 128)%N → to_lower_full c = [ascii_lower c];
  (** Outside Basic Latin the lower case keeps a code point outside
      Basic Latin, with one exception: the Kelvin sign. *)
  lower_nonascii c :
    (128 ≤ c)%N → c ≠ kelvin_sign → Exists (λ d, (128 ≤ d)%N) (to_lower_full c);
  lower_kelvin : to_lower_full kelvin_sign = [107%N];
  (** Whitespace is its own lower case, and nothing else lowers to it. *)
  lower_space c : is_whitespace c = true → to_lower_full c = [c];
  lower_nonspace c :
    is_whitespace c = false →
    Forall (λ d, is_whitespace d = false) (to_lower_full c);
  (** Whitespace has no case and is not skipped by the final-sigma rule. *)
  space_uncased c :
    is_whitespace c = true → is_cased c = false ∧ is_case_ignorable c = false;
}.

(** ** [str.lower()] *)

Section lower.
Context `{UnicodeDB}.

(** [handle_capital_sigma]: U+03A3 is in final position when a cased
    code point precedes it (case-ignorable ones skipped) and none
    follows it (case-ignorable ones skipped). *)
Definition final_sigma (before_rev after : pystr) : bool :=
  match drop_while is_case_ignorable before_rev with
  | c :: _ => is_cased c
  | [] => false
  end
  && match drop_while is_case_ignorable after with
     | c :: _ => negb (is_cased c)
     | [] => true
     end.

(** [lower_ucs4]: the lower case of [c], given what stands before it
    (nearest first) and after it. *)
Definition lower_ucs4 (before_rev : pystr) (c : N) (after : pystr) : list N :=
  if (c =? capital_sigma)%N
  then [if final_sigma before_rev after then final_small_sigma else small_sigma]
  else to_lower_full c.

Fixpoint lower_from (before_rev s : pystr) : pystr :=
  match s with
  | [] => []
  | c :: after => lower_ucs4 before_rev c after ++ lower_from (c :: before_rev) after
  end.

Definition py_lower (s : pystr) : pystr := lower_from [] s.

End lower.

(** ** Lemmas on code point classes *)

Ltac cp_bool :=
  unfold is_whitespace, is_ascii, ascii_lower, in_range in *;
  repeat first
    [ rewrite andb_true_iff in * | rewrite orb_true_iff in *
    | rewrite andb_false_iff in * | rewrite orb_false_iff in *
    | rewrite N.leb_le in * | rewrite N.leb_gt in *
    | rewrite N.ltb_lt in * | rewrite N.ltb_ge in *
    | rewrite N.eqb_eq in * | rewrite N.eqb_neq in * ].

Lemma in_range_spec lo hi c : in_range lo hi c = true ↔ (lo ≤ c ≤ hi)%N.
Proof. cp_bool. lia. Qed.

Lemma is_ascii_spec c : is_ascii c = true ↔ (c < 128)%N.
Proof. by cp_bool. Qed.

Lemma ascii_lower_ascii c : (c < 128)%N → (ascii_lower c < 128)%N.
Proof. unfold ascii_lower. destruct (in_range 65 90 c) eqn:E; cp_bool; lia. Qed.

Lemma ascii_lower_idemp c : ascii_lower (ascii_lower c) = ascii_lower c.
Proof.
  unfold ascii_lower. destruct (in_range 65 90 c) eqn:E; [|by rewrite E].
  destruct (in_range 65 90 (c + 32)) eqn:E'; [|done]. cp_bool. lia.
Qed.

Lemma ascii_lower_space c : is_whitespace (ascii_lower c) = is_whitespace c.
Proof.
  unfold ascii_lower. destruct (in_range 65 90 c) eqn:E; [|done].
  apply in_range_spec in E.
  assert (is_whitespace c = false) as -> by (cp_bool; lia).
  cp_bool. lia.
Qed.

Lemma py_ascii s : Forall (λ c, (c < 256)%N) (py s).
Proof.
  unfold py. apply Forall_fmap, Forall_forall. intros a _. simpl.
  apply Ascii.N_ascii_bounded.
Qed.

Lemma truthy_nonempty s : truthy s = true ↔ s ≠ [].
Proof. by destruct s. Qed.

(** ** An instance of the database: Latin-1 *)

Definition latin1_to_lower (c : N) : list N :=
  if in_range 65 90 c then [(c + 32)%N]
  else if in_range 0xC0 0xDE c && negb (c =? 0xD7)%N then [(c + 32)%N]
  else if in_range 0x391 0x3A9 c && negb (c =? 0x3A2)%N then [(c + 32)%N]
  else if (c =? 0x130)%N then [0x69%N; 0x307%N]
  else if (c =? kelvin_sign)%N then [107%N]
  else if (c =? 0x212B)%N then [0xE5%N]
  else [c].

Definition latin1_is_cased (c : N) : bool :=
  in_range 0x41 0x5A c || in_range 0x61 0x7A c
  || (c =? 0xAA)%N || (c =? 0xB5)%N || (c =? 0xBA)%N
  || in_range 0xC0 0xD6 c || in_range 0xD8 0xF6 c || in_range 0xF8 0xFF c
  || (c =? 0x130)%N || (in_range 0x391 0x3A9 c && negb (c =? 0x3A2)%N)
  || in_range 0x3B1 0x3C9 c || (c =? kelvin_sign)%N || (c =? 0x212B)%N.

Definition latin1_is_case_ignorable (c : N) : bool :=
  (c =? 0x27)%N || (c =? 0x2E)%N || (c =? 0x3A)%N || (c =? 0x5E)%N
  || (c =? 0x60)%N || (c =? 0xA8)%N || (c =? 0xAD)%N || (c =? 0xAF)%N
  || (c =? 0xB4)%N || (c =? 0xB7)%N || (c =? 0xB8)%N
  || (c =? 0x307)%N || (c =? 0x2019)%N.

Ltac latin1_cases c :=
  unfold latin1_to_lower, kelvin_sign;
  repeat match goal with
  | |- context [if ?b then _ else _] => let E := fresh "E" in destruct b eqn:E
  end.

#[export] Program Instance latin1_db : UnicodeDB := {|
  to_lower_full := latin1_to_lower;
  is_cased := latin1_is_cased;
  is_case_ignorable := latin1_is_case_ignorable;
|}.
Next Obligation.
  intros c Hc. unfold ascii_lower. latin1_cases c; try done; cp_bool; lia.
Qed.
Next Obligation.
  intros c Hc Hk. latin1_cases c; cp_bool;
    first [done | constructor; lia | constructor 2; constructor; lia].
Qed.
Next Obligation. done. Qed.
Next Obligation.
  intros c Hc. latin1_cases c; try done; cp_bool; lia.
Qed.
Next Obligation.
  intros c Hc. latin1_cases c; repeat constructor; try done; cp_bool; lia.
Qed.
Next Obligation.
  intros c Hc. unfold latin1_is_cased, latin1_is_case_ignorable.
  unfold capital_sigma, final_small_sigma, small_sigma, kelvin_sign.
  split; cp_bool; lia.
Qed.

(** ** Lemmas on [str.strip] *)

Abbreviation all_space := (all_p is_whitespace).
Abbreviation trimmed_str := (trimmed is_whitespace).

Lemma py_strip_spec s :
  ∃ a b, s = a ++ py_strip s ++ b ∧ all_space a ∧ all_space b ∧ trimmed_str (py_strip s).
Proof. apply strip_by_spec. Qed.

Lemma py_strip_unique s a m b :
  s = a ++ m ++ b → all_space a → all_space b → trimmed_str m → py_strip s = m.
Proof. apply strip_by_unique. Qed.

Lemma py_strip_idemp s : py_strip (py_strip s) = py_strip s.
Proof. apply strip_by_idemp. Qed.

Lemma py_strip_lstrip_rstrip s : py_strip s = py_rstrip (py_lstrip s).
Proof. done. Qed.

(** The test for [trimmed_str]. *)
Definition trimmedb (s : pystr) : bool :=
  match head s with Some x => negb (is_whitespace x) | None => true end
  && match last s with Some x => negb (is_whitespace x) | None => true end.

Lemma trimmedb_spec s : trimmedb s = true ↔ trimmed_str s.
Proof.
  unfold trimmedb, trimmed. rewrite andb_true_iff. split.
  - intros [Hh Hl]. split; intros x Hx; rewrite Hx in *; by apply negb_true_iff.
  - intros [Hh Hl]. split.
    + destruct (head s) as [x|]; [|done]. by rewrite (Hh x).
    + destruct (last s) as [x|]; [|done]. by rewrite (Hl x).
Qed.

(** ** Lemmas on [str.lower] *)

(** What one code point contributes to the lower-cased string, whatever
    its context: the facts about a block that hold in both directions
    of reading ([block_ws]) and the one that identifies the blocks made
    of Basic Latin only ([block_ascii]). *)
Definition block_ws (c : N) (b : list N) : Prop :=
  b ≠ [] ∧ (is_whitespace c = true → b = [c])
  ∧ (is_whitespace c = false → Forall (λ d, is_whitespace d = false) b).

(** [c] lowers to the Basic Latin code point [d]. *)
Definition lowers_to (c d : N) : Prop :=
  ((c < 128)%N ∧ d = ascii_lower c) ∨ (c = kelvin_sign ∧ d = 107%N).

Definition block_ascii (c : N) (b : list N) : Prop :=
  Forall (λ d, (d < 128)%N) b → ∃ d, b = [d] ∧ lowers_to c d.

Section lower_lemmas.
Context `{UnicodeDB}.
Implicit Types s before after : pystr.

Fixpoint lower_blocks (before_rev s : pystr) : list (list N) :=
  match s with
  | [] => []
  | c :: after => lower_ucs4 before_rev c after :: lower_blocks (c :: before_rev) after
  end.

Lemma lower_from_blocks before s : lower_from before s = concat (lower_blocks before s).
Proof. revert before. induction s as [|c s IH]; intros; simpl; [done|]. by rewrite IH. Qed.

Lemma lower_ucs4_no_sigma before c after :
  c ≠ capital_sigma → lower_ucs4 before c after = to_lower_full c.
Proof. intros Hc. unfold lower_ucs4. by apply N.eqb_neq in Hc as ->. Qed.

Lemma lower_ucs4_ascii before c after :
  (c < 128)%N → lower_ucs4 before c after = [ascii_lower c].
Proof.
  intros Hc. rewrite lower_ucs4_no_sigma by (unfold capital_sigma; lia).
  by apply lower_ascii.
Qed.

Lemma lower_ucs4_space before c after :
  is_whitespace c = true → lower_ucs4 before c after = [c].
Proof.
  intros Hc. rewrite lower_ucs4_no_sigma; [by apply lower_space|].
  intros ->. by vm_compute in Hc.
Qed.

Lemma lower_ucs4_block_ws before c after : block_ws c (lower_ucs4 before c after).
Proof.
  unfold block_ws, lower_ucs4. destruct (N.eqb_spec c capital_sigma) as [->|Hc].
  - split_and!; [done|by vm_compute|].
    intros _. constructor; [|done]. by destruct (final_sigma _ _).
  - split_and!; [|apply lower_space|apply lower_nonspace].
    destruct (decide (c < 128)%N) as [Ha|Ha]; [by rewrite lower_ascii|].
    destruct (decide (c = kelvin_sign)) as [->|Hk]; [by rewrite lower_kelvin|].
    intros Hnil. assert (128 ≤ c)%N as Hge by lia.
    pose proof (lower_nonascii c Hge Hk) as Hex. rewrite Hnil in Hex. inversion Hex.
Qed.

Lemma lower_ucs4_block_ascii before c after : block_ascii c (lower_ucs4 before c after).
Proof.
  unfold block_ascii, lowers_to, lower_ucs4.
  destruct (N.eqb_spec c capital_sigma) as [->|Hc].
  - intros Hall. apply Forall_cons_1 in Hall as [Hd _].
    destruct (final_sigma _ _); by vm_compute in Hd.
  - intros Hall. destruct (decide (c < 128)%N) as [Ha|Ha].
    { rewrite lower_ascii by done. eauto. }
    destruct (decide (c = kelvin_sign)) as [->|Hk].
    { rewrite lower_kelvin. eauto. }
    assert (128 ≤ c)%N as Hge by lia.
    pose proof (lower_nonascii c Hge Hk) as Hex.
    apply Exists_exists in Hex as (d & Hin & Hd).
    rewrite Forall_forall in Hall. specialize (Hall d Hin). lia.
Qed.

Lemma lower_blocks_ok before s :
  Forall2 (λ c b, block_ws c b ∧ block_ascii c b) s (lower_blocks before s).
Proof.
  revert before. induction s as [|c s IH]; intros; simpl; constructor; [|done].
  split; [apply lower_ucs4_block_ws|apply lower_ucs4_block_ascii].
Qed.

(** Without a capital sigma, lowering is code point by code point. *)
Lemma lower_from_no_sigma before s :
  Forall (λ c, c ≠ capital_sigma) s → lower_from before s = s ≫= to_lower_full.
Proof.
  intros Hs. revert before. induction Hs as [|c s Hc _ IH]; intros; simpl; [done|].
  by rewrite lower_ucs4_no_sigma, IH.
Qed.

Lemma py_lower_app_no_sigma s1 s2 :
  Forall (λ c, c ≠ capital_sigma) (s1 ++ s2) →
  py_lower (s1 ++ s2) = py_lower s1 ++ py_lower s2.
Proof.
  intros Hs. pose proof Hs as [H1 H2]%Forall_app. unfold py_lower.
  rewrite !lower_from_no_sigma by done. apply bind_app.
Qed.

Lemma py_lower_ascii s : Forall (λ c, (c < 128)%N) s → py_lower s = ascii_lower <$> s.
Proof.
  intros Hs. unfold py_lower. generalize (@nil N) as before.
  induction Hs as [|c s Hc _ IH]; intros; simpl; [done|].
  by rewrite lower_ucs4_ascii, IH.
Qed.

Lemma lower_from_space before s : all_space s → lower_from before s = s.
Proof.
  intros Hs. revert before. induction Hs as [|c s Hc _ IH]; intros; simpl; [done|].
  by rewrite lower_ucs4_space, IH.
Qed.

Lemma py_lower_space s : all_space s → py_lower s = s.
Proof. apply lower_from_space. Qed.

End lower_lemmas.

(** ** Reading a lower-cased string back, block by block *)

Section blocks.
Context (P : N → list N → Prop).
Implicit Types (s : pystr) (bs : list (list N)).

Lemma blocks_leading_space s bs a rest :
  (∀ c b, P c b → block_ws c b) →
  Forall2 P s bs → concat bs = a ++ rest → all_space a →
  ∃ s' bs', s = a ++ s' ∧ Forall2 P s' bs' ∧ concat bs' = rest.
Proof.
  intros HP Hbs Hcat Ha. revert s bs Hbs Hcat.
  induction Ha as [|x a Hx _ IH]; intros s bs Hbs Hcat; [by eauto|].
  destruct Hbs as [|c b s bs Hb Hbs]; [done|].
  destruct (HP _ _ Hb) as (Hne & Hsp & Hnsp).
  destruct (is_whitespace c) eqn:Hc.
  - rewrite (Hsp eq_refl) in Hcat. simpl in Hcat. injection Hcat as -> Hcat.
    destruct (IH _ _ Hbs Hcat) as (s' & bs' & -> & ? & ?). by eauto.
  - destruct b as [|y b]; [done|]. simpl in Hcat. injection Hcat as -> Hcat.
    apply Forall_cons_1 in Hnsp as [Hy _]; [congruence|done].
Qed.

Lemma blocks_trailing_space s bs rest b :
  (∀ c b, P c b → block_ws c b) →
  Forall2 P s bs → concat bs = rest ++ b → all_space b →
  ∃ s' bs', s = s' ++ b ∧ Forall2 P s' bs' ∧ concat bs' = rest.
Proof.
  intros HP Hbs Hcat Hb. revert s bs Hbs Hcat.
  induction b as [|x b IH] using rev_ind; intros s bs Hbs Hcat.
  { rewrite app_nil_r in Hcat. exists s, bs. by rewrite app_nil_r. }
  apply all_p_app in Hb as [Hb Hx%Forall_inv].
  destruct bs as [|bl bs _] using rev_ind.
  { simpl in Hcat. by destruct rest, b. }
  apply Forall2_app_inv_r in Hbs as (s0 & s1 & Hbs0 & Hbs1 & ->).
  apply Forall2_cons_inv_r in Hbs1 as (c & s2 & Hbl & ->%Forall2_nil_inv_r & ->).
  destruct (HP _ _ Hbl) as (Hne & Hsp & Hnsp).
  rewrite concat_app in Hcat. simpl in Hcat. rewrite app_nil_r in Hcat.
  destruct bl as [|y bl _] using rev_ind; [done|].
  rewrite !app_assoc in Hcat. apply app_inj_tail in Hcat as [Hcat ->].
  destruct (is_whitespace c) eqn:Hc.
  - specialize (Hsp eq_refl). apply (app_inj_tail bl [] x c) in Hsp as [-> ->].
    rewrite app_nil_r in Hcat.
    destruct (IH Hb _ _ Hbs0 Hcat) as (s' & bs' & -> & ? & ?).
    exists s', bs'. by rewrite <-app_assoc.
  - specialize (Hnsp eq_refl). apply Forall_app in Hnsp as [_ Hy%Forall_inv].
    simpl in Hx, Hy. congruence.
Qed.

Lemma blocks_ascii s bs k :
  (∀ c b, P c b → block_ascii c b) →
  Forall2 P s bs → concat bs = k → Forall (λ d, (d < 128)%N) k →
  Forall2 lowers_to s k.
Proof.
  intros HP Hbs. revert k. induction Hbs as [|c b s bs Hb _ IH]; intros k <- Hk.
  { constructor. }
  simpl in Hk. apply Forall_app in Hk as [Hkb Hk].
  destruct (HP _ _ Hb Hkb) as (d & -> & Hd). constructor; [done|]. by apply IH.
Qed.

End blocks.

Section normal_form.
Context `{UnicodeDB}.
Implicit Types s k : pystr.

Lemma lowers_to_no_sigma s k :
  Forall2 lowers_to s k → Forall (λ c, c ≠ capital_sigma) s.
Proof.
  induction 1 as [|c d s k [[Hc _]|[-> _]] _ IH]; constructor; try done.
  unfold capital_sigma. lia.
Qed.

Lemma all_space_no_sigma s : all_space s → Forall (λ c, c ≠ capital_sigma) s.
Proof. intros Hs. eapply Forall_impl; [done|]. intros c Hc ->. by vm_compute in Hc. Qed.

Lemma lowers_to_lower s k : Forall2 lowers_to s k → py_lower s = k.
Proof.
  intros Hs. unfold py_lower.
  rewrite lower_from_no_sigma by by eapply lowers_to_no_sigma.
  induction Hs as [|c d s k [[Hc ->]|[-> ->]] _ IH]; [done|..]; rewrite bind_cons, IH.
  - by rewrite lower_ascii.
  - by rewrite lower_kelvin.
Qed.

(** C30. The strings that [.lower().strip()] maps to a given trimmed
    string of Basic Latin are exactly: a run of whitespace, then code
    points that lower to it one by one (a Basic Latin letter in either
    case, or the Kelvin sign for the letter k), then a run of
    whitespace.  This holds for every Unicode database that satisfies
    [UnicodeDB]; the final-sigma rule never interferes. *)
Theorem lower_strip_hits k s :
  Forall (λ d, (d < 128)%N) k → trimmed_str k →
  py_strip (py_lower s) = k ↔
  ∃ a m b, s = a ++ m ++ b ∧ all_space a ∧ all_space b ∧ Forall2 lowers_to m k.
Proof.
  intros Hk Htrim. split.
  - intros Hs. destruct (py_strip_spec (py_lower s)) as (a & b & Hcat & Ha & Hb & _).
    rewrite Hs in Hcat. unfold py_lower in Hcat. rewrite lower_from_blocks in Hcat.
    pose proof (lower_blocks_ok [] s) as Hbs.
    eapply blocks_leading_space in Hbs as (s1 & bs1 & -> & Hbs & Hcat1);
      [|by intros ?? [??]|done..].
    eapply blocks_trailing_space in Hbs as (s2 & bs2 & -> & Hbs & Hcat2);
      [|by intros ?? [??]|done..].
    exists a, s2, b. split_and!; [done..|].
    eapply blocks_ascii; [|done..]. by intros ?? [??].
  - intros (a & m & b & -> & Ha & Hb & Hm).
    assert (Forall (λ c, c ≠ capital_sigma) (a ++ m ++ b)) as Hsig.
    { rewrite !Forall_app. split_and!;
        [by apply all_space_no_sigma|by eapply lowers_to_no_sigma
        |by apply all_space_no_sigma]. }
    rewrite py_lower_app_no_sigma by done.
    rewrite py_lower_app_no_sigma by by apply Forall_app in Hsig as [_ ?].
    rewrite (py_lower_space a), (py_lower_space b), (lowers_to_lower m k) by done.
    by apply (py_strip_unique _ a k b).
Qed.

(** When the target has no letter k, only Basic Latin lowers to it. *)
Lemma lowers_to_plain s k :
  107%N ∉ k → Forall2 lowers_to s k →
  Forall (λ c, (c < 128)%N) s ∧ ascii_lower <$> s = k.
Proof.
  intros Hk Hs. induction Hs as [|c d s k Hcd _ IH]; [done|].
  apply not_elem_of_cons in Hk as [Hd Hk]. destruct (IH Hk) as [? <-].
  destruct Hcd as [[Hc ->]|[_ ->]]; [|done]. by split; [constructor|].
Qed.

Lemma lowers_to_ascii s :
  Forall (λ c, (c < 128)%N) s → Forall2 lowers_to s (ascii_lower <$> s).
Proof. induction 1; constructor; [by left|done]. Qed.

End normal_form.

(** ** [strip] and [lower] commute *)

Section commute.
Context `{UnicodeDB}.
Implicit Types s a b m before after : pystr.

(** The two tests of [final_sigma], one on each side. *)
Definition cased_before before : bool :=
  match drop_while is_case_ignorable before with
  | c :: _ => is_cased c
  | [] => false
  end.

Definition uncased_after after : bool :=
  match drop_while is_case_ignorable after with
  | c :: _ => negb (is_cased c)
  | [] => true
  end.

Lemma final_sigma_sides before after :
  final_sigma before after = cased_before before && uncased_after after.
Proof. done. Qed.

(** A run of whitespace next to a context is the end of the string to
    the final-sigma rule. *)
Lemma cased_before_space before a :
  all_space a → cased_before (before ++ a) = cased_before before.
Proof.
  intros Ha. unfold cased_before.
  induction before as [|c before IH]; simpl; [|by destruct (is_case_ignorable c)].
  destruct Ha as [|x a Hx _]; [done|]. simpl.
  destruct (space_uncased x Hx) as [Hc Hi]. by rewrite Hi, Hc.
Qed.

Lemma uncased_after_space after b :
  all_space b → uncased_after (after ++ b) = uncased_after after.
Proof.
  intros Hb. unfold uncased_after.
  induction after as [|c after IH]; simpl; [|by destruct (is_case_ignorable c)].
  destruct Hb as [|x b Hx _]; [done|]. simpl.
  destruct (space_uncased x Hx) as [Hc Hi]. by rewrite Hi, Hc.
Qed.

Lemma lower_ucs4_padded before a c after b :
  all_space a → all_space b →
  lower_ucs4 (before ++ a) c (after ++ b) = lower_ucs4 before c after.
Proof.
  intros Ha Hb. unfold lower_ucs4. rewrite !final_sigma_sides.
  by rewrite cased_before_space, uncased_after_space.
Qed.

Lemma lower_from_leading_space before a s :
  all_space a → lower_from before (a ++ s) = a ++ lower_from (reverse a ++ before) s.
Proof.
  intros Ha. revert before. induction Ha as [|c a Hc _ IH]; intros; simpl; [done|].
  rewrite lower_ucs4_space, IH by done. by rewrite reverse_cons, <-app_assoc.
Qed.

Lemma lower_from_padded before a m b :
  all_space a → all_space b →
  lower_from (before ++ a) (m ++ b) = lower_from before m ++ b.
Proof.
  intros Ha Hb. revert before. induction m as [|c m IH]; intros; simpl.
  - by apply lower_from_space.
  - rewrite lower_ucs4_padded, <-app_assoc by done. f_equal. apply (IH (c :: before)).
Qed.

(** Lowering leaves the whitespace around a string where it is and
    lowers what is between as if it stood alone. *)
Lemma py_lower_padded a m b :
  all_space a → all_space b → py_lower (a ++ m ++ b) = a ++ py_lower m ++ b.
Proof.
  intros Ha Hb. unfold py_lower. rewrite lower_from_leading_space, app_nil_r by done.
  f_equal. apply (lower_from_padded [] (reverse a)); [by apply all_p_reverse|done].
Qed.

Lemma blocks_head_nonspace s bs c :
  Forall2 block_ws s bs → head s = Some c → is_whitespace c = false →
  ∃ d, head (concat bs) = Some d ∧ is_whitespace d = false.
Proof.
  intros Hbs Hc Hns. destruct Hbs as [|c' b s bs (Hne & _ & Hb) _]; simplify_eq/=.
  destruct b as [|d b]; [done|]. exists d. split; [done|].
  by apply Forall_inv in Hb.
Qed.

Lemma blocks_last_nonspace s bs c :
  Forall2 block_ws s bs → last s = Some c → is_whitespace c = false →
  ∃ d, last (concat bs) = Some d ∧ is_whitespace d = false.
Proof.
  intros Hbs Hc Hns. destruct s as [|x s _] using rev_ind; [done|].
  rewrite last_snoc in Hc. simplify_eq.
  apply Forall2_app_inv_l in Hbs as (bs0 & bs1 & _ & Hbs1 & ->).
  apply Forall2_cons_inv_l in Hbs1 as (b & bs2 & (Hne & _ & Hb) & ->%Forall2_nil_inv_l & ->).
  rewrite concat_app. simpl. rewrite app_nil_r.
  destruct b as [|d b _] using rev_ind; [done|]. rewrite app_assoc, last_snoc.
  exists d. split; [done|]. by apply Forall_app in Hb as [_ ?%Forall_inv].
Qed.

(** Lowering a trimmed string gives a trimmed string. *)
Lemma py_lower_trimmed m : trimmed_str m → trimmed_str (py_lower m).
Proof.
  intros [Hh Hl]. unfold py_lower. rewrite lower_from_blocks.
  assert (Forall2 block_ws m (lower_blocks [] m)) as Hbs.
  { eapply Forall2_impl; [apply lower_blocks_ok|]. by intros ?? [??]. }
  split; intros d Hd.
  - destruct (head m) as [c|] eqn:Hc.
    + destruct (blocks_head_nonspace _ _ c Hbs Hc (Hh c eq_refl)) as (d' & ? & ?).
      by simplify_eq.
    + apply head_None in Hc as ->. done.
  - destruct (last m) as [c|] eqn:Hc.
    + destruct (blocks_last_nonspace _ _ c Hbs Hc (Hl c eq_refl)) as (d' & ? & ?).
      by simplify_eq.
    + apply last_None in Hc as ->. done.
Qed.

(** C31. Trimming and lowering commute: [s.lower().strip()], what the
    script computes, is [s.strip().lower()], the order in which the
    specification normalises a question.  The final-sigma rule is the
    one place where lowering looks at the neighbours of a code point,
    and it treats whitespace as it treats the end of the string. *)
Theorem lower_strip_commute s : py_strip (py_lower s) = py_lower (py_strip s).
Proof.
  destruct (py_strip_spec s) as (a & b & Hs & Ha & Hb & Htrim).
  rewrite Hs at 1. rewrite py_lower_padded by done.
  eapply py_strip_unique; [done..|]. by apply py_lower_trimmed.
Qed.

End commute.

(** ** The theorems at concrete inputs *)

(** The final-sigma rule at work: a capital sigma at the end of a word
    (before the end of the string, a space, or an apostrophe and then
    the end) lowers to U+03C2, elsewhere to U+03C3; and the whitespace
    around a word does not change what the word lowers to. *)
Example final_sigma_examples :
  py_lower [0x391; 0x3A3]%N = [0x3B1; 0x3C2]%N
  ∧ py_lower [0x391; 0x3A3; 0x391]%N = [0x3B1; 0x3C3; 0x3B1]%N
  ∧ py_lower [0x3A3]%N = [0x3C3]%N
  ∧ py_lower [0x391; 0x3A3; 0x20; 0x391]%N = [0x3B1; 0x3C2; 0x20; 0x3B1]%N
  ∧ py_lower [0x391; 0x27; 0x3A3]%N = [0x3B1; 0x27; 0x3C2]%N
  ∧ py_lower [0x391; 0x3A3; 0x27; 0x391]%N = [0x3B1; 0x3C3; 0x27; 0x3B1]%N
  ∧ py_strip (py_lower [0x20; 0x391; 0x3A3; 0x20]%N) = [0x3B1; 0x3C2]%N.
Proof. by vm_compute. Qed.

Lemma lower_strip_hits_witness :
  py_strip (py_lower (py "  Hello World ")) = py "hello world" ↔
  ∃ a m b, py "  Hello World " = a ++ m ++ b ∧ all_space a ∧ all_space b
           ∧ Forall2 lowers_to m (py "hello world").
Proof.
  apply lower_strip_hits; [by_decide|apply trimmedb_spec; vm_compute; reflexivity].
Defined.
