(* ===== verification/PyObj.v ===== *)
(** * PyObj: exceptions and dicts of Python

    The exceptions the script raises, catches or lets through, with the
    class test of [except Exception], and the three operations on a
    [dict] with string keys that the script uses: the display
    [{k: v, ...}], the test [k in d] and the subscript [d[k]]. *)

From S2P Require Import Prelude PyStr.

(** ** Exceptions *)

(** The classes that matter to [except Exception]: the built-in ones the
    script or its model raises, any other class derived from [Exception]
    (what a library raises), and the built-in classes derived from
    [BaseException] only. *)
Inductive exn_class : Type :=
| ValueError
| KeyError
| AttributeError
| OtherException (name : pystr)
| KeyboardInterrupt
| SystemExit
| GeneratorExit.

(** An exception object: its class and [str(e)]. *)
Record exn : Type := Exn {
  exn_class_of : exn_class;
  exn_str : pystr;
}.

#[export] Instance exn_class_eq_dec : EqDecision exn_class.
Proof. solve_decision. Defined.

#[export] Instance exn_eq_dec : EqDecision exn.
Proof. solve_decision. Defined.

(** [isinstance(e, Exception)] *)
Definition is_Exception (e : exn) : bool :=
  match exn_class_of e with
  | KeyboardInterrupt | SystemExit | GeneratorExit => false
  | ValueError | KeyError | AttributeError | OtherException _ => true
  end.

(** [KeyError(key)]: its [str] is the [repr] of the key.  The keys of the
    script have no quote and no escape in them. *)
Definition key_error (key : pystr) : exn := Exn KeyError (repr_plain key).

(** [ValueError(msg)] *)
Definition value_error (msg : pystr) : exn := Exn ValueError msg.

(** A computation that may raise. *)
Abbreviation pyresult := (result exn).

(** ** Dicts with string keys *)

Section dict.
Context {V : Type}.
Implicit Types (d : gmap pystr V) (k : pystr).

(** The display [{k1: v1, ..., kn: vn}]: items are stored left to right,
    a later item replaces an earlier one with the same key. *)
Definition dict_display (items : list (pystr * V)) : gmap pystr V :=
  foldl (λ d kv, <[kv.1 := kv.2]> d) ∅ items.

(** [k in d] *)
Definition dict_in k d : bool := bool_decide (is_Some (d !! k)).

(** [d[k]] *)
Definition dict_getitem d k : pyresult V :=
  match d !! k with
  | Some v => Ok v
  | None => Raise (key_error k)
  end.

Lemma dict_in_spec k d : dict_in k d = true ↔ is_Some (d !! k).
Proof. unfold dict_in. by rewrite bool_decide_eq_true. Qed.

Lemma dict_in_false k d : dict_in k d = false ↔ d !! k = None.
Proof. unfold dict_in. by rewrite bool_decide_eq_false, eq_None_not_Some. Qed.

Lemma dict_getitem_in k d : dict_in k d = true → ∃ v, dict_getitem d k = Ok v ∧ d !! k = Some v.
Proof. intros [v Hv]%dict_in_spec. exists v. unfold dict_getitem. by rewrite Hv. Qed.

Lemma dict_getitem_missing k d : d !! k = None → dict_getitem d k = Raise (key_error k).
Proof. unfold dict_getitem. by intros ->. Qed.

Lemma dict_display_snoc items k v :
  dict_display (items ++ [(k, v)]) = <[k := v]> (dict_display items).
Proof. unfold dict_display. by rewrite foldl_app. Qed.

Lemma dict_display_lookup_last items k v :
  dict_display (items ++ [(k, v)]) !! k = Some v.
Proof. rewrite dict_display_snoc. apply lookup_insert_eq. Qed.

End dict.

Lemma key_error_is_Exception k : is_Exception (key_error k) = true.
Proof. done. Qed.

#[export] Hint Resolve key_error_is_Exception : py.
