(* ===== verification/Content.v ===== *)
(** * Content: the constants of the script

    [data_dictionary] (src/flood.py, lines 33-99) and [hardcoded_qa]
    (lines 102-127), code point for code point.  A literal of the source
    is written [py "..."]; a double quote inside it is [dq] (or
    [quoted] around a quoted run), a line break [nl], a code point
    outside Basic Latin is given by its number.  [data_dictionary_lines]
    has one element per line of the triple-quoted literal, in order. *)

From S2P Require Import Prelude PyStr PyObj.

(** ** The data dictionary *)

(** Every line followed by its line break. *)
Definition unlines (ls : list pystr) : pystr := concat ((λ l, l ++ nl) <$> ls).

Definition data_dictionary_lines : list pystr := [
  py "### Detailed Data Dictionary for 'flood.db'";
  [];
  py "The database contains three tables: **inundation_forecasting**, **rainfall**, and **alerts**.";
  py "Below is a detailed breakdown of each column and their relationships.";
  [];
  py "---";
  [];
  py "#### 1. inundation_forecasting";
  py "- **datetime**: Timestamp indicating the date and time of the forecast (e.g. " ++ quoted (py "2025-01-01 08:00:00") ++ py ").";
  py "- **ht_forecast**: Numerical value representing the predicted water height or inundation level (e.g. " ++ quoted (py "5.2 feet") ++ py ").";
  py "- **latitude**: Geographic latitude coordinate for the forecast location (e.g. " ++ quoted (py "24.4539") ++ py ").";
  py "- **longitude**: Geographic longitude coordinate for the forecast location (e.g. " ++ quoted (py "54.3773") ++ py ").";
  [];
  py "**Purpose**:  ";
  py "This table is used to store predictive data for flooding. The `ht_forecast` helps determine flood severity, and the lat/long fields map exactly where the forecast is applicable.";
  [];
  py "---";
  [];
  py "#### 2. rainfall";
  py "- **precipInches**: Amount of rainfall measured in inches (e.g. " ++ quoted (py "0.75") ++ py ").";
  py "- **deviceId**: Unique identifier of the device recording rainfall (e.g. " ++ quoted (py "R123") ++ py ").";
  py "- **deviceLabel**: Human-readable label/name of the device (e.g. " ++ quoted (py "Downtown Rain Gauge") ++ py ").";
  py "- **region**: Region or area name associated with the device (e.g. " ++ quoted (py "Abu Dhabi City Center") ++ py ").";
  py "- **msr_date**: Date of the measurement (e.g. " ++ quoted (py "2025-01-05") ++ py ").";
  py "- **msr_time**: Time of the measurement (e.g. " ++ quoted (py "14:30:00") ++ py ").";
  py "- **latitude**: Geographic latitude coordinate of the device (e.g. " ++ quoted (py "24.4539") ++ py ").";
  py "- **longitude**: Geographic longitude coordinate of the device (e.g. " ++ quoted (py "54.3773") ++ py ").";
  py "- **msr_dttm**: Combined date-time of the measurement, often used for queries and analysis (e.g. " ++ quoted (py "2025-01-05 14:30:00") ++ py ").";
  [];
  py "**Purpose**:  ";
  py "This table tracks rainfall data from various devices. The `region` column can be linked to the region in alerts or used in conjunction with lat/long to match forecasting data or alerts.";
  [];
  py "---";
  [];
  py "#### 3. alerts";
  py "- **alertType**: Type of alert (e.g. " ++ quoted (py "Flood Warning") ++ py ", " ++ quoted (py "Flash Flood") ++ py ", " ++ quoted (py "High Tide") ++ py ").";
  py "- **alertSubtype**: More specific subtype of the alert (e.g. " ++ quoted (py "Severe") ++ py ", " ++ quoted (py "Moderate") ++ py ").";
  py "- **alertSeverity**: Severity level (e.g. " ++ quoted (py "Critical") ++ py ", " ++ quoted (py "High") ++ py ", " ++ quoted (py "Medium") ++ py ", " ++ quoted (py "Low") ++ py ").";
  py "- **alertMessage**: Text describing the alert (e.g. " ++ quoted (py "Flash Flood Watch in effect until 6 PM.") ++ py ").";
  py "- **deviceId**: Device ID associated with the alert; may link to `rainfall.deviceId` if relevant.";
  py "- **region**: Region name where the alert is applicable (e.g. " ++ quoted (py "Al Nahdah") ++ py ").";
  py "- **msr_dttm**: Combined date-time when the alert was issued (e.g. " ++ quoted (py "2025-01-05 14:45:00") ++ py ").";
  py "- **msr_date**: Date when the alert was issued (e.g. " ++ quoted (py "2025-01-05") ++ py ").";
  py "- **msr_time**: Time when the alert was issued (e.g. " ++ quoted (py "14:45:00") ++ py ").";
  py "- **msr_month**: Month of the alert, either numeric or textual (e.g. " ++ quoted (py "January") ++ py " or " ++ quoted (py "01") ++ py ").";
  py "- **Lat**: Latitude coordinate of the alert location (e.g. " ++ quoted (py "24.4539") ++ py ").";
  py "- **Long**: Longitude coordinate of the alert location (e.g. " ++ quoted (py "54.3773") ++ py ").";
  [];
  py "**Purpose**:  ";
  py "This table stores alerts that have been triggered, including the type of flood alert, severity, and location details.";
  [];
  py "---";
  [];
  py "### Potential Relationships:";
  py "1. **alerts.deviceId** " ++ [0x21D4%N] ++ py " **rainfall.deviceId**:  ";
  py "   If both the `alerts` and `rainfall` tables share the same device ID, they can be joined to correlate which specific rainfall device triggered an alert.";
  py "2. **alerts.region** " ++ [0x21D4%N] ++ py " **rainfall.region**:  ";
  py "   If you want to track all alerts for a given region, you can join on the `region` column. The same can be done with `inundation_forecasting` if you assign region names consistently or rely on the lat/long proximity to match the region.";
  py "3. **Spatial/Geographic Matching**:  ";
  py "   By comparing lat/long values in `inundation_forecasting`, `rainfall`, and `alerts`, you can determine how different meteorological or hydrological events line up in the same area.";
  [];
  py "---";
  [];
  py "### Usage:";
  py "Use this data dictionary to understand the purpose of each field when querying the database or building flood-related analytics."
].

(** The literal opens with a line break (the text starts on the line
    after the opening quotes) and every line of it ends with one. *)
Definition data_dictionary : pystr := nl ++ unlines data_dictionary_lines.

(** ** The canned questions and answers *)

Definition question_high_impact : pystr :=
  py "which area will have a high impact for future floods".

Definition answer_high_impact : pystr :=
  py "Based on our historical data and current forecasting models, " ++
  py "the areas that exhibit the highest vulnerability to future flood events " ++
  py "are **Al Adlah**, **Al Nahdah**, **Bu Deeb**, and **Al Haffar**. " ++
  py "These locations consistently appear in our inundation forecasts due to " ++
  py "their geographical profiles and proximity to low-lying flood plains.".

Definition question_recommendation : pystr :=
  py "recommendation to reduce impact".

Definition answer_recommendation : pystr :=
  (py "To mitigate the risk in these high-impact areas, we recommend an integrated approach:" ++ nl ++ nl) ++
  py "1. **Infrastructure Upgrades**: Enhance and maintain drainage systems, and consider building " ++
  (py "   protective levees or flood barriers." ++ nl) ++
  (py "2. **Smart Monitoring**: Install additional rainfall gauges and flood sensors for real-time monitoring." ++ nl) ++
  (py "3. **Urban Planning**: Implement zoning regulations to limit construction in flood-prone zones." ++ nl) ++
  py "4. **Community Preparedness**: Conduct regular flood drills, ensure early-warning systems are in place, " ++
  py "   and provide public education on emergency response.".

Definition question_why_impacted : pystr :=
  py "why are these areas impacted".

Definition answer_why_impacted : pystr :=
  (py "These regions are particularly vulnerable due to a combination of factors:" ++ nl ++ nl) ++
  (py "- **Topography**: Areas like Al Adlah and Al Nahdah have lower elevations, causing water to accumulate." ++ nl) ++
  (py "- **Coastal Proximity**: Bu Deeb is near a coastal plain, making it susceptible to storm surges." ++ nl) ++
  (py "- **Drainage and Infrastructure**: Al Haffar" ++ [0x2019%N] ++ py "s drainage systems may require updates to handle heavy rainfall." ++ nl) ++
  py "- **Historical Patterns**: Data shows these areas have experienced recurring flood incidents, " ++
  py "   indicating underlying vulnerabilities that require focused intervention.".

(** The dict display of lines 102-127. *)
Definition hardcoded_qa : gmap pystr pystr :=
  dict_display [
    (question_high_impact, answer_high_impact);
    (question_recommendation, answer_recommendation);
    (question_why_impacted, answer_why_impacted)
  ].

(** ** Lemmas on the constants *)

Lemma questions_distinct :
  question_high_impact ≠ question_recommendation
  ∧ question_high_impact ≠ question_why_impacted
  ∧ question_recommendation ≠ question_why_impacted.
Proof. split_and!; by vm_compute. Qed.

Lemma hardcoded_qa_unfold :
  hardcoded_qa
  = <[question_why_impacted := answer_why_impacted]>
      (<[question_recommendation := answer_recommendation]>
         (<[question_high_impact := answer_high_impact]> ∅)).
Proof. done. Qed.

Lemma hardcoded_qa_lookup k a :
  hardcoded_qa !! k = Some a ↔
  (k = question_high_impact ∧ a = answer_high_impact)
  ∨ (k = question_recommendation ∧ a = answer_recommendation)
  ∨ (k = question_why_impacted ∧ a = answer_why_impacted).
Proof.
  destruct questions_distinct as (H12 & H13 & H23).
  rewrite hardcoded_qa_unfold, !lookup_insert_Some, lookup_empty.
  split; [|intros [[-> ->]|[[-> ->]|[-> ->]]]; by eauto 10].
  intros [[<- <-]|[? [[<- <-]|[? [[<- <-]|[_ [=]]]]]]]; by eauto.
Qed.

Lemma hardcoded_qa_None k :
  hardcoded_qa !! k = None ↔
  k ≠ question_high_impact ∧ k ≠ question_recommendation ∧ k ≠ question_why_impacted.
Proof.
  rewrite hardcoded_qa_unfold, !lookup_insert_None, lookup_empty.
  split; [intros [[[_ ?] ?] ?]|intros (? & ? & ?)]; by split_and!.
Qed.

(** The questions are Basic Latin, in lower case, trimmed, and have no
    letter k (the one letter a code point outside Basic Latin lowers to). *)
Definition plain_key (k : pystr) : Prop :=
  Forall (λ d, (d < 128)%N) k ∧ trimmed_str k ∧ (107%N ∉ k)
  ∧ (ascii_lower <$> k) = k.

Lemma hardcoded_qa_plain_keys k a : hardcoded_qa !! k = Some a → plain_key k.
Proof.
  intros [[-> _]|[[-> _]|[-> _]]]%hardcoded_qa_lookup;
    (split_and!; [by_decide|apply trimmedb_spec; by vm_compute|by_decide|by vm_compute]).
Qed.
