(* ===== verification/Agent.v ===== *)
(** * Agent: the interface of the SQL agent

    The script calls [agent_executor.invoke({"input": query})] and reads
    the entry ["output"] of what it returns (src/flood.py, line 153).
    Everything behind that call (the LLM, the SQL it writes, the
    database) is a library: the class [Agent] says what the script can
    rely on, which is only the shape of the call.  A world [W] stands for
    whatever the call can read and change.

    Instances: [scripted_agent] replays a list of replies and records
    the inputs it was given; [logged_agent] wraps any agent and records
    its inputs; [service_agent] is the agent made from a function of the
    prompt, the view the specification takes of the service.

    The script also builds the agent, on every execution (lines 24-30):
    four constructor calls of SQLAlchemy and LangChain.  The class
    [Backend] is the interface for them: a call is a value of
    [library_call] that carries its arguments, it may raise and may
    change the world.  Instances: [ready_backend] (every constructor
    succeeds), [failing_backend] (one of them raises),
    [traced_backend] and [traced_agent] (any backend and any agent,
    with a record of the calls in the order they were made). *)

From S2P Require Import Prelude PyStr PyObj.

(** [invoke input]: returns a dict or raises, and may change the world. *)
Class Agent (W : Type) := invoke : gmap pystr pystr → sx W exn (gmap pystr pystr).

#[global] Hint Mode Agent ! : typeclass_instances.

(** ** A scripted agent *)

Record scripted : Type := Scripted {
  pending : list (pyresult (gmap pystr pystr));
  received : list (gmap pystr pystr);
}.

Definition script_exhausted : exn :=
  Exn (OtherException (py "RuntimeError")) (py "no reply left").

#[export] Instance scripted_agent : Agent scripted := λ input w,
  match pending w with
  | [] => (Raise script_exhausted, Scripted [] (received w ++ [input]))
  | reply :: rest => (reply, Scripted rest (received w ++ [input]))
  end.

(** ** Any agent, with a record of its inputs *)

Definition logged (W : Type) : Type := W * list (gmap pystr pystr).

#[export] Instance logged_agent `{Agent W} : Agent (logged W) := λ input wl,
  let '(r, w') := invoke input wl.1 in (r, (w', wl.2 ++ [input])).

(** ** The agent made from a function of the prompt *)

(** The answering service as the specification sees it: from the prompt
    to a text or an error. *)
Definition service : Type := pystr → pyresult pystr.

#[export] Instance service_agent (f : service) : Agent () := λ input w,
  match input !! py "input" with
  | Some prompt =>
      match f prompt with
      | Ok out => (Ok {[py "output" := out]}, w)
      | Raise e => (Raise e, w)
      end
  | None => (Raise (key_error (py "input")), w)
  end.

(** ** Lemmas *)

Lemma logged_invoke_fst `{Agent W} input (wl : logged W) :
  (invoke input wl).1 = (invoke input wl.1).1
  ∧ (invoke input wl).2.1 = (invoke input wl.1).2.
Proof. unfold invoke at 1 3, logged_agent. by destruct (invoke input wl.1). Qed.

Lemma logged_invoke_log `{Agent W} input (wl : logged W) :
  (invoke input wl).2.2 = wl.2 ++ [input].
Proof. unfold invoke at 1, logged_agent. by destruct (invoke input wl.1). Qed.

(** ** The libraries that build the agent *)

(** The arguments of [ChatOpenAI(model=..., temperature=...)]. *)
Record llm_config : Type := LlmConfig {
  llm_model : pystr;
  llm_temperature : N;
}.

(** The arguments of [create_sql_agent(llm, db=..., agent_type=...,
    verbose=...)]; the database is known by the URL of its engine. *)
Record agent_config : Type := AgentConfig {
  agent_llm : llm_config;
  agent_db : pystr;
  agent_type : pystr;
  agent_verbose : bool;
}.

(** A constructor call with its arguments.  [ChatOpenAI] takes the API
    key from the process environment: the call carries what it finds
    there. *)
Inductive library_call : Type :=
| CreateEngine (url : pystr)
| SqlDatabase (engine_url : pystr)
| ChatOpenAI (cfg : llm_config) (api_key : option pystr)
| CreateSqlAgent (cfg : agent_config).

#[export] Instance llm_config_eq_dec : EqDecision llm_config.
Proof. solve_decision. Defined.
#[export] Instance agent_config_eq_dec : EqDecision agent_config.
Proof. solve_decision. Defined.
#[export] Instance library_call_eq_dec : EqDecision library_call.
Proof. solve_decision. Defined.

(** [construct c]: returns or raises, and may change the world. *)
Class Backend (W : Type) := construct : library_call → sx W exn ().

#[global] Hint Mode Backend ! : typeclass_instances.

(** Every constructor succeeds and leaves the world as it is. *)
Definition ready_backend {W : Type} : Backend W := λ _ w, (Ok (), w).

(** The constructor call [bad] raises [e]; the others succeed. *)
Definition failing_backend {W : Type} (bad : library_call) (e : exn) : Backend W :=
  λ c w, (if decide (c = bad) then Raise e else Ok (), w).

(** ** The libraries, with a record of what was called *)

(** A call of a library, as an observer of the process sees it. *)
Inductive library_event : Type :=
| Constructed (c : library_call)
| Invoked (input : gmap pystr pystr).

#[export] Instance library_event_eq_dec : EqDecision library_event.
Proof. solve_decision. Defined.

(** Any backend and any agent, with the calls in the order they were
    made. *)
Definition traced (W : Type) : Type := W * list library_event.

#[export] Instance traced_backend `{Backend W} : Backend (traced W) := λ c wl,
  let '(r, w') := construct c wl.1 in (r, (w', wl.2 ++ [Constructed c])).

#[export] Instance traced_agent `{Agent W} : Agent (traced W) := λ input wl,
  let '(r, w') := invoke input wl.1 in (r, (w', wl.2 ++ [Invoked input])).

Lemma traced_construct `{Backend W} c (wl : traced W) :
  construct c wl
  = ((construct c wl.1).1, ((construct c wl.1).2, wl.2 ++ [Constructed c])).
Proof. unfold construct at 1, traced_backend. by destruct (construct c wl.1). Qed.

Lemma traced_invoke `{Agent W} input (wl : traced W) :
  invoke input wl = ((invoke input wl.1).1, ((invoke input wl.1).2, wl.2 ++ [Invoked input])).
Proof. unfold invoke at 1, traced_agent. by destruct (invoke input wl.1). Qed.

(** A sequence of constructor calls records the calls it reached: all
    of them when it returns, and otherwise those up to the one that
    raised.  The calls it reached are the run: made one after the other
    on the backend that is traced, they give the result and leave the
    world of the whole sequence, and when the sequence raises, the
    exception is the one of the last call on record. *)
Lemma traced_constructs `{Backend W} cs (wl : traced W) :
  ∃ reached, (sx_for cs construct wl).2.2 = wl.2 ++ (Constructed <$> reached)
             ∧ reached `prefix_of` cs
             ∧ (sx_for cs construct wl).1 = (sx_for cs construct wl.1).1
             ∧ ((sx_for cs construct wl).1 = Ok () → reached = cs)
             ∧ sx_for reached construct wl.1
               = ((sx_for cs construct wl).1, (sx_for cs construct wl).2.1)
             ∧ (∀ e, (sx_for cs construct wl).1 = Raise e →
                ∃ c w, last reached = Some c
                       ∧ construct c w = (Raise e, (sx_for cs construct wl).2.1)).
Proof.
  revert wl. induction cs as [|c cs IH]; intros wl.
  { exists []. by rewrite app_nil_r. }
  cbn [sx_for]. unfold mbind, sx_bind. rewrite traced_construct.
  destruct (construct c wl.1) as [[[]|e] w1] eqn:Hc; cbn [fst snd].
  - destruct (IH (w1, wl.2 ++ [Constructed c]))
      as (reached & Htr & Hpre & Hres & Hok & Hrun & Hlast).
    exists (c :: reached). cbn [fst snd sx_for] in *. unfold mbind, sx_bind.
    rewrite Htr, <-app_assoc, Hc.
    split_and!; [done|by apply prefix_cons|done|by intros ->%Hok|done|].
    intros e (c' & w & Hl & Hw)%Hlast. exists c', w. by rewrite last_cons, Hl.
  - exists [c]. cbn [sx_for]. unfold mbind, sx_bind. rewrite Hc.
    split_and!; [done|by apply prefix_cons, prefix_nil|done..|].
    intros ? [= <-]. by exists c, wl.1.
Qed.
