(* ===== verification/Runtime.v ===== *)
(** * Runtime: what one execution of the script runs on

    The state one execution of [src/flood.py] reads and writes
    ([run_state]) and the library calls of the script as operations on
    it: [os.getenv], [os.environ[k] = v], [load_dotenv], the Streamlit
    calls [st.title], [st.write], [st.markdown], [st.text_input], the
    attributes of [st.session_state], [agent_executor.invoke] and the
    constructor calls that build the agent.

    [st.session_state] holds the entries the script stores
    ([session_state]) and the values of keyed widgets ([widget_state]).
    Streamlit keeps both under one name space; the script uses the keys
    ["conversation"] for the first and ["user_input"] for the second,
    so the model keeps two maps. *)

From S2P Require Import Prelude PyStr PyObj Agent.

(** A conversation turn: the tuple [(speaker, message)]. *)
Abbreviation turn := (pystr * pystr)%type.

(** An element an execution puts on the page. *)
Inductive ui_elem : Type :=
| Title (text : pystr)
| Write (text : pystr)
| TextInput (label key value : pystr)
| Markdown (text : pystr).

#[export] Instance ui_elem_eq_dec : EqDecision ui_elem.
Proof. solve_decision. Defined.

Record run_state (W : Type) : Type := RunState {
  world : W;
  environ : gmap pystr pystr;
  session_state : gmap pystr (list turn);
  widget_state : gmap pystr pystr;
  page : list ui_elem;
}.

Arguments RunState {W} _ _ _ _ _.
Arguments world {W} _.
Arguments environ {W} _.
Arguments session_state {W} _.
Arguments widget_state {W} _.
Arguments page {W} _.

(** A piece of the script: it runs on the state and may raise. *)
Abbreviation script W A := (sx (run_state W) exn A).

Section runtime.
Context {W : Type}.
Implicit Types (st : run_state W) (k key : pystr).

Definition set_world (w : W) st : run_state W :=
  RunState w (environ st) (session_state st) (widget_state st) (page st).
Definition set_environ (e : gmap pystr pystr) st : run_state W :=
  RunState (world st) e (session_state st) (widget_state st) (page st).
Definition set_session_state (m : gmap pystr (list turn)) st : run_state W :=
  RunState (world st) (environ st) m (widget_state st) (page st).
Definition set_widget_state (m : gmap pystr pystr) st : run_state W :=
  RunState (world st) (environ st) (session_state st) m (page st).
Definition set_page (p : list ui_elem) st : run_state W :=
  RunState (world st) (environ st) (session_state st) (widget_state st) p.

(** ** The process environment *)

(** [os.getenv(k)]: [None] when the variable is not set. *)
Definition os_getenv k : script W (option pystr) :=
  st ← sx_get; mret (environ st !! k).

(** [os.environ[k] = v] *)
Definition os_environ_setitem k (v : pystr) : script W () :=
  sx_modify (λ st, set_environ (<[k := v]> (environ st)) st).

(** [load_dotenv()]: the bindings of the [.env] file are added to the
    environment; a variable that is already set keeps its value. *)
Definition load_dotenv (dotenv : gmap pystr pystr) : script W () :=
  sx_modify (λ st, set_environ (environ st ∪ dotenv) st).

(** ** Streamlit: the page *)

Definition emit (e : ui_elem) : script W () :=
  sx_modify (λ st, set_page (page st ++ [e]) st).

Definition st_title (text : pystr) : script W () := emit (Title text).
Definition st_write (text : pystr) : script W () := emit (Write text).
Definition st_markdown (text : pystr) : script W () := emit (Markdown text).

(** [st.text_input(label, key=key)]: the widget shows and returns the
    value kept under [key]; a widget seen for the first time starts
    with the empty string. *)
Definition st_text_input (label key : pystr) : script W pystr :=
  st ← sx_get;
  let value := default [] (widget_state st !! key) in
  sx_modify (set_widget_state (<[key := value]> (widget_state st)));;
  emit (TextInput label key value);;
  mret value.

(** ** Streamlit: the session state *)

(** [key not in st.session_state] is the negation of this. *)
Definition session_contains key : script W bool :=
  st ← sx_get; mret (dict_in key (session_state st)).

(** [st.session_state.<key> = value] *)
Definition session_setattr key (value : list turn) : script W () :=
  sx_modify (λ st, set_session_state (<[key := value]> (session_state st)) st).

Definition session_attribute_error key : exn :=
  Exn AttributeError (py "st.session_state has no attribute " ++ quoted key).

(** [st.session_state.<key>]: raises when there is no such entry. *)
Definition session_getattr key : script W (list turn) :=
  st ← sx_get;
  match session_state st !! key with
  | Some l => mret l
  | None => sx_raise (session_attribute_error key)
  end.

(** [st.session_state.<key>.append(t)]: the list is changed in place. *)
Definition session_append key (t : turn) : script W () :=
  l ← session_getattr key; session_setattr key (l ++ [t]).

(** ** The libraries behind the script *)

(** A call that works on the world only: nothing else of the state is
    within its reach. *)
Definition world_call {A} (m : sx W exn A) : script W A := λ st,
  let '(r, w') := m (world st) in (r, set_world w' st).

(** [agent_executor.invoke(input)] *)
Definition agent_invoke `{Agent W} (input : gmap pystr pystr)
    : script W (gmap pystr pystr) :=
  world_call (invoke input).

(** A constructor call of lines 24-30. *)
Definition library_construct `{Backend W} (c : library_call) : script W () :=
  world_call (construct c).

End runtime.

(** ** Lemmas: what each operation leaves alone *)

Section runtime_lemmas.
Context {W : Type}.
Implicit Types (st : run_state W) (k key : pystr).

Lemma session_append_ok key t st l :
  session_state st !! key = Some l →
  session_append key t st
  = (Ok (), set_session_state (<[key := l ++ [t]]> (session_state st)) st).
Proof. intros Hl. unfold session_append, session_getattr. sx_unfold. by rewrite Hl. Qed.

Lemma session_append_missing key t st :
  session_state st !! key = None →
  session_append key t st = (Raise (session_attribute_error key), st).
Proof. intros Hl. unfold session_append, session_getattr. sx_unfold. by rewrite Hl. Qed.

Lemma session_append_world key t st :
  world (session_append key t st).2 = world st.
Proof.
  destruct (session_state st !! key) as [l|] eqn:E.
  - by erewrite session_append_ok.
  - by rewrite session_append_missing.
Qed.

(** A call on the world changes the world only. *)
Lemma world_call_eq {A} (m : sx W exn A) st :
  world_call m st = ((m (world st)).1, set_world (m (world st)).2 st).
Proof. unfold world_call. by destruct (m (world st)). Qed.

(** Calls on the world in sequence are one call on the world. *)
Lemma world_call_bind {A B} (m : sx W exn A) (k : A → sx W exn B) st :
  (a ← world_call m; world_call (k a)) st = world_call (m ≫= k) st.
Proof.
  unfold world_call. sx_unfold. destruct (m (world st)) as [[a|e] w1]; [|done].
  cbn [world set_world]. by destruct (k a w1).
Qed.

Lemma session_attribute_error_is_Exception key :
  is_Exception (session_attribute_error key) = true.
Proof. done. Qed.

End runtime_lemmas.

#[export] Hint Resolve session_attribute_error_is_Exception : py.
