(* ===== verification/Resolver.v ===== *)
(** * Resolver: the query handler

    Lines 140-161 of [src/flood.py]: what one execution does with the
    text of the input field.  [handle_input] is the whole [if
    user_input:] block; [user_input_lower], [query], [compute_result],
    [try_body] and [except_clause] are its parts, named after the
    variables and clauses of the source.

    The theorems give the outcome of the handler on every branch (canned
    answer, answer of the agent, error of the agent, missing entry in the
    reply, exception that [except Exception] does not catch, empty
    input), what the handler never touches, and which inputs take the
    canned branch. *)

From S2P Require Import Prelude PyStr PyObj Content Agent Runtime.

(** The attribute of [st.session_state] that holds the transcript. *)
Definition conversation_key : pystr := py "conversation".

Definition speaker_user : pystr := py "User".
Definition speaker_assistant : pystr := py "Assistant".

Section resolver.
Context {udb : UnicodeDB} {W : Type} {agent : Agent W}.
Implicit Types (st : run_state W) (user_input : pystr).

(** Line 142: [user_input.lower().strip()]. *)
Definition user_input_lower user_input : pystr :=
  py_strip (py_lower user_input).

(** Line 145: the f-string that carries the data dictionary, two line
    breaks and the input as typed. *)
Definition query user_input : pystr :=
  data_dictionary ++ nl ++ nl ++ user_input.

(** The argument of [invoke] on line 153. *)
Definition agent_input user_input : gmap pystr pystr :=
  dict_display [(py "input", query user_input)].

(** Lines 149-153: the value bound to [result]. *)
Definition compute_result user_input : script W pystr :=
  if dict_in (user_input_lower user_input) hardcoded_qa
  then sx_lift (dict_getitem hardcoded_qa (user_input_lower user_input))
  else reply ← agent_invoke (agent_input user_input);
       sx_lift (dict_getitem reply (py "output")).

(** Lines 148-156: the body of the [try]. *)
Definition try_body user_input : script W () :=
  answer ← compute_result user_input;
  session_append conversation_key (speaker_user, user_input);;
  session_append conversation_key (speaker_assistant, answer).

(** The message of line 158. *)
Definition error_message (e : exn) : pystr := py "Error: " ++ exn_str e.

(** Lines 157-158: [except Exception as e]. *)
Definition except_clause (e : exn) : script W () :=
  session_append conversation_key (speaker_assistant, error_message e).

(** Lines 140-161.  The assignment of line 161 rebinds a local name
    that is not read again: it changes nothing of the state. *)
Definition handle_input user_input : script W () :=
  if truthy user_input
  then sx_try (try_body user_input) is_Exception except_clause
  else mret ().

(** The state [st] with the transcript replaced by [conv]. *)
Definition with_conversation (conv : list turn) st : run_state W :=
  set_session_state (<[conversation_key := conv]> (session_state st)) st.

(** The turns of a successful exchange, in the order they are appended. *)
Definition exchange user_input (answer : pystr) : list turn :=
  [(speaker_user, user_input); (speaker_assistant, answer)].

(** ** The parts of the handler *)

Lemma session_append_conv st conv t :
  session_state st !! conversation_key = Some conv →
  session_append conversation_key t st = (Ok (), with_conversation (conv ++ [t]) st).
Proof. apply session_append_ok. Qed.

Lemma with_conversation_lookup conv st :
  session_state (with_conversation conv st) !! conversation_key = Some conv.
Proof. apply lookup_insert_eq. Qed.

Lemma with_conversation_twice conv1 conv2 st :
  with_conversation conv2 (with_conversation conv1 st) = with_conversation conv2 st.
Proof. unfold with_conversation, set_session_state. simpl. by rewrite insert_insert_eq. Qed.

Lemma session_append_exchange st conv user_input answer :
  session_state st !! conversation_key = Some conv →
  (session_append conversation_key (speaker_user, user_input);;
   session_append conversation_key (speaker_assistant, answer)) st
  = (Ok (), with_conversation (conv ++ exchange user_input answer) st).
Proof.
  intros Hconv. erewrite sx_bind_ok by by apply session_append_conv.
  erewrite session_append_conv by apply with_conversation_lookup.
  by rewrite with_conversation_twice, <-app_assoc.
Qed.

Lemma compute_result_canned user_input st answer :
  hardcoded_qa !! user_input_lower user_input = Some answer →
  compute_result user_input st = (Ok answer, st).
Proof.
  intros Hk. unfold compute_result.
  rewrite (proj2 (dict_in_spec _ _)) by by rewrite Hk.
  unfold sx_lift, dict_getitem. by rewrite Hk.
Qed.

Lemma compute_result_delegated user_input st :
  hardcoded_qa !! user_input_lower user_input = None →
  compute_result user_input st
  = match invoke (agent_input user_input) (world st) with
    | (Ok reply, w') => (dict_getitem reply (py "output"), set_world w' st)
    | (Raise e, w') => (Raise e, set_world w' st)
    end.
Proof.
  intros Hk. unfold compute_result. rewrite (proj2 (dict_in_false _ _)) by done.
  unfold agent_invoke, world_call. sx_unfold.
  by destruct (invoke (agent_input user_input) (world st)) as [[reply|e] w'].
Qed.

Lemma try_body_ok user_input st st1 conv answer :
  compute_result user_input st = (Ok answer, st1) →
  session_state st1 !! conversation_key = Some conv →
  try_body user_input st
  = (Ok (), with_conversation (conv ++ exchange user_input answer) st1).
Proof.
  intros Hres Hconv. unfold try_body. erewrite sx_bind_ok by done.
  by apply session_append_exchange.
Qed.

Lemma try_body_raise user_input st st1 e :
  compute_result user_input st = (Raise e, st1) →
  try_body user_input st = (Raise e, st1).
Proof. intros Hres. unfold try_body. by erewrite sx_bind_raise. Qed.

(** The dict the agent receives, spelled out. *)
Lemma agent_input_eq user_input :
  agent_input user_input = {[py "input" := data_dictionary ++ nl ++ nl ++ user_input]}.
Proof. unfold agent_input, dict_display, query. cbn [foldl fst snd]. apply insert_empty. Qed.

(** ** The handler, branch by branch *)

(** C1. Canned branch: when the normalised input is a key of
    [hardcoded_qa], the handler appends the user turn and the canned
    answer to the transcript, returns normally and leaves everything
    else, the world of the agent included, as it was. *)
Theorem handle_input_canned user_input st conv answer :
  truthy user_input = true →
  session_state st !! conversation_key = Some conv →
  hardcoded_qa !! user_input_lower user_input = Some answer →
  handle_input user_input st
  = (Ok (), with_conversation
              (conv ++ [(py "User", user_input); (py "Assistant", answer)]) st).
Proof.
  intros Hu Hconv Hk. unfold handle_input. rewrite Hu.
  apply sx_try_ok. eapply try_body_ok; [by apply compute_result_canned|done].
Qed.

(** C2. Delegated branch: when the normalised input is no key, the
    agent is called with the dict whose one entry ["input"] is the data
    dictionary, two line breaks and the input as typed (neither trimmed
    nor lowered); when it returns a dict with an entry ["output"], the
    handler appends the user turn and that entry, and the world is the
    one the agent left. *)
Theorem handle_input_delegated user_input st conv reply w' out :
  truthy user_input = true →
  session_state st !! conversation_key = Some conv →
  hardcoded_qa !! user_input_lower user_input = None →
  invoke {[py "input" := data_dictionary ++ nl ++ nl ++ user_input]} (world st)
  = (Ok reply, w') →
  reply !! py "output" = Some out →
  handle_input user_input st
  = (Ok (), with_conversation
              (conv ++ [(py "User", user_input); (py "Assistant", out)])
              (set_world w' st)).
Proof.
  intros Hu Hconv Hk Hinv Hout. unfold handle_input. rewrite Hu.
  apply sx_try_ok. eapply try_body_ok; [|done].
  rewrite compute_result_delegated, agent_input_eq, Hinv by done.
  unfold dict_getitem. by rewrite Hout.
Qed.

(** The outcome of the handler once the [try] body has raised [e] in
    state [st1]. *)
Lemma handle_input_raise user_input st st1 e :
  truthy user_input = true →
  compute_result user_input st = (Raise e, st1) →
  handle_input user_input st
  = if is_Exception e then except_clause e st1 else (Raise e, st1).
Proof.
  intros Hu Hres. unfold handle_input. rewrite Hu.
  apply try_body_raise in Hres. destruct (is_Exception e) eqn:He.
  - by eapply sx_try_caught.
  - by eapply sx_try_uncaught.
Qed.

(** C3. Error branch: when the agent raises an exception of a class
    derived from [Exception], the handler returns normally and appends
    exactly one turn, the assistant turn ["Error: " + str(e)]; the
    question of the user is not recorded. *)
Theorem handle_input_agent_error user_input st conv e w' :
  truthy user_input = true →
  session_state st !! conversation_key = Some conv →
  hardcoded_qa !! user_input_lower user_input = None →
  invoke {[py "input" := data_dictionary ++ nl ++ nl ++ user_input]} (world st)
  = (Raise e, w') →
  is_Exception e = true →
  handle_input user_input st
  = (Ok (), with_conversation
              (conv ++ [(py "Assistant", py "Error: " ++ exn_str e)])
              (set_world w' st)).
Proof.
  intros Hu Hconv Hk Hinv He.
  erewrite handle_input_raise;
    [|done|by rewrite compute_result_delegated, agent_input_eq, Hinv].
  rewrite He. by apply session_append_conv.
Qed.

(** C29. A reply without the entry ["output"]: the subscript raises
    [KeyError], which the handler turns into the assistant turn
    [Error: 'output']. *)
Theorem handle_input_missing_output user_input st conv reply w' :
  truthy user_input = true →
  session_state st !! conversation_key = Some conv →
  hardcoded_qa !! user_input_lower user_input = None →
  invoke {[py "input" := data_dictionary ++ nl ++ nl ++ user_input]} (world st)
  = (Ok reply, w') →
  reply !! py "output" = None →
  handle_input user_input st
  = (Ok (), with_conversation
              (conv ++ [(py "Assistant", py "Error: 'output'")])
              (set_world w' st)).
Proof.
  intros Hu Hconv Hk Hinv Hout.
  erewrite handle_input_raise with (e := key_error (py "output")); [|done|].
  - by apply session_append_conv.
  - rewrite compute_result_delegated, agent_input_eq, Hinv by done.
    by rewrite dict_getitem_missing.
Qed.

(** C28. An exception of the agent that is not derived from [Exception]
    ([KeyboardInterrupt], [SystemExit], [GeneratorExit]) is not caught:
    it leaves the handler, and the transcript is unchanged. *)
Theorem handle_input_uncaught user_input st e w' :
  truthy user_input = true →
  hardcoded_qa !! user_input_lower user_input = None →
  invoke {[py "input" := data_dictionary ++ nl ++ nl ++ user_input]} (world st)
  = (Raise e, w') →
  is_Exception e = false →
  handle_input user_input st = (Raise e, set_world w' st).
Proof.
  intros Hu Hk Hinv He.
  erewrite handle_input_raise;
    [|done|by rewrite compute_result_delegated, agent_input_eq, Hinv].
  by rewrite He.
Qed.

(** The empty input is falsy: the handler does nothing. *)
Lemma handle_input_empty st : handle_input [] st = (Ok (), st).
Proof. done. Qed.

(** ** All branches at once *)

Lemma handle_input_falsy user_input st :
  truthy user_input = false → handle_input user_input st = (Ok (), st).
Proof. unfold handle_input. by intros ->. Qed.


(** What the handler does on a non-empty input when the transcript is
    initialised, as one equation. *)
Lemma handle_input_eq user_input st conv :
  truthy user_input = true →
  session_state st !! conversation_key = Some conv →
  handle_input user_input st
  = match hardcoded_qa !! user_input_lower user_input with
    | Some answer => (Ok (), with_conversation (conv ++ exchange user_input answer) st)
    | None =>
        match invoke (agent_input user_input) (world st) with
        | (Ok reply, w') =>
            match reply !! py "output" with
            | Some out =>
                (Ok (), with_conversation (conv ++ exchange user_input out)
                          (set_world w' st))
            | None =>
                (Ok (), with_conversation
                          (conv ++ [(speaker_assistant, py "Error: 'output'")])
                          (set_world w' st))
            end
        | (Raise e, w') =>
            if is_Exception e
            then (Ok (), with_conversation
                           (conv ++ [(speaker_assistant, error_message e)])
                           (set_world w' st))
            else (Raise e, set_world w' st)
        end
    end.
Proof.
  intros Hu Hconv. destruct (hardcoded_qa !! _) as [answer|] eqn:Hk.
  { unfold handle_input. rewrite Hu. apply sx_try_ok.
    eapply try_body_ok; [by apply compute_result_canned|done]. }
  pose proof (compute_result_delegated user_input st Hk) as Hres.
  destruct (invoke _ _) as [[reply|e] w'].
  - destruct (reply !! py "output") as [out|] eqn:Hout.
    + unfold handle_input. rewrite Hu. apply sx_try_ok.
      eapply try_body_ok; [|done]. rewrite Hres. unfold dict_getitem. by rewrite Hout.
    + rewrite dict_getitem_missing in Hres by done.
      erewrite handle_input_raise by done. by apply session_append_conv.
  - erewrite handle_input_raise by done.
    destruct (is_Exception e); [by apply session_append_conv|done].
Qed.

(** The speakers the handler writes. *)
Definition speaker_ok (t : turn) : Prop :=
  t.1 = speaker_user ∨ t.1 = speaker_assistant.

(** How an execution of the handler relates the state after it to the
    state before it: only the world and the transcript change, and the
    transcript grows by the turns [new]. *)
Definition extends_by (conv new : list turn) st st' : Prop :=
  st' = with_conversation (conv ++ new) (set_world (world st') st).

Lemma extends_by_intro conv new st w' :
  extends_by conv new st (with_conversation (conv ++ new) (set_world w' st)).
Proof. done. Qed.

Lemma extends_by_nil conv st w' :
  session_state st !! conversation_key = Some conv →
  extends_by conv [] st (set_world w' st).
Proof.
  intros Hconv. unfold extends_by, with_conversation, set_session_state. simpl.
  rewrite app_nil_r, insert_id by done. by destruct st.
Qed.

Lemma set_world_id st : set_world (world st) st = st.
Proof. by destruct st. Qed.

Lemma extends_by_same conv new st :
  extends_by conv new st (with_conversation (conv ++ new) st).
Proof. unfold extends_by. simpl. by rewrite set_world_id. Qed.

Lemma extends_by_refl conv st :
  session_state st !! conversation_key = Some conv → extends_by conv [] st st.
Proof.
  intros Hconv. pose proof (extends_by_nil conv st (world st) Hconv) as Hx.
  by rewrite set_world_id in Hx.
Qed.

Lemma speaker_ok_exchange user_input answer : Forall speaker_ok (exchange user_input answer).
Proof. unfold exchange. constructor; [by left|]. constructor; [by right|constructor]. Qed.

Lemma speaker_ok_assistant msg : Forall speaker_ok [(speaker_assistant, msg)].
Proof. constructor; [by right|constructor]. Qed.

(** What one execution of the handler appends: nothing, an exchange, or
    one assistant turn; nothing when it raises. *)
Lemma handle_input_appends user_input st conv r st' :
  session_state st !! conversation_key = Some conv →
  handle_input user_input st = (r, st') →
  ∃ new, extends_by conv new st st' ∧ (r = Ok () ∨ new = [])
         ∧ (new = [] ∨ (∃ answer, new = exchange user_input answer)
            ∨ (∃ msg, new = [(speaker_assistant, msg)])).
Proof.
  intros Hconv. destruct (truthy user_input) eqn:Hu.
  2:{ rewrite handle_input_falsy by done. intros [= <- <-]. exists [].
      split_and!; [by apply extends_by_refl|by left..]. }
  rewrite (handle_input_eq _ _ conv) by done.
  repeat case_match; intros [= <- <-].
  - eexists. split_and!; [apply extends_by_same|by left|by eauto].
  - eexists. split_and!; [apply extends_by_intro|by left|by eauto].
  - eexists. split_and!; [apply extends_by_intro|by left|by eauto].
  - eexists. split_and!; [apply extends_by_intro|by left|by eauto].
  - exists []. split_and!; [by apply extends_by_nil|by right|by left].
Qed.

(** C10. The handler is append-only and frugal: whatever the agent does,
    the state after the handler is the state before it with the world
    the agent left and a transcript extended by at most two turns, each
    spoken by ["User"] or ["Assistant"]; the environment, the widgets
    and the page are untouched; and if the handler raises, nothing was
    appended. *)
Theorem handle_input_frame user_input st conv r st' :
  session_state st !! conversation_key = Some conv →
  handle_input user_input st = (r, st') →
  ∃ new, extends_by conv new st st' ∧ length new ≤ 2 ∧ Forall speaker_ok new
         ∧ (r = Ok () ∨ new = []).
Proof.
  intros Hconv Hrun.
  destruct (handle_input_appends _ _ _ _ _ Hconv Hrun)
    as (new & Hext & Hr & [->|[[answer ->]|[msg ->]]]).
  - exists []. split_and!; [done|simpl; lia|constructor|done].
  - exists (exchange user_input answer).
    split_and!; [done|simpl; lia|apply speaker_ok_exchange|done].
  - exists [(speaker_assistant, msg)].
    split_and!; [done|simpl; lia|apply speaker_ok_assistant|done].
Qed.

(** A handler that returns on a non-empty input has appended an
    assistant turn, last. *)
Lemma handle_input_answers user_input st conv st' :
  truthy user_input = true →
  session_state st !! conversation_key = Some conv →
  handle_input user_input st = (Ok (), st') →
  ∃ new answer,
    session_state st' !! conversation_key
    = Some (conv ++ new ++ [(speaker_assistant, answer)]).
Proof.
  intros Hu Hconv. rewrite (handle_input_eq _ _ conv) by done.
  repeat case_match; intros [= <-]; rewrite with_conversation_lookup;
    first [by eexists [_], _ | by eexists [], _].
Qed.

(** What the handler can raise: only what the agent raised and
    [except Exception] does not match. *)
Lemma handle_input_raise_inv user_input st conv e st' :
  session_state st !! conversation_key = Some conv →
  handle_input user_input st = (Raise e, st') →
  is_Exception e = false
  ∧ invoke (agent_input user_input) (world st) = (Raise e, world st').
Proof.
  intros Hconv. destruct (truthy user_input) eqn:Hu.
  2:{ by rewrite handle_input_falsy. }
  rewrite (handle_input_eq _ _ conv) by done.
  repeat case_match; intros [= <- <-]; by simplify_eq.
Qed.

(** C4. The handler never lets an exception derived from [Exception]
    out: with the transcript initialised, what it raises, if anything,
    is an exception of the agent that [except Exception] does not
    match. *)
Theorem handle_input_raises_only_base user_input st conv e st' :
  session_state st !! conversation_key = Some conv →
  handle_input user_input st = (Raise e, st') →
  is_Exception e = false
  ∧ invoke {[py "input" := data_dictionary ++ nl ++ nl ++ user_input]} (world st)
    = (Raise e, world st').
Proof. rewrite <-agent_input_eq. apply handle_input_raise_inv. Qed.

(** ** Which inputs take the canned branch *)

(** C5. An input takes the canned branch exactly when it is, between
    optional runs of whitespace, a spelling in Basic Latin of one of the
    questions of [hardcoded_qa], in any mix of upper and lower case.  No
    code point outside Basic Latin, and no character more or less,
    reaches the table. *)
Theorem canned_iff user_input :
  is_Some (hardcoded_qa !! user_input_lower user_input) ↔
  ∃ a m b, user_input = a ++ m ++ b ∧ all_space a ∧ all_space b
           ∧ Forall (λ c, (c < 128)%N) m
           ∧ is_Some (hardcoded_qa !! (ascii_lower <$> m)).
Proof.
  split.
  - intros [answer Hk].
    destruct (hardcoded_qa_plain_keys _ _ Hk) as (Hascii & Htrim & Hnok & _).
    destruct (proj1 (lower_strip_hits _ user_input Hascii Htrim) eq_refl)
      as (a & m & b & -> & Ha & Hb & Hm).
    destruct (lowers_to_plain _ _ Hnok Hm) as [Hm' Heq].
    exists a, m, b. split_and!; [done..|]. rewrite Heq. by eexists.
  - intros (a & m & b & -> & Ha & Hb & Hm & [answer Hk]).
    destruct (hardcoded_qa_plain_keys _ _ Hk) as (Hascii & Htrim & _).
    unfold user_input_lower.
    rewrite (proj2 (lower_strip_hits _ (a ++ m ++ b) Hascii Htrim)); [by eexists|].
    exists a, m, b. split_and!; [done..|]. by apply lowers_to_ascii.
Qed.

(** The handler does not change the session state while it computes the
    answer. *)
Lemma compute_result_session user_input st :
  session_state (compute_result user_input st).2 = session_state st.
Proof.
  destruct (hardcoded_qa !! user_input_lower user_input) as [answer|] eqn:Hk.
  - by erewrite compute_result_canned.
  - rewrite compute_result_delegated by done. by repeat case_match.
Qed.

(** C34. Matching ignores the case of Basic Latin letters: two inputs in
    Basic Latin that differ in case only are normalised to the same
    string, and if one of them is answered from the table, the other gets
    the same answer without a call to the agent. *)
Theorem case_insensitive user_input1 user_input2 st answer :
  Forall (λ c, (c < 128)%N) user_input1 →
  Forall (λ c, (c < 128)%N) user_input2 →
  ascii_lower <$> user_input1 = ascii_lower <$> user_input2 →
  user_input_lower user_input1 = user_input_lower user_input2
  ∧ (hardcoded_qa !! user_input_lower user_input1 = Some answer →
     compute_result user_input1 st = (Ok answer, st)
     ∧ compute_result user_input2 st = (Ok answer, st)).
Proof.
  intros H1 H2 Heq.
  assert (user_input_lower user_input1 = user_input_lower user_input2) as Hl.
  { unfold user_input_lower. by rewrite !py_lower_ascii, Heq. }
  split; [done|]. intros Hk.
  split; apply compute_result_canned; [done|by rewrite <-Hl].
Qed.

(** C35. An input made of whitespace only is truthy, is normalised to
    the empty string, which is no key, and so reaches the agent: the
    prompt ends with the whitespace as typed. *)
Theorem blank_input_reaches_agent user_input st :
  user_input ≠ [] → all_space user_input →
  truthy user_input = true
  ∧ user_input_lower user_input = []
  ∧ compute_result user_input st
    = (reply ← agent_invoke (agent_input user_input);
       sx_lift (dict_getitem reply (py "output"))) st.
Proof.
  intros Hne Hsp.
  assert (user_input_lower user_input = []) as Hl.
  { unfold user_input_lower. rewrite py_lower_space by done. by apply strip_by_all. }
  split_and!; [by apply truthy_nonempty|done|].
  unfold compute_result. by rewrite Hl.
Qed.

(** C37. Without the initialisation of lines 134-135 the handler cannot
    succeed on a non-empty input: the first [append] raises
    [AttributeError], the [except] clause catches it and raises it again
    from its own [append].  What leaves the handler is that
    [AttributeError], or an exception of the agent that
    [except Exception] does not match. *)
Theorem handle_input_uninitialised user_input st :
  truthy user_input = true →
  session_state st !! conversation_key = None →
  is_ok (handle_input user_input st).1 = false
  ∧ ∀ e, (handle_input user_input st).1 = Raise e →
         exn_class_of e = AttributeError ∨ is_Exception e = false.
Proof.
  intros Hu Hconv. unfold handle_input, try_body. rewrite Hu.
  pose proof (compute_result_session user_input st) as Hss.
  unfold sx_try, mbind, sx_bind.
  destruct (compute_result user_input st) as [[answer|e] st1]; simpl in Hss.
  - rewrite session_append_missing by by rewrite Hss. simpl.
    unfold except_clause. rewrite session_append_missing by by rewrite Hss.
    split; [done|]. intros ? [= <-]. by left.
  - destruct (is_Exception e) eqn:He; [|split; [done|]; intros ? [= <-]; by right].
    unfold except_clause. rewrite session_append_missing by by rewrite Hss.
    split; [done|]. intros ? [= <-]. by left.
Qed.

(** ** What becomes of the world *)

Lemma compute_result_world user_input st :
  world (compute_result user_input st).2
  = if dict_in (user_input_lower user_input) hardcoded_qa
    then world st
    else (invoke (agent_input user_input) (world st)).2.
Proof.
  destruct (hardcoded_qa !! user_input_lower user_input) as [answer|] eqn:Hk.
  - rewrite (proj2 (dict_in_spec _ _)) by by rewrite Hk.
    by erewrite compute_result_canned.
  - rewrite (proj2 (dict_in_false _ _)), compute_result_delegated by done.
    by destruct (invoke _ _) as [[reply|e] w'].
Qed.

(** After the answer is computed, nothing touches the world. *)
Lemma handle_input_world user_input st :
  truthy user_input = true →
  world (handle_input user_input st).2 = world (compute_result user_input st).2.
Proof.
  intros Hu. unfold handle_input, sx_try, try_body, except_clause, mbind, sx_bind.
  rewrite Hu. destruct (compute_result user_input st) as [[answer|e] st1]; simpl.
  - pose proof (session_append_world conversation_key (speaker_user, user_input) st1)
      as Hw1.
    destruct (session_append _ (speaker_user, _) st1) as [[[]|e1] st2];
      simpl in Hw1; rewrite <-Hw1.
    + pose proof (session_append_world conversation_key (speaker_assistant, answer) st2)
        as Hw2.
      destruct (session_append _ _ st2) as [[[]|e2] st3]; simpl in Hw2; [done|].
      rewrite <-Hw2. destruct (is_Exception e2); [|done]. apply session_append_world.
    + destruct (is_Exception e1); [|done]. apply session_append_world.
  - destruct (is_Exception e); [|done]. apply session_append_world.
Qed.

End resolver.

(** ** How often the agent is called *)

Section invocations.
Context {udb : UnicodeDB} {W : Type} {agent : Agent W}.

(** C12. With the calls recorded ([logged_agent] around any agent): one
    execution of the handler calls the agent exactly once, with the
    data dictionary, two line breaks and the input as typed under
    ["input"], when the input is non-empty and misses the table, and
    never otherwise; this holds on every path, the ones that raise
    included. *)
Theorem agent_invocations user_input (st : run_state (logged W)) :
  (world (handle_input user_input st).2).2
  = (world st).2
    ++ (if truthy user_input
           && negb (dict_in (user_input_lower user_input) hardcoded_qa)
        then [{[py "input" := data_dictionary ++ nl ++ nl ++ user_input]}]
        else []).
Proof.
  destruct (truthy user_input) eqn:Hu; [|by rewrite handle_input_falsy, app_nil_r].
  rewrite handle_input_world, compute_result_world by done.
  destruct (dict_in _ _); cbn [andb negb]; [by rewrite app_nil_r|].
  rewrite <-agent_input_eq. apply logged_invoke_log.
Qed.

End invocations.

(** ** The theorems at concrete inputs *)

(** A session on the scripted agent: the replies it will give, and the
    transcript so far. *)
Definition demo_state (replies : list (pyresult (gmap pystr pystr)))
    (conv : list turn) : run_state scripted :=
  RunState (Scripted replies []) ∅ {[conversation_key := conv]} ∅ [].

Definition demo_canned_input : pystr := py "  Why are these AREAS impacted ".
Definition demo_free_input : pystr := py "What is the rainfall in Abu Dhabi today?".
Definition demo_prompt : gmap pystr pystr :=
  {[py "input" := data_dictionary ++ nl ++ nl ++ demo_free_input]}.
Definition demo_reply : gmap pystr pystr := {[py "output" := py "0.75 inches"]}.
Definition demo_bad_reply : gmap pystr pystr := {[py "text" := py "0.75 inches"]}.
Definition connection_error : exn :=
  Exn (OtherException (py "ConnectionError")) (py "connection refused").
Definition interrupt : exn := Exn KeyboardInterrupt [].

Ltac by_run := vm_compute; reflexivity.

Lemma handle_input_canned_witness :
  handle_input demo_canned_input (demo_state [] [])
  = (Ok (), with_conversation
              ([] ++ [(py "User", demo_canned_input);
                      (py "Assistant", answer_why_impacted)])
              (demo_state [] [])).
Proof. apply handle_input_canned; by_run. Defined.

Lemma handle_input_delegated_witness :
  handle_input demo_free_input (demo_state [Ok demo_reply] [])
  = (Ok (), with_conversation
              ([] ++ [(py "User", demo_free_input);
                      (py "Assistant", py "0.75 inches")])
              (set_world (Scripted [] [demo_prompt]) (demo_state [Ok demo_reply] []))).
Proof. apply (handle_input_delegated _ _ _ demo_reply); by_run. Defined.

Lemma handle_input_agent_error_witness :
  handle_input demo_free_input (demo_state [Raise connection_error] [])
  = (Ok (), with_conversation
              ([] ++ [(py "Assistant", py "Error: " ++ exn_str connection_error)])
              (set_world (Scripted [] [demo_prompt])
                 (demo_state [Raise connection_error] []))).
Proof. apply handle_input_agent_error; by_run. Defined.

Lemma handle_input_missing_output_witness :
  handle_input demo_free_input (demo_state [Ok demo_bad_reply] [])
  = (Ok (), with_conversation
              ([] ++ [(py "Assistant", py "Error: 'output'")])
              (set_world (Scripted [] [demo_prompt])
                 (demo_state [Ok demo_bad_reply] []))).
Proof. apply (handle_input_missing_output _ _ _ demo_bad_reply); by_run. Defined.

Lemma handle_input_uncaught_witness :
  handle_input demo_free_input (demo_state [Raise interrupt] [])
  = (Raise interrupt,
     set_world (Scripted [] [demo_prompt]) (demo_state [Raise interrupt] [])).
Proof. apply handle_input_uncaught; by_run. Defined.

Lemma handle_input_frame_witness :
  ∃ new,
    extends_by [] new (demo_state [Raise connection_error] [])
      (with_conversation
         [(py "Assistant", py "Error: connection refused")]
         (set_world (Scripted [] [demo_prompt])
            (demo_state [Raise connection_error] [])))
    ∧ length new ≤ 2 ∧ Forall speaker_ok new
    ∧ (@Ok exn () () = Ok () ∨ new = []).
Proof. apply (handle_input_frame demo_free_input); by_run. Defined.

Lemma handle_input_raises_only_base_witness :
  is_Exception interrupt = false
  ∧ invoke {[py "input" := data_dictionary ++ nl ++ nl ++ demo_free_input]}
      (world (demo_state [Raise interrupt] []))
    = (Raise interrupt,
       world (set_world (Scripted [] [demo_prompt]) (demo_state [Raise interrupt] []))).
Proof.
  apply (handle_input_raises_only_base demo_free_input _ []); by_run.
Defined.

Lemma case_insensitive_witness :
  user_input_lower (py "Recommendation To Reduce Impact")
  = user_input_lower (py "recommendation to reduce impact")
  ∧ (hardcoded_qa !! user_input_lower (py "Recommendation To Reduce Impact")
     = Some answer_recommendation →
     compute_result (py "Recommendation To Reduce Impact") (demo_state [] [])
     = (Ok answer_recommendation, demo_state [] [])
     ∧ compute_result (py "recommendation to reduce impact") (demo_state [] [])
       = (Ok answer_recommendation, demo_state [] [])).
Proof. apply case_insensitive; first [by_decide | by_run]. Defined.

Lemma blank_input_reaches_agent_witness :
  truthy (py "   ") = true
  ∧ user_input_lower (py "   ") = []
  ∧ compute_result (py "   ") (demo_state [Ok demo_reply] [])
    = (reply ← agent_invoke (agent_input (py "   "));
       sx_lift (dict_getitem reply (py "output"))) (demo_state [Ok demo_reply] []).
Proof. apply blank_input_reaches_agent; [done|by_decide]. Defined.

Lemma handle_input_uninitialised_witness :
  is_ok (handle_input demo_canned_input
           (RunState (Scripted [] []) ∅ ∅ ∅ [])).1 = false
  ∧ ∀ e, (handle_input demo_canned_input
            (RunState (Scripted [] []) ∅ ∅ ∅ [])).1 = Raise e →
         exn_class_of e = AttributeError ∨ is_Exception e = false.
Proof. apply handle_input_uninitialised; by_run. Defined.
