(* ===== verification/Startup.v ===== *)
(** * Startup: the environment and the API key

    Lines 16-30 of [src/flood.py].  [load_api_key] is lines 16-20: load
    the [.env] file, read [OPENAI_API_KEY], raise [ValueError] when it
    is missing or empty, store it back.  [build_agent] is lines 23-30:
    the constructor calls of the engine, the database, the LLM client
    and the agent, against the interface [Backend]; their arguments are
    [db_path], [engine_url], [llm] and [agent_executor]. *)

From S2P Require Import Prelude PyStr PyObj Agent Runtime.

(** ** Lines 16-20 *)

Definition api_key_name : pystr := py "OPENAI_API_KEY".

Definition api_key_missing : exn :=
  value_error (py "OPENAI_API_KEY not found. Please add it to your .env file.").

Section startup.
Context {W : Type}.
Implicit Types (st : run_state W) (dotenv : gmap pystr pystr).

(** Lines 18-20: [if not api_key: raise ...] and the assignment. *)
Definition check_api_key (api_key : option pystr) : script W () :=
  if negb (truthy_opt api_key)
  then sx_raise api_key_missing
  else from_option (os_environ_setitem api_key_name) (mret ()) api_key.

(** Lines 16-20. *)
Definition load_api_key dotenv : script W () :=
  load_dotenv dotenv;;
  api_key ← os_getenv api_key_name;
  check_api_key api_key.

End startup.

(** ** Lines 23-30: the engine, the database, the LLM and the agent *)

Definition db_path : pystr := py "flood.db".

(** Line 24: the f-string given to [create_engine]. *)
Definition engine_url : pystr := py "sqlite:///" ++ db_path.

(** Line 29: [ChatOpenAI(model="gpt-4", temperature=0)]. *)
Definition llm : llm_config := LlmConfig (py "gpt-4") 0.

(** Line 30: [create_sql_agent(llm, db=db, agent_type="openai-tools",
    verbose=True)]. *)
Definition agent_executor : agent_config :=
  AgentConfig llm engine_url (py "openai-tools") true.

Section build.
Context {W : Type} {backend : Backend W}.

(** Line 24 *)
Definition create_engine (url : pystr) : script W () :=
  library_construct (CreateEngine url).

(** Line 25: [SQLDatabase(engine=engine)] *)
Definition sql_database (engine : pystr) : script W () :=
  library_construct (SqlDatabase engine).

(** Line 29: the constructor reads the API key that line 20 stored. *)
Definition chat_openai (cfg : llm_config) : script W () :=
  api_key ← os_getenv api_key_name;
  library_construct (ChatOpenAI cfg api_key).

(** Line 30 *)
Definition create_sql_agent (cfg : agent_config) : script W () :=
  library_construct (CreateSqlAgent cfg).

(** Lines 23-30: the four constructors, in the order of the script; an
    exception of one of them ends the execution. *)
Definition build_agent : script W () :=
  create_engine engine_url;;
  sql_database engine_url;;
  chat_openai llm;;
  create_sql_agent agent_executor.

End build.

(** ** Lemmas and theorems *)

(** The constructor calls of one execution, in order, when the
    environment holds [api_key]. *)
Definition build_calls (api_key : option pystr) : list library_call :=
  [CreateEngine engine_url; SqlDatabase engine_url;
   ChatOpenAI llm api_key; CreateSqlAgent agent_executor].

Section build_lemmas.
Context {W : Type} {backend : Backend W}.
Implicit Types (st : run_state W).

(** Lines 23-30 as one call on the world. *)
Lemma build_agent_eq st :
  build_agent st
  = world_call (sx_for (build_calls (environ st !! api_key_name)) construct) st.
Proof.
  unfold build_agent, create_engine, sql_database, chat_openai, create_sql_agent,
    library_construct, build_calls. cbn [sx_for].
  rewrite <-!world_call_bind. unfold os_getenv, world_call. sx_unfold.
  repeat (destruct (construct _ _) as [[[]|?] ?]; cbn [world environ set_world]; try done).
Qed.

End build_lemmas.

Section build_trace.
Context {W : Type} {backend : Backend W}.

(** C14. Lines 23-30 call the four constructors in the order of the
    script and with the arguments of the source: the engine on
    [sqlite:///flood.db], the database on that engine, the LLM client
    for [gpt-4] at temperature 0 with the API key the environment
    holds, the agent of type [openai-tools] on the two.  The calls stop
    at the first constructor that raises: the calls on record, made one
    after the other on the backend, each on the world the one before it
    left and none after one that raised, give the result of lines 23-30
    and the world they leave, and an exception that leaves lines 23-30
    is the one the last call on record raised.  Nothing but the world
    changes. *)
Theorem build_agent_trace (st : run_state (traced W)) :
  ∃ reached,
    (build_agent st).2 = set_world (world (build_agent st).2) st
    ∧ (world (build_agent st).2).2 = (world st).2 ++ (Constructed <$> reached)
    ∧ reached `prefix_of`
        [CreateEngine (py "sqlite:///flood.db");
         SqlDatabase (py "sqlite:///flood.db");
         ChatOpenAI (LlmConfig (py "gpt-4") 0) (environ st !! py "OPENAI_API_KEY");
         CreateSqlAgent (AgentConfig (LlmConfig (py "gpt-4") 0)
                           (py "sqlite:///flood.db") (py "openai-tools") true)]
    ∧ ((build_agent st).1 = Ok () → length reached = 4)
    ∧ sx_for reached construct (world st).1
      = ((build_agent st).1, (world (build_agent st).2).1)
    ∧ (∀ e, (build_agent st).1 = Raise e →
       ∃ c w, last reached = Some c
              ∧ construct c w = (Raise e, (world (build_agent st).2).1)).
Proof.
  rewrite build_agent_eq, world_call_eq. cbn [fst snd world set_world].
  destruct (traced_constructs (build_calls (environ st !! api_key_name)) (world st))
    as (reached & Htr & Hpre & _ & Hok & Hrun & Hlast).
  exists reached. split_and!; [done..|by intros ->%Hok|done|done].
Qed.

End build_trace.

Section startup_lemmas.
Context {W : Type}.
Implicit Types (st : run_state W) (dotenv : gmap pystr pystr).

(** The environment after [load_dotenv]. *)
Definition merged_environ st dotenv : gmap pystr pystr := environ st ∪ dotenv.

Lemma merged_environ_lookup st dotenv k :
  merged_environ st dotenv !! k
  = match environ st !! k with Some v => Some v | None => dotenv !! k end.
Proof.
  unfold merged_environ. destruct (environ st !! k) as [v|] eqn:E.
  - by erewrite lookup_union_Some_l.
  - by rewrite lookup_union_r.
Qed.

(** Lines 16-20 as one equation. *)
Lemma load_api_key_unfold dotenv st :
  load_api_key dotenv st
  = (if truthy_opt (merged_environ st dotenv !! api_key_name)
     then Ok () else Raise api_key_missing,
     set_environ (merged_environ st dotenv) st).
Proof.
  unfold load_api_key, load_dotenv, os_getenv, check_api_key. sx_unfold.
  cbn [environ set_environ]. fold (merged_environ st dotenv).
  destruct (merged_environ st dotenv !! api_key_name) as [[|c key]|] eqn:E;
    cbn [truthy_opt truthy negb from_option]; [done| |done].
  unfold os_environ_setitem, sx_modify, set_environ. cbn [environ].
  by rewrite insert_id.
Qed.

Lemma merged_environ_again dotenv st :
  merged_environ (set_environ (merged_environ st dotenv) st) dotenv
  = merged_environ st dotenv.
Proof.
  unfold merged_environ. cbn [environ set_environ].
  apply map_eq. intros k. rewrite !lookup_union.
  by destruct (environ st !! k), (dotenv !! k).
Qed.

(** C13. Startup, as one equation.  The [.env] bindings are merged under
    the process environment; the run goes on exactly when the merged
    environment binds [OPENAI_API_KEY] to a non-empty string, and raises
    [ValueError] with the message of line 19 otherwise.  In both cases
    the environment is the merged one: the assignment of line 20 stores
    the value that is already there, and a failed start keeps what
    [load_dotenv] added. *)
Theorem load_api_key_eq dotenv st :
  load_api_key dotenv st
  = (match (environ st ∪ dotenv) !! py "OPENAI_API_KEY" with
     | Some (_ :: _) => Ok ()
     | Some [] | None =>
         Raise (Exn ValueError
                  (py "OPENAI_API_KEY not found. Please add it to your .env file."))
     end,
     set_environ (environ st ∪ dotenv) st).
Proof.
  rewrite load_api_key_unfold.
  unfold merged_environ, api_key_name, api_key_missing, value_error. f_equal.
  by destruct ((environ st ∪ dotenv) !! _) as [[|c key]|].
Qed.

(** C36. The process environment wins over the [.env] file, also when it
    is wrong: a variable that is set to the empty string makes the start
    fail whatever the file binds it to. *)
Theorem empty_process_key_blocks dotenv st :
  environ st !! py "OPENAI_API_KEY" = Some [] →
  (load_api_key dotenv st).1
  = Raise (Exn ValueError
             (py "OPENAI_API_KEY not found. Please add it to your .env file.")).
Proof.
  intros Henv. rewrite load_api_key_unfold. cbn [fst].
  unfold api_key_name. by rewrite merged_environ_lookup, Henv.
Qed.

End startup_lemmas.

(** ** The theorems at concrete inputs *)

Definition demo_env (env : gmap pystr pystr) : run_state () :=
  RunState () env ∅ ∅ [].

Lemma empty_process_key_blocks_witness :
  (load_api_key {[py "OPENAI_API_KEY" := py "sk-test"]}
     (demo_env {[py "OPENAI_API_KEY" := []]})).1
  = Raise (Exn ValueError
             (py "OPENAI_API_KEY not found. Please add it to your .env file.")).
Proof. apply empty_process_key_blocks. vm_compute. reflexivity. Defined.
