(* ===== verification/App.v ===== *)
(** * App: the whole script and the rerun loop

    [flood_script] is one execution of [src/flood.py], top to bottom:
    startup (lines 16-20), the constructors of the engine, the
    database, the LLM client and the agent (lines 23-30), the page
    header and the input field (lines 130-138), the query handler
    (lines 140-161) and the rendering of the transcript (lines
    164-168).  Streamlit executes the script again on every event of
    the front end; [step] is one such execution after an event has
    been delivered, [reachable] the states a session can be in, and
    [run_events] the state at the end of a list of events.

    [flood_script_eq] is one execution as one equation and [run_cases]
    its outcomes as a case analysis ([run_spec]).  The theorems: what a
    successful execution puts on the page; that a failed start renders
    nothing; that a constructor that raises ends the execution; which
    exceptions can end an execution; the shape of the transcript in
    every reachable state; that the transcript only grows; and what a
    rerun without new input does.  The file ends with the equivalence
    of the rerun loop, [same_session]: an execution starts on an empty
    page, so states that differ in the page only are interchangeable;
    this is a fact of the model of Streamlit, kept for rewriting, and
    no theorem about the script rests on it. *)

From S2P Require Import Prelude PyStr PyObj Content Agent Runtime Resolver Startup.

(** ** Lines 130-138 and 164-168 *)

Definition title_text : pystr := py "Flood Digital Assistant".
Definition banner_text : pystr := py "Ask me anything about floods in Abu Dhabi".
Definition input_label : pystr := py "You:".
Definition input_key : pystr := py "user_input".

(** Lines 165-168: the text of the line that shows a turn. *)
Definition render_turn (t : turn) : pystr :=
  if decide (t.1 = py "User")
  then py "**You:** " ++ t.2
  else py "**Assistant:** " ++ t.2.

Section app.
Context {udb : UnicodeDB} {W : Type} {backend : Backend W} {agent : Agent W}.
Implicit Types (st : run_state W) (dotenv : gmap pystr pystr).

(** Lines 134-135. *)
Definition init_conversation : script W () :=
  present ← session_contains conversation_key;
  if negb present then session_setattr conversation_key [] else mret ().

(** Lines 164-168. *)
Definition display_conversation : script W () :=
  conversation ← session_getattr conversation_key;
  sx_for conversation (λ t, st_markdown (render_turn t)).

(** One execution of the script. *)
Definition flood_script dotenv : script W () :=
  load_api_key dotenv;;
  build_agent;;
  st_title title_text;;
  st_write banner_text;;
  init_conversation;;
  user_input ← st_text_input input_label input_key;
  handle_input user_input;;
  display_conversation.

(** ** The rerun loop *)

(** What the front end does between two executions: the user submits a
    text in the input field, or the script is run again as it is. *)
Inductive event : Type :=
| Submit (text : pystr)
| Rerun.

Definition deliver (ev : event) st : run_state W :=
  match ev with
  | Submit text => set_widget_state (<[input_key := text]> (widget_state st)) st
  | Rerun => st
  end.

(** An execution starts on an empty page. *)
Definition run dotenv st : pyresult () * run_state W :=
  flood_script dotenv (set_page [] st).

Definition step dotenv (ev : event) st : run_state W :=
  (run dotenv (deliver ev st)).2.

(** A session starts with no entry and no widget. *)
Definition new_session (w : W) (env : gmap pystr pystr) : run_state W :=
  RunState w env ∅ ∅ [].

Inductive reachable dotenv : run_state W → Prop :=
| reachable_new w env : reachable dotenv (new_session w env)
| reachable_step st ev :
    reachable dotenv st → reachable dotenv (step dotenv ev st).

(** A session as a function of its events: the executions that a list
    of events triggers, one after the other. *)
Definition run_events dotenv (evs : list event) st : run_state W :=
  foldl (λ st ev, step dotenv ev st) st evs.

(** The text of the input field at each execution of a session: an
    event either replaces it or leaves it. *)
Fixpoint field_trace (field : pystr) (evs : list event) : list pystr :=
  match evs with
  | [] => []
  | Submit text :: evs => text :: field_trace text evs
  | Rerun :: evs => field :: field_trace field evs
  end.

(** ** Vocabulary of the theorems *)

(** The value the input field holds, and the transcript, with the
    defaults of the script for a session that has neither. *)
Definition current_input st : pystr := default [] (widget_state st !! input_key).
Definition transcript st : list turn :=
  default [] (session_state st !! conversation_key).

(** The page down to the input field. *)
Definition header (value : pystr) : list ui_elem :=
  [Title title_text; Write banner_text; TextInput input_label input_key value].

(** The lines that show a transcript. *)
Definition rendered (conv : list turn) : list ui_elem :=
  (λ t, Markdown (render_turn t)) <$> conv.

(** The state in which the handler starts, when startup has succeeded. *)
Definition prepared dotenv st : run_state W :=
  RunState (world st) (merged_environ st dotenv)
    (<[conversation_key := transcript st]> (session_state st))
    (<[input_key := current_input st]> (widget_state st))
    (page st ++ header (current_input st)).

(** Startup succeeds from this state. *)
Definition key_present dotenv st : bool :=
  truthy_opt (merged_environ st dotenv !! api_key_name).

(** Lines 23-30 in an execution that got past startup: the outcome of
    the constructors and the world they leave. *)
Definition built dotenv st : pyresult () * W :=
  sx_for (build_calls (merged_environ st dotenv !! api_key_name)) construct (world st).

(** A backend whose constructors never raise. *)
Definition reliable : Prop := ∀ c (w : W), (construct c w).1 = Ok ().

(** ** The parts of one execution *)

Lemma built_reliable dotenv st : reliable → (built dotenv st).1 = Ok ().
Proof.
  intros Hr. unfold built. generalize (world st) as w.
  induction (build_calls _) as [|c cs IH]; intros w; [done|].
  cbn [sx_for]. sx_unfold. specialize (Hr c w).
  destruct (construct c w) as [[[]|e] w1]; [apply IH|done].
Qed.

Lemma load_api_key_ok dotenv st :
  key_present dotenv st = true →
  load_api_key dotenv st = (Ok (), set_environ (merged_environ st dotenv) st).
Proof. intros Hk. rewrite load_api_key_unfold. unfold key_present in Hk. by rewrite Hk. Qed.

Lemma load_api_key_fail dotenv st :
  key_present dotenv st = false →
  load_api_key dotenv st
  = (Raise api_key_missing, set_environ (merged_environ st dotenv) st).
Proof. intros Hk. rewrite load_api_key_unfold. unfold key_present in Hk. by rewrite Hk. Qed.

Lemma init_conversation_eq st :
  init_conversation st
  = (Ok (), set_session_state (<[conversation_key := transcript st]> (session_state st)) st).
Proof.
  unfold init_conversation, session_contains, session_setattr, transcript. sx_unfold.
  destruct (session_state st !! conversation_key) as [conv|] eqn:E.
  - rewrite (proj2 (dict_in_spec _ _)) by by rewrite E. simpl.
    rewrite insert_id by done. by destruct st.
  - by rewrite (proj2 (dict_in_false _ _)).
Qed.

Lemma st_text_input_eq label key st :
  st_text_input label key st
  = (Ok (default [] (widget_state st !! key)),
     set_page (page st ++ [TextInput label key (default [] (widget_state st !! key))])
       (set_widget_state (<[key := default [] (widget_state st !! key)]> (widget_state st))
          st)).
Proof. done. Qed.

Lemma build_agent_built dotenv st :
  build_agent (set_environ (merged_environ st dotenv) st)
  = ((built dotenv st).1,
     set_world (built dotenv st).2 (set_environ (merged_environ st dotenv) st)).
Proof. by rewrite build_agent_eq, world_call_eq. Qed.

(** Everything before the handler, when startup and the constructors
    succeed. *)
Lemma before_handler dotenv st w (k : pystr → script W ()) :
  key_present dotenv st = true →
  built dotenv st = (Ok (), w) →
  (load_api_key dotenv;; build_agent;; st_title title_text;; st_write banner_text;;
   init_conversation;; user_input ← st_text_input input_label input_key; k user_input) st
  = k (current_input st) (prepared dotenv (set_world w st)).
Proof.
  intros Hk Hb. erewrite sx_bind_ok by by apply load_api_key_ok.
  erewrite sx_bind_ok by by rewrite build_agent_built, Hb.
  erewrite sx_bind_ok by reflexivity. erewrite sx_bind_ok by reflexivity.
  erewrite sx_bind_ok by apply init_conversation_eq.
  erewrite sx_bind_ok by apply st_text_input_eq.
  unfold prepared, current_input, transcript, header. simpl.
  by rewrite <-!app_assoc.
Qed.

Lemma render_all conv st :
  sx_for conv (λ t, st_markdown (render_turn t)) st
  = (Ok (), set_page (page st ++ rendered conv) st).
Proof.
  revert st. induction conv as [|t conv IH]; intros st.
  - simpl. unfold mret, sx_ret, rendered. simpl. rewrite app_nil_r. by destruct st.
  - cbn [sx_for]. erewrite sx_bind_ok by reflexivity. rewrite IH.
    unfold rendered, set_page. simpl. by rewrite <-app_assoc.
Qed.

Lemma display_conversation_ok st conv :
  session_state st !! conversation_key = Some conv →
  display_conversation st = (Ok (), set_page (page st ++ rendered conv) st).
Proof.
  intros Hconv. unfold display_conversation, session_getattr. sx_unfold.
  rewrite Hconv. apply render_all.
Qed.

Lemma prepared_conversation dotenv st :
  session_state (prepared dotenv st) !! conversation_key = Some (transcript st).
Proof. apply lookup_insert_eq. Qed.

Lemma extends_by_transcript conv new st st' :
  extends_by conv new st st' →
  session_state st' !! conversation_key = Some (conv ++ new).
Proof. intros ->. apply lookup_insert_eq. Qed.

(** One execution, as one equation. *)
Lemma flood_script_eq dotenv st :
  flood_script dotenv st
  = if key_present dotenv st
    then match built dotenv st with
         | (Ok _, w) =>
             match handle_input (current_input st) (prepared dotenv (set_world w st)) with
             | (Ok _, st') =>
                 (Ok (), set_page (page st' ++ rendered (transcript st')) st')
             | (Raise e, st') => (Raise e, st')
             end
         | (Raise e, w) =>
             (Raise e, set_world w (set_environ (merged_environ st dotenv) st))
         end
    else (Raise api_key_missing, set_environ (merged_environ st dotenv) st).
Proof.
  unfold flood_script. destruct (key_present dotenv st) eqn:Hk.
  2:{ by erewrite sx_bind_raise by by apply load_api_key_fail. }
  destruct (built dotenv st) as [[[]|e] w] eqn:Hb.
  2:{ erewrite sx_bind_ok by by apply load_api_key_ok.
      by erewrite sx_bind_raise by by rewrite build_agent_built, Hb. }
  erewrite before_handler by done.
  destruct (handle_input _ _) as [[[]|e] st'] eqn:Hrun.
  - erewrite sx_bind_ok by done.
    destruct (handle_input_appends _ _ _ _ _
                (prepared_conversation dotenv (set_world w st)) Hrun)
      as (new & Hext%extends_by_transcript & _).
    unfold transcript. rewrite Hext. by apply display_conversation_ok.
  - by erewrite sx_bind_raise.
Qed.

(** ** The shape of the transcript *)

(** A transcript is a sequence of exchanges (a user turn, then the
    assistant turn that answers it) and of lone assistant turns (the
    errors). *)
Inductive well_formed : list turn → Prop :=
| wf_nil : well_formed []
| wf_exchange conv user_input answer :
    well_formed conv →
    well_formed (conv ++ [(py "User", user_input); (py "Assistant", answer)])
| wf_error conv msg :
    well_formed conv → well_formed (conv ++ [(py "Assistant", msg)]).

(** What one execution appends to the transcript. *)
Inductive appended (user_input : pystr) : list turn → Prop :=
| appended_nothing : appended user_input []
| appended_exchange answer :
    appended user_input [(py "User", user_input); (py "Assistant", answer)]
| appended_error msg : appended user_input [(py "Assistant", msg)].

Lemma well_formed_appended conv user_input new :
  well_formed conv → appended user_input new → well_formed (conv ++ new).
Proof.
  intros Hwf [|answer|msg]; [by rewrite app_nil_r|by constructor..].
Qed.

Lemma transcript_extends conv new st st' :
  extends_by conv new st st' → transcript st' = conv ++ new.
Proof. intros H%extends_by_transcript. unfold transcript. by rewrite H. Qed.

Lemma transcript_set_page p st : transcript (set_page p st) = transcript st.
Proof. done. Qed.

Lemma transcript_with_conversation conv st :
  transcript (with_conversation conv st) = conv.
Proof. unfold transcript. by rewrite with_conversation_lookup. Qed.

Lemma extends_by_frame conv new st st' :
  extends_by conv new st st' →
  environ st' = environ st ∧ widget_state st' = widget_state st ∧ page st' = page st.
Proof. by intros ->. Qed.

(** The handler inside the script: what it appends and what it keeps. *)
Lemma handler_in_script dotenv st r st' :
  handle_input (current_input st) (prepared dotenv st) = (r, st') →
  ∃ new, appended (current_input st) new
         ∧ transcript st' = transcript st ++ new
         ∧ (r = Ok () ∨ new = [])
         ∧ widget_state st' = <[input_key := current_input st]> (widget_state st)
         ∧ environ st' = merged_environ st dotenv
         ∧ page st' = page st ++ header (current_input st).
Proof.
  intros Hrun.
  destruct (handle_input_appends _ _ _ _ _ (prepared_conversation dotenv st) Hrun)
    as (new & Hext & Hr & Hnew).
  destruct (extends_by_frame _ _ _ _ Hext) as (He & Hw & Hp).
  exists new. split_and!; [|by eapply transcript_extends|done..].
  destruct Hnew as [->|[[answer ->]|[msg ->]]]; constructor.
Qed.

Lemma extends_by_session conv new st st' :
  extends_by conv new st st' →
  session_state st' = <[conversation_key := conv ++ new]> (session_state st).
Proof. by intros ->. Qed.

(** The session state after the handler: the transcript is the one
    entry it writes. *)
Lemma handler_session dotenv st r st' :
  handle_input (current_input st) (prepared dotenv st) = (r, st') →
  session_state st' = <[conversation_key := transcript st']> (session_state st).
Proof.
  intros Hrun.
  destruct (handle_input_appends _ _ _ _ _ (prepared_conversation dotenv st) Hrun)
    as (new & Hext & _).
  rewrite (transcript_extends _ _ _ _ Hext), (extends_by_session _ _ _ _ Hext).
  apply insert_insert_eq.
Qed.

(** The cases of one execution: the key is missing, a constructor
    raises, or the handler runs; the page is completed when the handler
    returns. *)
Inductive run_spec dotenv st : pyresult () → run_state W → Prop :=
| run_key_missing :
    key_present dotenv st = false →
    run_spec dotenv st (Raise api_key_missing)
      (set_environ (merged_environ st dotenv) (set_page [] st))
| run_build_failed e w :
    key_present dotenv st = true →
    built dotenv st = (Raise e, w) →
    run_spec dotenv st (Raise e)
      (set_world w (set_environ (merged_environ st dotenv) (set_page [] st)))
| run_handled w r st1 :
    key_present dotenv st = true →
    built dotenv st = (Ok (), w) →
    handle_input (current_input st) (prepared dotenv (set_world w (set_page [] st)))
    = (r, st1) →
    run_spec dotenv st r
      (if is_ok r then set_page (page st1 ++ rendered (transcript st1)) st1 else st1).

Lemma run_cases dotenv st : run_spec dotenv st (run dotenv st).1 (run dotenv st).2.
Proof.
  unfold run. rewrite flood_script_eq.
  change (key_present dotenv (set_page [] st)) with (key_present dotenv st).
  change (built dotenv (set_page [] st)) with (built dotenv st).
  change (merged_environ (set_page [] st) dotenv) with (merged_environ st dotenv).
  destruct (key_present dotenv st) eqn:Hk; [|by apply run_key_missing].
  destruct (built dotenv st) as [[[]|e] w] eqn:Hb; [|by apply run_build_failed].
  destruct (handle_input _ _) as [[[]|e] st1] eqn:Hrun.
  - by apply (run_handled _ _ w (Ok ()) st1).
  - by apply (run_handled _ _ w (Raise e) st1).
Qed.

(** The transcript after an execution, whatever its outcome. *)
Lemma run_transcript dotenv st :
  ∃ new, appended (current_input st) new
         ∧ transcript (run dotenv st).2 = transcript st ++ new
         ∧ ((run dotenv st).1 = Ok () ∨ new = []).
Proof.
  destruct (run_cases dotenv st) as [Hk|e w Hk Hb|w r st1 Hk Hb Hrun];
    try (exists []; by rewrite app_nil_r; eauto using appended).
  destruct (handler_in_script _ _ _ _ Hrun) as (new & Hnew & Htr & Hr & _).
  exists new. split_and!; [done|by destruct r|done].
Qed.

(** ** What an execution leaves of the state *)

Lemma run_widgets dotenv st :
  current_input (run dotenv st).2 = current_input st.
Proof.
  destruct (run_cases dotenv st) as [Hk|e w Hk Hb|w r st1 Hk Hb Hrun]; try done.
  destruct (handler_in_script _ _ _ _ Hrun) as (new & _ & _ & _ & Hw & _).
  unfold current_input in *. destruct r; cbn [is_ok widget_state set_page set_world] in *;
    by rewrite Hw, lookup_insert_eq.
Qed.

Lemma run_environ dotenv st :
  environ (run dotenv st).2 = merged_environ st dotenv.
Proof.
  destruct (run_cases dotenv st) as [Hk|e w Hk Hb|w r st1 Hk Hb Hrun]; try done.
  destruct (handler_in_script _ _ _ _ Hrun) as (new & _ & _ & _ & _ & He & _).
  by destruct r.
Qed.

(** The merged environment is the same at every execution. *)
Lemma merged_environ_run dotenv st :
  merged_environ (run dotenv st).2 dotenv = merged_environ st dotenv.
Proof.
  unfold merged_environ at 1. rewrite run_environ.
  apply (merged_environ_again dotenv st).
Qed.

Lemma key_present_run dotenv st :
  key_present dotenv (run dotenv st).2 = key_present dotenv st.
Proof. unfold key_present. by rewrite merged_environ_run. Qed.

(** An execution that returns got past startup and the constructors. *)
Lemma run_ok_inv dotenv st :
  (run dotenv st).1 = Ok () →
  key_present dotenv st = true ∧ (built dotenv st).1 = Ok ().
Proof.
  destruct (run_cases dotenv st) as [Hk|e w Hk Hb|w r st1 Hk Hb Hrun]; try done.
  by rewrite Hb.
Qed.

(** An execution on a canned question. *)
Lemma run_canned dotenv st answer :
  key_present dotenv st = true →
  (built dotenv st).1 = Ok () →
  truthy (current_input st) = true →
  hardcoded_qa !! user_input_lower (current_input st) = Some answer →
  (run dotenv st).1 = Ok ()
  ∧ transcript (run dotenv st).2
    = transcript st ++ [(py "User", current_input st); (py "Assistant", answer)].
Proof.
  intros Hk Hb Hu Hq. unfold run. rewrite flood_script_eq.
  change (key_present dotenv (set_page [] st)) with (key_present dotenv st).
  change (built dotenv (set_page [] st)) with (built dotenv st).
  change (current_input (set_page [] st)) with (current_input st).
  rewrite Hk. destruct (built dotenv st) as [[[]|e] w]; [|done].
  rewrite (handle_input_eq _ _ (transcript (set_world w (set_page [] st))))
    by (done || apply prepared_conversation).
  rewrite Hq. split; [done|]. cbn [snd].
  by rewrite transcript_set_page, transcript_with_conversation.
Qed.

(** The page of an execution that returns. *)
Lemma run_page dotenv st :
  (run dotenv st).1 = Ok () →
  page (run dotenv st).2
  = header (current_input st) ++ rendered (transcript (run dotenv st).2).
Proof.
  destruct (run_cases dotenv st) as [Hk|e w Hk Hb|w r st1 Hk Hb Hrun]; try done.
  intros ->. destruct (handler_in_script _ _ _ _ Hrun) as (new & _ & _ & _ & _ & _ & Hp).
  cbn [is_ok page set_page]. by rewrite Hp, transcript_set_page.
Qed.

(** ** Theorems on one execution *)

(** C9. What a successful execution shows: the title, the banner, the
    input field with the text it holds, and then one line per turn of
    the transcript as it stands after the handler, in order, a user
    turn behind [**You:**] and any other turn behind [**Assistant:**];
    nothing else. *)
Theorem run_renders_transcript dotenv st st' :
  run dotenv st = (Ok (), st') →
  page st'
  = [Title (py "Flood Digital Assistant");
     Write (py "Ask me anything about floods in Abu Dhabi");
     TextInput (py "You:") (py "user_input") (current_input st)]
    ++ ((λ t, Markdown (if decide (t.1 = py "User")
                        then py "**You:** " ++ t.2
                        else py "**Assistant:** " ++ t.2)) <$> transcript st').
Proof.
  intros Hrun. pose proof (run_page dotenv st) as Hp.
  rewrite Hrun in Hp. by apply Hp.
Qed.

(** C32. A failed start renders nothing: when the merged environment has
    no non-empty [OPENAI_API_KEY], the execution raises the [ValueError]
    of line 19 on an empty page, and the session is as it was. *)
Theorem failed_start_renders_nothing dotenv st :
  truthy_opt ((environ st ∪ dotenv) !! py "OPENAI_API_KEY") = false →
  run dotenv st
  = (Raise (Exn ValueError
              (py "OPENAI_API_KEY not found. Please add it to your .env file.")),
     RunState (world st) (environ st ∪ dotenv) (session_state st) (widget_state st) []).
Proof.
  intros Hk. unfold run. rewrite flood_script_eq.
  unfold key_present, merged_environ, api_key_name. cbn [environ set_page]. by rewrite Hk.
Qed.

(** C17. A constructor that raises ends the execution: the exception
    leaves the script, nothing is rendered, the handler is not reached
    (the agent is not called and the transcript, the input field and
    the rest of the session are as they were); the world is what the
    constructors left. *)
Theorem construction_failure_aborts dotenv st e w :
  truthy_opt ((environ st ∪ dotenv) !! py "OPENAI_API_KEY") = true →
  sx_for (build_calls ((environ st ∪ dotenv) !! py "OPENAI_API_KEY")) construct (world st)
  = (Raise e, w) →
  run dotenv st
  = (Raise e, RunState w (environ st ∪ dotenv) (session_state st) (widget_state st) []).
Proof.
  intros Hk Hb. unfold run. rewrite flood_script_eq.
  unfold key_present, built, merged_environ, api_key_name. cbn [environ world set_page].
  by rewrite Hk, Hb.
Qed.

(** C16. The exceptions that can end an execution: the [ValueError] of
    startup, an exception that one of the four constructors of lines
    24-30 raised, or an exception that the agent raised, on the prompt
    made of the schema context and the text of the input field, and
    that is not derived from [Exception].  In particular no
    [AttributeError] or [KeyError] of the script's own reaches
    Streamlit. *)
Theorem run_raises_only dotenv st e st' :
  run dotenv st = (Raise e, st') →
  e = Exn ValueError (py "OPENAI_API_KEY not found. Please add it to your .env file.")
  ∨ (∃ c w, c ∈ build_calls ((environ st ∪ dotenv) !! py "OPENAI_API_KEY")
            ∧ construct c w = (Raise e, world st'))
  ∨ (is_Exception e = false
     ∧ ∃ w, invoke {[py "input" := data_dictionary ++ nl ++ nl ++ current_input st]} w
            = (Raise e, world st')).
Proof.
  rewrite (surjective_pairing (run dotenv st)).
  destruct (run_cases dotenv st) as [Hk|e1 w Hk Hb|w r st1 Hk Hb Hrun];
    intros [= Hr <-]; subst; [by left|right; left|right; right].
  - by eapply sx_for_raise_inv.
  - apply (handle_input_raise_inv _ _ _ _ _ (prepared_conversation _ _)) in Hrun
      as [He Hinv].
    rewrite agent_input_eq in Hinv. eauto.
Qed.

(** ** Theorems on sessions *)

Lemma transcript_deliver ev st : transcript (deliver ev st) = transcript st.
Proof. by destruct ev. Qed.

Lemma current_input_deliver ev st :
  current_input (deliver ev st)
  = match ev with Submit text => text | Rerun => current_input st end.
Proof. destruct ev; [|done]. unfold current_input. simpl. by rewrite lookup_insert_eq. Qed.

Lemma key_present_deliver dotenv ev st :
  key_present dotenv (deliver ev st) = key_present dotenv st.
Proof. by destruct ev. Qed.

Lemma merged_environ_step dotenv ev st :
  merged_environ (step dotenv ev st) dotenv = merged_environ st dotenv.
Proof. unfold step. rewrite merged_environ_run. by destruct ev. Qed.

Lemma key_present_step dotenv ev st :
  key_present dotenv (step dotenv ev st) = key_present dotenv st.
Proof. unfold step. by rewrite key_present_run, key_present_deliver. Qed.

Lemma field_trace_head dotenv ev st evs :
  field_trace (current_input st) (ev :: evs)
  = current_input (deliver ev st)
    :: field_trace (current_input (step dotenv ev st)) evs.
Proof. unfold step. rewrite run_widgets, current_input_deliver. by destruct ev. Qed.

Lemma run_events_cons dotenv ev evs st :
  run_events dotenv (ev :: evs) st = run_events dotenv evs (step dotenv ev st).
Proof. done. Qed.

Lemma run_events_snoc dotenv evs ev st :
  run_events dotenv (evs ++ [ev]) st = step dotenv ev (run_events dotenv evs st).
Proof. unfold run_events. by rewrite foldl_app. Qed.

(** The reachable states are the states at the end of a list of events. *)
Lemma reachable_run_events dotenv st :
  reachable dotenv st ↔ ∃ w env evs, st = run_events dotenv evs (new_session w env).
Proof.
  split.
  - induction 1 as [w env|st ev _ (w & env & evs & ->)]; [by exists w, env, []|].
    exists w, env, (evs ++ [ev]). by rewrite run_events_snoc.
  - intros (w & env & evs & ->). induction evs as [|ev evs IH] using rev_ind.
    + constructor.
    + rewrite run_events_snoc. by constructor.
Qed.

Lemma speaker_ok_appended user_input new :
  appended user_input new → Forall speaker_ok new.
Proof. intros [|answer|msg]; repeat constructor; by (left + right). Qed.

(** The speakers of a session are the two the handler writes. *)
Lemma reachable_speakers dotenv st :
  reachable dotenv st → Forall speaker_ok (transcript st).
Proof.
  induction 1 as [w env|st ev _ IH]; [constructor|].
  unfold step. destruct (run_transcript dotenv (deliver ev st)) as (new & Hnew & -> & _).
  rewrite transcript_deliver, Forall_app. split; [done|by eapply speaker_ok_appended].
Qed.

(** C7. In every state a session can reach, the transcript is a sequence
    of exchanges and of lone assistant turns: every user turn is
    directly followed by the assistant turn that answers it. *)
Theorem reachable_well_formed dotenv st :
  reachable dotenv st → well_formed (transcript st).
Proof.
  induction 1 as [w env|st ev _ IH]; [constructor|].
  unfold step. destruct (run_transcript dotenv (deliver ev st)) as (new & Hnew & -> & _).
  rewrite transcript_deliver. by eapply well_formed_appended.
Qed.

(** C20. The transcript only grows: what an execution leaves is what it
    found, followed by nothing, by one exchange on the text of the input
    field, or by one assistant turn; whatever the event and whatever the
    outcome of the execution. *)
Theorem transcript_grows dotenv ev st :
  ∃ new, transcript (step dotenv ev st) = transcript st ++ new
         ∧ (new = []
            ∨ (∃ answer, new = [(py "User", current_input (deliver ev st));
                                (py "Assistant", answer)])
            ∨ (∃ msg, new = [(py "Assistant", msg)])).
Proof.
  unfold step. destruct (run_transcript dotenv (deliver ev st)) as (new & Hnew & -> & _).
  rewrite transcript_deliver. exists new. split; [done|].
  destruct Hnew; eauto.
Qed.

(** C33. The input field is never cleared: after an execution it holds
    the text it held when the execution began, on every path.  The
    assignment of line 161 does not reach the widget. *)
Theorem input_field_keeps_text dotenv ev st :
  current_input (step dotenv ev st) = current_input (deliver ev st).
Proof. apply run_widgets. Qed.

(** C27. So a rerun without new input submits the question again: after
    a canned question has been submitted and answered, running the
    script once more appends the same exchange a second time (the
    constructors of lines 24-30 taken to succeed). *)
Theorem rerun_resubmits dotenv st text answer :
  key_present dotenv st = true →
  (∀ c (w : W), (construct c w).1 = Ok ()) →
  truthy text = true →
  hardcoded_qa !! user_input_lower text = Some answer →
  transcript (step dotenv Rerun (step dotenv (Submit text) st))
  = transcript st
    ++ [(py "User", text); (py "Assistant", answer)]
    ++ [(py "User", text); (py "Assistant", answer)].
Proof.
  intros Hk Hb Hu Hq.
  assert (current_input (deliver (Submit text) st) = text) as Hin
    by apply (current_input_deliver (Submit text)).
  pose proof (run_canned dotenv (deliver (Submit text) st) answer) as [_ H1];
    [done|by apply built_reliable|by rewrite Hin..|].
  pose proof (run_canned dotenv (step dotenv (Submit text) st) answer) as [_ H2];
    [by rewrite key_present_step|by apply built_reliable
    |unfold step; by rewrite run_widgets, Hin..|].
  unfold step at 1. cbn [deliver]. rewrite H2. unfold step.
  by rewrite run_widgets, H1, Hin, <-app_assoc.
Qed.

(** ** The page is not state *)

(** Streamlit builds the page anew at every execution ([run] starts on
    an empty page) and the script never reads it.  So two states are
    the same session when they differ in the page only, and the
    operations of the loop respect that equivalence. *)
Definition same_session st1 st2 : Prop := set_page [] st1 = set_page [] st2.

#[global] Instance same_session_equiv : Equivalence same_session.
Proof.
  unfold same_session. split; [by intros ?|by intros ??|by intros ??? -> ->].
Qed.

#[global] Instance deliver_proper ev : Proper (same_session ==> same_session) (deliver ev).
Proof.
  unfold same_session. intros st1 st2 Hs. destruct ev; [|done].
  destruct st1, st2. by simplify_eq/=.
Qed.

#[global] Instance run_proper dotenv : Proper (same_session ==> eq) (run dotenv).
Proof. unfold same_session, run. by intros st1 st2 ->. Qed.

#[global] Instance step_proper dotenv ev : Proper (same_session ==> eq) (step dotenv ev).
Proof. intros st1 st2 Hs. unfold step. by rewrite Hs. Qed.

#[global] Instance transcript_proper : Proper (same_session ==> eq) transcript.
Proof. intros st1 st2 Hs. by rewrite <-(transcript_set_page [] st1), Hs. Qed.

Lemma same_session_set_page p st : same_session (set_page p st) st.
Proof. done. Qed.

End app.

(** ** The theorems at concrete inputs *)

(** The witnesses run with constructors that succeed. *)
#[local] Existing Instance ready_backend.

Definition demo_dotenv : gmap pystr pystr := {[py "OPENAI_API_KEY" := py "sk-test"]}.

Definition demo_session (replies : list (pyresult (gmap pystr pystr)))
    : run_state scripted :=
  new_session (Scripted replies []) ∅.

Definition demo_question : pystr := py "Why are these areas impacted".

Lemma run_renders_transcript_witness :
  page (step demo_dotenv (Submit demo_question) (demo_session []))
  = [Title (py "Flood Digital Assistant");
     Write (py "Ask me anything about floods in Abu Dhabi");
     TextInput (py "You:") (py "user_input")
       (current_input (deliver (Submit demo_question) (demo_session [])))]
    ++ ((λ t, Markdown (if decide (t.1 = py "User")
                        then py "**You:** " ++ t.2
                        else py "**Assistant:** " ++ t.2))
          <$> transcript (step demo_dotenv (Submit demo_question) (demo_session []))).
Proof. apply (run_renders_transcript demo_dotenv). vm_compute. reflexivity. Defined.

Lemma failed_start_renders_nothing_witness :
  run ∅ (demo_session [])
  = (Raise (Exn ValueError
              (py "OPENAI_API_KEY not found. Please add it to your .env file.")),
     RunState (world (demo_session [])) (environ (demo_session []) ∪ ∅)
       (session_state (demo_session [])) (widget_state (demo_session [])) []).
Proof. apply failed_start_renders_nothing. vm_compute. reflexivity. Defined.

Definition database_error : exn :=
  Exn (OtherException (py "OperationalError")) (py "unable to open database file").

Lemma construction_failure_aborts_witness :
  run (backend := failing_backend (SqlDatabase engine_url) database_error)
    demo_dotenv (demo_session [])
  = (Raise database_error,
     RunState (Scripted [] []) (environ (demo_session []) ∪ demo_dotenv)
       (session_state (demo_session [])) (widget_state (demo_session [])) []).
Proof. apply construction_failure_aborts; vm_compute; reflexivity. Defined.

Definition demo_interrupted : run_state scripted :=
  deliver (Submit (py "rainfall today?"))
    (demo_session [Raise (Exn KeyboardInterrupt [])]).

Lemma run_raises_only_witness :
  Exn KeyboardInterrupt []
  = Exn ValueError (py "OPENAI_API_KEY not found. Please add it to your .env file.")
  ∨ (∃ c w, c ∈ build_calls ((environ demo_interrupted ∪ demo_dotenv)
                              !! py "OPENAI_API_KEY")
            ∧ construct c w
              = (Raise (Exn KeyboardInterrupt []),
                 world (run demo_dotenv demo_interrupted).2))
  ∨ (is_Exception (Exn KeyboardInterrupt []) = false
     ∧ ∃ w, invoke {[py "input" := data_dictionary ++ nl ++ nl
                                   ++ current_input demo_interrupted]} w
            = (Raise (Exn KeyboardInterrupt []),
               world (run demo_dotenv demo_interrupted).2)).
Proof.
  apply (run_raises_only demo_dotenv demo_interrupted
           _ (run demo_dotenv demo_interrupted).2).
  vm_compute. reflexivity.
Defined.

Lemma reachable_well_formed_witness :
  well_formed
    (transcript
       (step demo_dotenv (Submit (py "rainfall today?"))
          (step demo_dotenv (Submit demo_question)
             (demo_session [Raise (Exn (OtherException (py "Timeout")) (py "timed out"))])))).
Proof.
  apply (reachable_well_formed demo_dotenv). do 2 apply reachable_step.
  apply reachable_new.
Defined.

Lemma rerun_resubmits_witness :
  transcript (step demo_dotenv Rerun
                (step demo_dotenv (Submit demo_question) (demo_session [])))
  = transcript (demo_session [])
    ++ [(py "User", demo_question); (py "Assistant", answer_why_impacted)]
    ++ [(py "User", demo_question); (py "Assistant", answer_why_impacted)].
Proof. apply rerun_resubmits; vm_compute; reflexivity. Defined.
