(* ===== verification/Invariants.v ===== *)
(** * Invariants: what holds of a session at every moment

    Python checks nothing of the shape of [st.session_state]; the
    script relies on it.  [well_typed] says what the script relies on
    and leaves behind: the one entry ["conversation"], a list of turns
    spoken by ["User"] or ["Assistant"]; the one widget ["user_input"];
    and a page that is empty, stops at the input field, or shows the
    whole transcript below it.

    The theorems: every reachable state is well typed
    ([reachable_well_typed]); the transcript and the page grow by at
    most two entries per execution ([session_bounds]); and every
    submission of a non-empty text is answered in the execution it
    triggers, when that execution returns ([submission_answered]). *)

From S2P Require Import Prelude PyStr PyObj Content Agent Runtime Resolver Startup App.

Section invariants.
Context {udb : UnicodeDB} {W : Type} {backend : Backend W} {agent : Agent W}.
Implicit Types (st : run_state W) (dotenv : gmap pystr pystr).

(** The pages an execution can leave. *)
Definition page_shape st : Prop :=
  page st = []
  ∨ page st = header (current_input st)
  ∨ page st = header (current_input st) ++ rendered (transcript st).

Record well_typed st : Prop := WellTyped {
  wt_session : dom (session_state st) ⊆ {[conversation_key]};
  wt_widgets : dom (widget_state st) ⊆ {[input_key]};
  wt_speakers : Forall speaker_ok (transcript st);
  wt_page : page_shape st;
}.

(** ** Every execution keeps the session well typed *)

Lemma deliver_session ev st : session_state (deliver ev st) = session_state st.
Proof. by destruct ev. Qed.

Lemma deliver_widgets ev st :
  dom (widget_state st) ⊆ {[input_key]} →
  dom (widget_state (deliver ev st)) ⊆ {[input_key]}.
Proof.
  intros Hw. destruct ev; [|done]. cbn. rewrite dom_insert.
  by apply union_least.
Qed.

Lemma run_session_dom dotenv st :
  dom (session_state (run dotenv st).2) ⊆ {[conversation_key]} ∪ dom (session_state st).
Proof.
  destruct (run_cases dotenv st) as [Hk|e w Hk Hb|w r st1 Hk Hb Hrun]; [set_solver..|].
  apply (handler_session dotenv (set_world w (set_page [] st))) in Hrun. destruct r; cbn [is_ok session_state set_page];
    rewrite Hrun, dom_insert; set_solver.
Qed.

Lemma run_widgets_dom dotenv st :
  dom (widget_state (run dotenv st).2) ⊆ {[input_key]} ∪ dom (widget_state st).
Proof.
  destruct (run_cases dotenv st) as [Hk|e w Hk Hb|w r st1 Hk Hb Hrun]; [set_solver..|].
  destruct (handler_in_script _ _ _ _ Hrun) as (new & _ & _ & _ & Hw & _).
  destruct r; cbn [is_ok widget_state set_page]; rewrite Hw, dom_insert; set_solver.
Qed.

Lemma run_page_shape dotenv st : page_shape (run dotenv st).2.
Proof.
  unfold page_shape. rewrite run_widgets.
  destruct (run_cases dotenv st) as [Hk|e w Hk Hb|w r st1 Hk Hb Hrun]; [by left..|].
  destruct (handler_in_script _ _ _ _ Hrun) as (new & _ & _ & _ & _ & _ & Hp).
  destruct r; cbn [is_ok page set_page]; rewrite Hp; [right; right|right; by left].
  by rewrite transcript_set_page.
Qed.

Lemma step_well_typed dotenv ev st : well_typed st → well_typed (step dotenv ev st).
Proof.
  intros [Hs Hw Hsp Hp]. split.
  - unfold step. etrans; [apply run_session_dom|].
    rewrite deliver_session. by apply union_least.
  - unfold step. etrans; [apply run_widgets_dom|].
    by apply union_least, deliver_widgets.
  - unfold step. destruct (run_transcript dotenv (deliver ev st)) as (new & Hnew & -> & _).
    rewrite transcript_deliver, Forall_app. split; [done|by eapply speaker_ok_appended].
  - apply run_page_shape.
Qed.

Lemma new_session_well_typed w env : well_typed (new_session w env).
Proof. split; [set_solver..|constructor|by left]. Qed.

(** C8. Every state a session can reach is well typed: the session
    state holds nothing but the entry ["conversation"], whose turns are
    spoken by ["User"] or ["Assistant"]; no widget but ["user_input"]
    has a value; and the page is empty (the start failed), stops at the
    input field (the handler raised), or shows the title, the banner,
    the input field and one line per turn of the transcript. *)
Theorem reachable_well_typed dotenv st :
  reachable dotenv st →
  dom (session_state st) ⊆ {[py "conversation"]}
  ∧ dom (widget_state st) ⊆ {[py "user_input"]}
  ∧ Forall (λ t, t.1 = py "User" ∨ t.1 = py "Assistant") (transcript st)
  ∧ (page st = []
     ∨ page st = header (current_input st)
     ∨ page st = header (current_input st) ++ rendered (transcript st)).
Proof.
  intros Hst. cut (well_typed st); [by intros []|].
  induction Hst; [apply new_session_well_typed|by apply step_well_typed].
Qed.

(** ** How fast a session grows *)

Lemma appended_length user_input new : appended user_input new → length new ≤ 2.
Proof. intros [|answer|msg]; cbn; lia. Qed.

Lemma run_events_transcript_length dotenv evs st :
  length (transcript (run_events dotenv evs st))
  ≤ length (transcript st) + 2 * length evs.
Proof.
  revert st. induction evs as [|ev evs IH]; intros st; [cbn; lia|].
  rewrite run_events_cons. etrans; [apply IH|]. unfold step.
  destruct (run_transcript dotenv (deliver ev st)) as (new & Hnew%appended_length & -> & _).
  rewrite transcript_deliver, length_app. cbn [length]. lia.
Qed.

Lemma page_shape_length st :
  page_shape st → length (page st) ≤ 3 + length (transcript st).
Proof.
  intros [->|[->| ->]]; cbn [length header]; [lia..|].
  rewrite length_app. unfold rendered. rewrite length_fmap. cbn. lia.
Qed.

Lemma transcript_new_session (w : W) env : transcript (new_session w env) = [].
Proof. unfold transcript. cbn. by rewrite lookup_empty. Qed.

(** C23. A session grows by at most two turns and two lines per
    execution: after [n] events the transcript has at most [2 n] turns
    and the page at most [3 + 2 n] elements, whatever the events, the
    constructors and the agent do. *)
Theorem session_bounds dotenv evs (w : W) env :
  length (transcript (run_events dotenv evs (new_session w env))) ≤ 2 * length evs
  ∧ length (page (run_events dotenv evs (new_session w env))) ≤ 3 + 2 * length evs.
Proof.
  pose proof (run_events_transcript_length dotenv evs (new_session w env)) as Hlen.
  rewrite transcript_new_session in Hlen. cbn [length] in Hlen. split; [lia|].
  etrans; [apply page_shape_length|lia].
  destruct evs as [|ev evs _] using rev_ind; [by left|].
  rewrite run_events_snoc. apply run_page_shape.
Qed.

(** ** Every submission is answered *)

(** An execution that returns on a non-empty text ends the transcript
    with an assistant turn. *)
Lemma run_answers dotenv st :
  truthy (current_input st) = true →
  (run dotenv st).1 = Ok () →
  ∃ conv answer,
    transcript (run dotenv st).2 = conv ++ [(speaker_assistant, answer)]
    ∧ length (transcript st) ≤ length conv.
Proof.
  intros Hu.
  destruct (run_cases dotenv st) as [Hk|e w Hk Hb|w r st1 Hk Hb Hrun]; try done.
  intros ->. eapply handle_input_answers in Hrun as (new & answer & Hconv);
    [|done|apply prepared_conversation].
  exists (transcript st ++ new), answer. cbn [is_ok]. rewrite transcript_set_page.
  unfold transcript at 1. rewrite Hconv, length_app. cbn. split; [by rewrite app_assoc|lia].
Qed.

(** C22. Every submission is answered in the execution it triggers: when
    a non-empty text is submitted and the execution returns, the
    transcript has grown, its last turn is an assistant turn (the
    answer, or the error message), and that turn is the last line of
    the page, behind [**Assistant:**]. *)
Theorem submission_answered dotenv text st :
  text ≠ [] →
  (run dotenv (deliver (Submit text) st)).1 = Ok () →
  ∃ answer,
    last (transcript (step dotenv (Submit text) st)) = Some (py "Assistant", answer)
    ∧ last (page (step dotenv (Submit text) st))
      = Some (Markdown (py "**Assistant:** " ++ answer))
    ∧ length (transcript st) < length (transcript (step dotenv (Submit text) st)).
Proof.
  intros Hu%truthy_nonempty Hrun. unfold step. rewrite run_page by done.
  destruct (run_answers dotenv (deliver (Submit text) st)) as (conv & answer & -> & Hlen);
    [by rewrite current_input_deliver|done|].
  exists answer. unfold rendered. rewrite fmap_app. cbn [fmap list_fmap].
  rewrite app_assoc, !last_snoc, length_app, transcript_deliver in *.
  split_and!; [done..|cbn [length]; lia].
Qed.

End invariants.

(** ** The theorems at concrete inputs *)

#[local] Existing Instance ready_backend.

Definition demo_answered : run_state scripted :=
  step demo_dotenv (Submit demo_question) (demo_session []).

Lemma reachable_well_typed_witness :
  dom (session_state demo_answered) ⊆ {[py "conversation"]}
  ∧ dom (widget_state demo_answered) ⊆ {[py "user_input"]}
  ∧ Forall (λ t, t.1 = py "User" ∨ t.1 = py "Assistant") (transcript demo_answered)
  ∧ (page demo_answered = []
     ∨ page demo_answered = header (current_input demo_answered)
     ∨ page demo_answered
       = header (current_input demo_answered) ++ rendered (transcript demo_answered)).
Proof.
  apply (reachable_well_typed demo_dotenv). apply reachable_step, reachable_new.
Defined.

Lemma submission_answered_witness :
  ∃ answer,
    last (transcript (step demo_dotenv (Submit demo_question) (demo_session [])))
    = Some (py "Assistant", answer)
    ∧ last (page (step demo_dotenv (Submit demo_question) (demo_session [])))
      = Some (Markdown (py "**Assistant:** " ++ answer))
    ∧ length (transcript (demo_session []))
      < length (transcript (step demo_dotenv (Submit demo_question) (demo_session []))).
Proof. apply submission_answered; [done|vm_compute; reflexivity]. Defined.
