(* ===== verification/Display.v ===== *)
(** * Display: the loop that shows the transcript

    Lines 164-168 of [src/flood.py] iterate over the list kept in
    [st.session_state.conversation] and show one line per turn.
    [display_conversation] (in [App]) is the loop by recursion on the
    list.  Python runs it differently: the [for] statement takes an
    iterator on the list object, and each round asks the iterator for
    the element at its index in the list as it is at that moment.
    [display_loop] is that loop, with fuel for the rounds.

    The theorems: the loop stops after one round per turn, with the
    result of [display_conversation], because its body does not touch
    the list ([display_loop_terminates]); and what the loop shows can
    be read back: the lines of the page determine the transcript
    ([page_read_back]). *)

From S2P Require Import Prelude PyStr PyObj Content Agent Runtime Resolver Startup App.

Section display.
Context {W : Type}.
Implicit Types (st : run_state W) (conv : list turn) (i fuel : nat).

(** [next] of the list iterator of line 164: the element at index [i]
    of the list as it is now, or [None] for [StopIteration]. *)
Definition iter_next (key : pystr) i : script W (option turn) :=
  l ← session_getattr key; mret (l !! i).

(** Lines 164-168, round by round from index [i]; the result says
    whether the loop came to its end within [fuel] rounds. *)
Fixpoint display_loop fuel i : script W bool :=
  match fuel with
  | 0 => mret false
  | S fuel =>
      item ← iter_next conversation_key i;
      match item with
      | None => mret true
      | Some t => st_markdown (render_turn t);; display_loop fuel (S i)
      end
  end.

(** ** Reading the page back *)

(** [s] without the prefix [p], when it starts with [p]. *)
Definition strip_prefix (p s : pystr) : option pystr :=
  if decide (take (length p) s = p) then Some (drop (length p) s) else None.

(** The turn a line of the page shows. *)
Definition read_line (e : ui_elem) : option turn :=
  match e with
  | Markdown text =>
      match strip_prefix (py "**You:** ") text with
      | Some message => Some (py "User", message)
      | None => pair (py "Assistant") <$> strip_prefix (py "**Assistant:** ") text
      end
  | _ => None
  end.

(** The transcript a page shows below the input field. *)
Definition read_page (p : list ui_elem) : option (list turn) :=
  mapM read_line (drop 3 p).

(** ** The loop *)

Lemma iter_next_eq st conv i :
  session_state st !! conversation_key = Some conv →
  iter_next conversation_key i st = (Ok (conv !! i), st).
Proof. intros Hconv. unfold iter_next, session_getattr. sx_unfold. by rewrite Hconv. Qed.

(** One round of the loop. *)
Lemma display_loop_round fuel i st conv :
  session_state st !! conversation_key = Some conv →
  display_loop (S fuel) i st
  = match conv !! i with
    | Some t => display_loop fuel (S i) (set_page (page st ++ [Markdown (render_turn t)]) st)
    | None => (Ok true, st)
    end.
Proof.
  intros Hconv. cbn [display_loop]. erewrite sx_bind_ok by by apply iter_next_eq.
  destruct (conv !! i) as [t|]; [|done]. by erewrite sx_bind_ok by reflexivity.
Qed.

(** The loop from index [i], with fuel for the turns that are left and
    for the round that ends it. *)
Lemma display_loop_from fuel i st conv :
  session_state st !! conversation_key = Some conv →
  length conv - i < fuel →
  display_loop fuel i st = (Ok true, set_page (page st ++ rendered (drop i conv)) st).
Proof.
  revert i st. induction fuel as [|fuel IH]; intros i st Hconv Hfuel; [lia|].
  rewrite (display_loop_round _ _ _ conv) by done.
  destruct (conv !! i) as [t|] eqn:Hi.
  - rewrite (IH (S i) (set_page (page st ++ [Markdown (render_turn t)]) st) Hconv)
      by (apply lookup_lt_Some in Hi; lia).
    rewrite (drop_S _ _ _ Hi). unfold rendered, set_page. cbn. by rewrite <-app_assoc.
  - apply lookup_ge_None in Hi. rewrite drop_ge by done.
    unfold rendered. cbn. rewrite app_nil_r. by destruct st.
Qed.

(** With less fuel than turns the loop is cut short. *)
Lemma display_loop_short fuel i st conv :
  session_state st !! conversation_key = Some conv →
  i + fuel ≤ length conv →
  (display_loop fuel i st).1 = Ok false.
Proof.
  revert i st. induction fuel as [|fuel IH]; intros i st Hconv Hfuel; [done|].
  rewrite (display_loop_round _ _ _ conv) by done.
  destruct (lookup_lt_is_Some_2 conv i) as [t ->]; [lia|].
  apply (IH (S i) (set_page (page st ++ [Markdown (render_turn t)]) st) Hconv). lia.
Qed.

(** C21. The display loop terminates, after one round per turn and the
    round that finds the end of the list: with the transcript
    initialised and more fuel than turns, the loop of Python's list
    iterator comes to its end and has shown one line per turn, in
    order, which is what [display_conversation] does; its body does not
    touch the list it iterates over.  With one round less it is cut
    short, so the rounds are exactly these. *)
Theorem display_loop_terminates st conv extra :
  session_state st !! py "conversation" = Some conv →
  display_loop (S (length conv) + extra) 0 st
  = (Ok true, set_page (page st ++ ((λ t, Markdown (render_turn t)) <$> conv)) st)
  ∧ display_conversation st
    = (Ok (), set_page (page st ++ ((λ t, Markdown (render_turn t)) <$> conv)) st)
  ∧ (display_loop (length conv) 0 st).1 = Ok false.
Proof.
  intros Hconv. split_and!.
  - rewrite (display_loop_from _ _ _ conv) by (done || lia). by rewrite drop_0.
  - by apply display_conversation_ok.
  - by apply (display_loop_short _ _ _ conv).
Qed.

End display.

(** ** What the loop shows can be read back *)

Lemma strip_prefix_app p s : strip_prefix p (p ++ s) = Some s.
Proof.
  unfold strip_prefix. rewrite take_app_length, decide_True by done.
  by rewrite drop_app_length.
Qed.

(** A line shows its turn, when the speaker is one of the two the
    handler writes. *)
Lemma read_render (t : turn) : speaker_ok t → read_line (Markdown (render_turn t)) = Some t.
Proof.
  destruct t as [speaker message]. unfold speaker_ok, render_turn, read_line.
  cbn [fst snd]. intros [->| ->]; [by rewrite decide_True, strip_prefix_app|].
  rewrite decide_False by done. rewrite strip_prefix_app.
  unfold strip_prefix at 1. by rewrite decide_False by (by vm_compute).
Qed.

Lemma read_rendered (conv : list turn) :
  Forall speaker_ok conv → mapM read_line (rendered conv) = Some conv.
Proof.
  intros Hconv. apply mapM_Some, Forall2_fmap_l, Forall_Forall2_diag.
  eapply Forall_impl; [done|]. intros t Ht. by apply read_render.
Qed.

Section read_back.
Context {udb : UnicodeDB} {W : Type} {backend : Backend W} {agent : Agent W}.
Implicit Types (st : run_state W) (dotenv : gmap pystr pystr).

(** C24. The page shows the transcript and nothing else of it: in a
    session, after an execution that returns, reading the lines below
    the input field back ([**You:**] for a user turn, [**Assistant:**]
    for an assistant turn) gives the transcript of the session, turn
    for turn. *)
Theorem page_read_back dotenv ev st :
  reachable dotenv st →
  (run dotenv (deliver ev st)).1 = Ok () →
  read_page (page (step dotenv ev st)) = Some (transcript (step dotenv ev st)).
Proof.
  intros Hst Hrun. unfold step, read_page. rewrite run_page by done.
  cbn [header app drop]. apply read_rendered.
  by apply (reachable_speakers dotenv (step dotenv ev st)), reachable_step.
Qed.

End read_back.

(** ** The theorems at concrete inputs *)

Definition demo_shown : run_state () :=
  RunState () ∅
    {[py "conversation" := [(py "User", py "rainfall?");
                            (py "Assistant", py "Error: connection refused")]]}
    ∅ (header (py "rainfall?")).

Lemma display_loop_terminates_witness :
  display_loop (S (length [(py "User", py "rainfall?");
                           (py "Assistant", py "Error: connection refused")]) + 5)
    0 demo_shown
  = (Ok true,
     set_page (page demo_shown
               ++ ((λ t, Markdown (render_turn t))
                     <$> [(py "User", py "rainfall?");
                          (py "Assistant", py "Error: connection refused")]))
       demo_shown)
  ∧ display_conversation demo_shown
    = (Ok (),
       set_page (page demo_shown
                 ++ ((λ t, Markdown (render_turn t))
                       <$> [(py "User", py "rainfall?");
                            (py "Assistant", py "Error: connection refused")]))
         demo_shown)
  ∧ (display_loop (length [(py "User", py "rainfall?");
                           (py "Assistant", py "Error: connection refused")])
       0 demo_shown).1 = Ok false.
Proof. apply display_loop_terminates. vm_compute. reflexivity. Defined.

Lemma page_read_back_witness :
  read_page (page (step (backend := ready_backend) demo_dotenv
                     (Submit demo_question) (demo_session [])))
  = Some (transcript (step (backend := ready_backend) demo_dotenv
                        (Submit demo_question) (demo_session []))).
Proof.
  apply page_read_back; [apply reachable_new|vm_compute; reflexivity].
Defined.
