(* ===== verification/Contract.v ===== *)
(** * Contract: the resolver of the specification, and the script as its
    implementation

    The specification describes the query resolver as a function of the
    question and of the answering service (section 4.1): normalise the
    question, answer from the table when the normalised question is a
    key, otherwise hand the schema context and the question as typed to
    the service and return its text, or ["Error: <message>"] when the
    service fails.  [resolve] is that function, written from the
    specification and not from the code.

    The theorems relate the code to it, at three levels: the handler
    ([handle_input_refines]), one execution of the script
    ([step_refines]) and a whole session ([session_refines]): the
    transcript of a session is a function of the texts the input field
    held at each execution and of the service, and its assistant turns
    are the answers of [resolve]. *)

From S2P Require Import Prelude PyStr PyObj Content Agent Runtime Resolver Startup App.

(** ** The resolver of the specification *)

Section contract.
Context {udb : UnicodeDB}.
Implicit Types (svc : service) (question : pystr) (conv : list turn).

(** Step 1: trim, then fold case. *)
Definition normalise question : pystr := py_lower (py_strip question).

(** Step 3: the schema context, a separator, the question as typed. *)
Definition delegated_prompt question : pystr :=
  data_dictionary ++ nl ++ nl ++ question.

(** Steps 2 to 4 and the error policy. *)
Definition resolve svc question : pystr :=
  match hardcoded_qa !! normalise question with
  | Some answer => answer
  | None =>
      match svc (delegated_prompt question) with
      | Ok out => out
      | Raise e => py "Error: " ++ exn_str e
      end
  end.

(** The resolution took the error path. *)
Definition resolve_failed svc question : bool :=
  match hardcoded_qa !! normalise question with
  | Some _ => false
  | None => negb (is_ok (svc (delegated_prompt question)))
  end.

(** What the script records of one execution with [question] in the
    input field: nothing for the empty text; otherwise the answer of
    the resolver as an assistant turn, behind the question as a user
    turn unless the resolution failed. *)
Definition turns_of svc question : list turn :=
  if truthy question
  then (if resolve_failed svc question then [] else [(py "User", question)])
       ++ [(py "Assistant", resolve svc question)]
  else [].

(** The transcript the specification assigns to a history of events. *)
Definition session_transcript svc (field : pystr) (evs : list event) : list turn :=
  field_trace field evs ≫= turns_of svc.

(** A service whose failures are all derived from [Exception]. *)
Definition fails_softly svc : Prop :=
  ∀ prompt e, svc prompt = Raise e → is_Exception e = true.

(** ** The handler computes [resolve] *)

Lemma normalise_eq question : normalise question = user_input_lower question.
Proof. unfold normalise, user_input_lower. by rewrite lower_strip_commute. Qed.

Lemma service_invoke svc question (w : ()) :
  invoke (Agent := service_agent svc) (agent_input question) w
  = (match svc (delegated_prompt question) with
     | Ok out => Ok {[py "output" := out]}
     | Raise e => Raise e
     end, w).
Proof.
  unfold invoke, service_agent, agent_input, dict_display. cbn [foldl fst snd].
  rewrite lookup_insert_eq. fold (delegated_prompt question).
  by destruct (svc _).
Qed.

Lemma set_world_unit (st : run_state ()) (w : ()) : set_world w st = st.
Proof. destruct w. by destruct st as [[] ????]. Qed.

(** The handler on a service, as one equation in the vocabulary of the
    specification. *)
Lemma handle_input_service svc question (st : run_state ()) conv :
  fails_softly svc →
  session_state st !! conversation_key = Some conv →
  handle_input (agent := service_agent svc) question st
  = (Ok (), with_conversation (conv ++ turns_of svc question) st).
Proof.
  intros Hsoft Hconv. unfold turns_of. destruct (truthy question) eqn:Hq.
  2:{ rewrite handle_input_falsy by done. f_equal. by apply extends_by_refl. }
  rewrite (handle_input_eq _ _ conv) by done.
  unfold resolve, resolve_failed. rewrite normalise_eq, service_invoke.
  destruct (hardcoded_qa !! _) as [answer|]; [done|].
  destruct (svc _) as [out|e] eqn:Hsvc; cbn [is_ok negb app].
  - by rewrite lookup_singleton_eq, set_world_unit.
  - by rewrite (Hsoft _ _ Hsvc), set_world_unit.
Qed.

(** C6. The handler implements the resolver of the specification.  On a
    non-empty question, with the transcript initialised and a service
    whose failures are derived from [Exception], the handler returns
    normally and the last turn it appends is the assistant turn that
    carries [resolve svc question]; before it stands the question as
    typed, as a user turn, unless the resolution took the error path.
    Nothing else changes. *)
Theorem handle_input_refines svc question (st : run_state ()) conv :
  question ≠ [] →
  (∀ prompt e, svc prompt = Raise e → is_Exception e = true) →
  session_state st !! py "conversation" = Some conv →
  handle_input (agent := service_agent svc) question st
  = (Ok (),
     set_session_state
       (<[py "conversation" :=
            conv ++ (if resolve_failed svc question then [] else [(py "User", question)])
                 ++ [(py "Assistant", resolve svc question)]]> (session_state st)) st).
Proof.
  intros Hq%truthy_nonempty Hsoft Hconv.
  rewrite (handle_input_service _ _ _ conv) by done.
  unfold turns_of. by rewrite Hq.
Qed.

(** ** One execution and whole sessions *)

Section sessions.
Context {backend : Backend ()} (svc : service) (dotenv : gmap pystr pystr).
Context (Hbuild : @reliable () backend) (Hsoft : fails_softly svc).
Implicit Types (st : run_state ()) (evs : list event).

Lemma run_service st :
  key_present dotenv st = true →
  (run (agent := service_agent svc) dotenv st).1 = Ok ()
  ∧ transcript (run (agent := service_agent svc) dotenv st).2
    = transcript st ++ turns_of svc (current_input st).
Proof.
  intros Hk. pose proof (built_reliable dotenv st Hbuild) as Hb.
  unfold run. rewrite flood_script_eq.
  change (key_present dotenv (set_page [] st)) with (key_present dotenv st).
  change (built dotenv (set_page [] st)) with (built dotenv st).
  change (current_input (set_page [] st)) with (current_input st).
  rewrite Hk. destruct (built dotenv st) as [[[]|e] w]; [|done].
  rewrite set_world_unit, (handle_input_service _ _ _ (transcript (set_page [] st)))
    by (done || apply prepared_conversation).
  split; [done|]. cbn [snd]. by rewrite transcript_set_page, transcript_with_conversation.
Qed.

Lemma step_service ev st :
  key_present dotenv st = true →
  transcript (step (agent := service_agent svc) dotenv ev st)
  = transcript st ++ turns_of svc (current_input (deliver ev st)).
Proof.
  intros Hk. unfold step.
  destruct (run_service (deliver ev st)) as [_ ->]; [by rewrite key_present_deliver|].
  by rewrite transcript_deliver.
Qed.

Lemma run_events_service evs st :
  key_present dotenv st = true →
  transcript (run_events (agent := service_agent svc) dotenv evs st)
  = transcript st ++ session_transcript svc (current_input st) evs.
Proof.
  unfold session_transcript. revert st.
  induction evs as [|ev evs IH]; intros st Hk.
  { simpl. by rewrite app_nil_r. }
  rewrite (field_trace_head (agent := service_agent svc) dotenv), bind_cons,
    app_assoc, <-step_service by done.
  apply IH. by rewrite key_present_step.
Qed.

End sessions.

(** C25. One execution implements one resolution.  When the API key is
    there, the constructors succeed and the failures of the service
    are derived from [Exception], an execution extends the transcript
    by exactly the turns the specification assigns to the text that the
    input field holds once the event is delivered. *)
Theorem step_refines `{Backend ()} svc dotenv ev (st : run_state ()) :
  truthy_opt ((environ st ∪ dotenv) !! py "OPENAI_API_KEY") = true →
  (∀ c (w : ()), (construct c w).1 = Ok ()) →
  (∀ prompt e, svc prompt = Raise e → is_Exception e = true) →
  transcript (step (agent := service_agent svc) dotenv ev st)
  = transcript st
    ++ turns_of svc (match ev with Submit text => text | Rerun => current_input st end).
Proof.
  intros Hk Hb Hsoft. rewrite <-current_input_deliver. by apply step_service.
Qed.

(** C11. A session implements the specification: started on a fresh
    session with the API key in the environment and constructors that
    succeed, the transcript after any list of events is the one the
    resolver assigns to the texts the input field held at each
    execution, in order. *)
Theorem session_refines `{Backend ()} svc dotenv env evs :
  truthy_opt ((env ∪ dotenv) !! py "OPENAI_API_KEY") = true →
  (∀ c (w : ()), (construct c w).1 = Ok ()) →
  (∀ prompt e, svc prompt = Raise e → is_Exception e = true) →
  transcript (run_events (agent := service_agent svc) dotenv evs (new_session () env))
  = session_transcript svc [] evs.
Proof.
  intros Hk Hb Hsoft. by rewrite run_events_service.
Qed.

End contract.

(** ** The theorems at concrete inputs *)

#[local] Existing Instance ready_backend.

(** A service that knows one question and is out of reach for any
    other. *)
Definition demo_service : service := λ prompt,
  if decide (prompt = delegated_prompt demo_free_input)
  then Ok (py "0.75 inches")
  else Raise connection_error.

Definition demo_events : list event :=
  [Submit demo_question; Rerun; Submit demo_free_input; Submit (py "rainfall?")].

Lemma demo_service_soft prompt e :
  demo_service prompt = Raise e → is_Exception e = true.
Proof. unfold demo_service. by case_decide; intros [= <-]. Qed.

Lemma handle_input_refines_witness :
  handle_input (agent := service_agent demo_service) demo_free_input
    (RunState () ∅ {[py "conversation" := []]} ∅ [])
  = (Ok (),
     set_session_state
       (<[py "conversation" :=
            [] ++ (if resolve_failed demo_service demo_free_input
                   then [] else [(py "User", demo_free_input)])
               ++ [(py "Assistant", resolve demo_service demo_free_input)]]>
          {[py "conversation" := []]})
       (RunState () ∅ {[py "conversation" := []]} ∅ [])).
Proof.
  apply handle_input_refines; [done|apply demo_service_soft|vm_compute; reflexivity].
Defined.

Lemma step_refines_witness :
  transcript (step (agent := service_agent demo_service) demo_dotenv
                (Submit (py "rainfall?")) (new_session () ∅))
  = transcript (new_session () ∅) ++ turns_of demo_service (py "rainfall?").
Proof.
  apply (step_refines demo_service demo_dotenv (Submit (py "rainfall?")));
    [vm_compute; reflexivity|done|apply demo_service_soft].
Defined.

Lemma session_refines_witness :
  transcript (run_events (agent := service_agent demo_service) demo_dotenv
                demo_events (new_session () ∅))
  = session_transcript demo_service [] demo_events.
Proof.
  apply session_refines; [vm_compute; reflexivity|done|apply demo_service_soft].
Defined.

(** What the specification assigns to the demonstration session: the
    canned exchange twice (the rerun submits the question again), the
    exchange with the service, and the error turn without its question. *)
Example demo_session_transcript :
  session_transcript demo_service [] demo_events
  = [(py "User", demo_question); (py "Assistant", answer_why_impacted);
     (py "User", demo_question); (py "Assistant", answer_why_impacted);
     (py "User", demo_free_input); (py "Assistant", py "0.75 inches");
     (py "Assistant", py "Error: connection refused")].
Proof. vm_compute. reflexivity. Qed.
