(* ===== verification/Trace.v ===== *)
(** * Trace: the library calls of a session, in order

    The script builds the engine, the database, the LLM client and the
    agent on every execution (lines 24-30) and calls the agent at most
    once (line 153).  With [traced_backend] and [traced_agent] the
    world keeps the calls in the order they were made; this file says
    what that record is after one execution and after a session.

    The theorems: the calls of a successful execution, in order
    ([run_trace]); that every LLM client is built with an API key that
    startup has checked ([keys_checked]); and the record of a whole
    session as a function of its events ([session_trace]): the agent is
    built again at every execution. *)

From S2P Require Import Prelude PyStr PyObj Content Agent Runtime Resolver Startup App.

Section trace.
Context {udb : UnicodeDB} {W : Type} {backend : Backend W} {agent : Agent W}.
Implicit Types (st : run_state (traced W)) (dotenv : gmap pystr pystr).

(** The record of the library calls. *)
Definition trace st : list library_event := (world st).2.

(** The call of the agent in one execution, if there is one. *)
Definition invocation (user_input : pystr) : list library_event :=
  if truthy user_input && negb (dict_in (user_input_lower user_input) hardcoded_qa)
  then [Invoked (agent_input user_input)]
  else [].

(** The calls of an execution whose constructors succeed. *)
Definition execution_trace (api_key : option pystr) (user_input : pystr)
    : list library_event :=
  (Constructed <$> build_calls api_key) ++ invocation user_input.

(** The key a constructor of the LLM client was given is one that
    startup accepts. *)
Definition key_checked (ev : library_event) : Prop :=
  ∀ cfg api_key, ev = Constructed (ChatOpenAI cfg api_key) → truthy_opt api_key = true.

(** ** One execution *)

Lemma handle_input_trace user_input st :
  trace (handle_input user_input st).2 = trace st ++ invocation user_input.
Proof.
  unfold trace, invocation.
  destruct (truthy user_input) eqn:Hu; [|by rewrite handle_input_falsy, app_nil_r].
  rewrite handle_input_world, compute_result_world by done.
  destruct (dict_in _ _); cbn [andb negb]; [by rewrite app_nil_r|].
  by rewrite traced_invoke.
Qed.

Lemma built_trace dotenv st :
  ∃ reached,
    (built dotenv st).2.2 = trace st ++ (Constructed <$> reached)
    ∧ reached `prefix_of` build_calls (merged_environ st dotenv !! api_key_name)
    ∧ ((built dotenv st).1 = Ok () →
       reached = build_calls (merged_environ st dotenv !! api_key_name)).
Proof.
  destruct (traced_constructs (build_calls (merged_environ st dotenv !! api_key_name))
              (world st)) as (reached & Htr & Hpre & _ & Hok & _).
  by exists reached.
Qed.

(** What one execution adds to the record: nothing without the key; the
    constructors it reached when one of them raised; otherwise the
    four constructors and the call of the agent, if any. *)
Lemma run_trace_cases dotenv st :
  ∃ reached,
    reached `prefix_of` build_calls (merged_environ st dotenv !! api_key_name)
    ∧ (key_present dotenv st = false → reached = [])
    ∧ (key_present dotenv st = true → (built dotenv st).1 = Ok () →
       reached = build_calls (merged_environ st dotenv !! api_key_name))
    ∧ trace (run dotenv st).2
      = trace st ++ (Constructed <$> reached)
        ++ (if key_present dotenv st && is_ok (built dotenv st).1
            then invocation (current_input st) else []).
Proof.
  destruct (built_trace dotenv st) as (reached & Htr & Hpre & Hok).
  destruct (run_cases dotenv st) as [Hk|e w Hk Hb|w r st1 Hk Hb Hrun]; rewrite Hk.
  - exists []. by split_and!; [apply prefix_nil|..|rewrite app_nil_r].
  - exists reached. rewrite Hb in *. split_and!; [done..|].
    by rewrite app_nil_r.
  - exists reached. rewrite Hb in *. split_and!; [done|done|by auto|].
    apply (f_equal (λ x, trace x.2)) in Hrun. rewrite handle_input_trace in Hrun.
    cbn [fst snd is_ok andb] in *. rewrite app_assoc, <-Htr.
    by destruct r.
Qed.

Lemma key_checked_build_calls api_key :
  truthy_opt api_key = true → Forall key_checked (Constructed <$> build_calls api_key).
Proof. intros Hk. repeat constructor; intros ?? [= <- <-]; done. Qed.

Lemma key_checked_invocation user_input : Forall key_checked (invocation user_input).
Proof. unfold invocation. by case_match; repeat constructor. Qed.

Lemma run_keys_checked dotenv st :
  Forall key_checked (trace st) → Forall key_checked (trace (run dotenv st).2).
Proof.
  intros Hst. destruct (run_trace_cases dotenv st) as (reached & Hpre & Hnokey & _ & ->).
  rewrite !Forall_app. split_and!; [done| |case_match; [apply key_checked_invocation|done]].
  destruct (key_present dotenv st) eqn:Hk; [|by rewrite Hnokey].
  destruct Hpre as [rest Hcalls].
  pose proof (key_checked_build_calls _ Hk) as Hall.
  rewrite Hcalls, fmap_app in Hall. by apply Forall_app in Hall as [? _].
Qed.

(** The record after an execution whose constructors succeed, whatever
    the handler does. *)
Lemma run_trace_built dotenv st :
  key_present dotenv st = true → (built dotenv st).1 = Ok () →
  trace (run dotenv st).2
  = trace st ++ execution_trace (merged_environ st dotenv !! api_key_name)
                  (current_input st).
Proof.
  intros Hk Hb.
  destruct (run_trace_cases dotenv st) as (reached & _ & _ & Hall & ->).
  by rewrite (Hall Hk Hb), Hk, Hb.
Qed.

(** C15. The library calls of an execution that returns, in order: the
    engine on [sqlite:///flood.db], the database, the LLM client for
    [gpt-4] with the API key of the merged environment, the agent; and
    then, when the text of the input field is non-empty and misses the
    table, one call of the agent with the data dictionary, two line
    breaks and the text as typed.  The agent that answers is the one
    built in the same execution. *)
Theorem run_trace dotenv st :
  (run dotenv st).1 = Ok () →
  trace (run dotenv st).2
  = trace st
    ++ [Constructed (CreateEngine (py "sqlite:///flood.db"));
        Constructed (SqlDatabase (py "sqlite:///flood.db"));
        Constructed (ChatOpenAI (LlmConfig (py "gpt-4") 0)
                       ((environ st ∪ dotenv) !! py "OPENAI_API_KEY"));
        Constructed (CreateSqlAgent
                       (AgentConfig (LlmConfig (py "gpt-4") 0)
                          (py "sqlite:///flood.db") (py "openai-tools") true))]
    ++ (if truthy (current_input st)
           && negb (dict_in (user_input_lower (current_input st)) hardcoded_qa)
        then [Invoked {[py "input" := data_dictionary ++ nl ++ nl ++ current_input st]}]
        else []).
Proof.
  intros [Hk Hb]%run_ok_inv. rewrite run_trace_built by done.
  unfold execution_trace, invocation. by rewrite agent_input_eq.
Qed.

(** ** Sessions *)

Lemma trace_deliver ev st : trace (deliver ev st) = trace st.
Proof. by destruct ev. Qed.

Lemma traced_reliable : reliable (W := W) → reliable (W := traced W).
Proof. intros Hr c wl. rewrite traced_construct. apply Hr. Qed.

Lemma run_events_keys_checked dotenv evs st :
  Forall key_checked (trace st) →
  Forall key_checked (trace (run_events dotenv evs st)).
Proof.
  revert st. induction evs as [|ev evs IH]; intros st Hst; [done|].
  apply IH. unfold step. apply run_keys_checked. by rewrite trace_deliver.
Qed.

Lemma run_events_trace dotenv evs st :
  reliable (W := W) → key_present dotenv st = true →
  trace (run_events dotenv evs st)
  = trace st ++ (field_trace (current_input st) evs
                 ≫= execution_trace (merged_environ st dotenv !! api_key_name)).
Proof.
  intros Hr%traced_reliable. revert st. induction evs as [|ev evs IH]; intros st Hk.
  { simpl. by rewrite app_nil_r. }
  rewrite run_events_cons, IH, (field_trace_head dotenv), bind_cons, app_assoc
    by by rewrite key_present_step.
  rewrite merged_environ_step. do 2 f_equal. unfold step.
  rewrite run_trace_built by (by rewrite ?key_present_deliver || by apply built_reliable).
  rewrite trace_deliver. by destruct ev.
Qed.

(** C18. Every LLM client a session builds is given an API key that
    startup has checked: whatever the events, the constructors and the
    agent do, no call of [ChatOpenAI] is made without a key or with an
    empty one. *)
Theorem keys_checked dotenv evs w env cfg api_key :
  Constructed (ChatOpenAI cfg api_key)
    ∈ trace (run_events dotenv evs (new_session (w, []) env)) →
  ∃ key, api_key = Some key ∧ key ≠ [].
Proof.
  intros Hin.
  pose proof (run_events_keys_checked dotenv evs (new_session (w, []) env)
                (Forall_nil_2 _)) as Hall.
  rewrite Forall_forall in Hall. specialize (Hall _ Hin cfg api_key eq_refl).
  destruct api_key as [[|c key]|]; [done| |done]. by exists (c :: key).
Qed.

(** C19. The library calls of a session, when the API key is there and
    the constructors succeed: each execution builds the engine, the
    database, the LLM client and the agent again, and calls the agent
    when the text the input field then holds is non-empty and misses
    the table.  Nothing is kept from one execution to the next. *)
Theorem session_trace dotenv evs w env :
  truthy_opt ((env ∪ dotenv) !! py "OPENAI_API_KEY") = true →
  (∀ c (w : W), (construct c w).1 = Ok ()) →
  trace (run_events dotenv evs (new_session (w, []) env))
  = field_trace [] evs
    ≫= λ user_input,
         (Constructed <$> build_calls ((env ∪ dotenv) !! py "OPENAI_API_KEY"))
         ++ (if truthy user_input
                && negb (dict_in (user_input_lower user_input) hardcoded_qa)
             then [Invoked {[py "input" := data_dictionary ++ nl ++ nl ++ user_input]}]
             else []).
Proof.
  intros Hk Hr. rewrite run_events_trace by done. cbn [trace world new_session snd app].
  apply list_bind_ext; [|done]. intros user_input.
  unfold execution_trace, invocation. by rewrite agent_input_eq.
Qed.

End trace.

(** ** The theorems at concrete inputs *)

(** A fresh session on the scripted agent and constructors that
    succeed, with the calls recorded. *)
Definition demo_backend : Backend (traced scripted) :=
  @traced_backend scripted ready_backend.

Definition traced_session (replies : list (pyresult (gmap pystr pystr)))
    : run_state (traced scripted) :=
  new_session (Scripted replies [], []) ∅.

Definition demo_submitted : run_state (traced scripted) :=
  deliver (Submit demo_free_input) (traced_session [Ok demo_reply]).

Lemma run_trace_witness :
  trace (run (backend := demo_backend) demo_dotenv demo_submitted).2
  = trace demo_submitted
    ++ [Constructed (CreateEngine (py "sqlite:///flood.db"));
        Constructed (SqlDatabase (py "sqlite:///flood.db"));
        Constructed (ChatOpenAI (LlmConfig (py "gpt-4") 0)
                       ((environ demo_submitted ∪ demo_dotenv) !! py "OPENAI_API_KEY"));
        Constructed (CreateSqlAgent
                       (AgentConfig (LlmConfig (py "gpt-4") 0)
                          (py "sqlite:///flood.db") (py "openai-tools") true))]
    ++ (if truthy (current_input demo_submitted)
           && negb (dict_in (user_input_lower (current_input demo_submitted)) hardcoded_qa)
        then [Invoked {[py "input" :=
                          data_dictionary ++ nl ++ nl ++ current_input demo_submitted]}]
        else []).
Proof. apply run_trace. vm_compute. reflexivity. Defined.

Lemma keys_checked_witness : ∃ key, Some (py "sk-test") = Some key ∧ key ≠ [].
Proof.
  apply (keys_checked (backend := ready_backend) demo_dotenv
           [Submit demo_question] (Scripted [] []) ∅ llm).
  by_decide.
Defined.

Lemma session_trace_witness :
  trace (run_events (backend := demo_backend) demo_dotenv
           [Submit demo_question; Submit demo_free_input]
           (new_session (Scripted [Ok demo_reply] [], []) ∅))
  = field_trace [] [Submit demo_question; Submit demo_free_input]
    ≫= λ user_input,
         (Constructed <$> build_calls ((∅ ∪ demo_dotenv) !! py "OPENAI_API_KEY"))
         ++ (if truthy user_input
                && negb (dict_in (user_input_lower user_input) hardcoded_qa)
             then [Invoked {[py "input" := data_dictionary ++ nl ++ nl ++ user_input]}]
             else []).
Proof. apply (session_trace (backend := ready_backend)); [vm_compute; reflexivity|done]. Defined.
