(* ===== verification/Process.v ===== *)
(** * Process: several sessions in one process

    Streamlit serves every browser session from one Python process.
    Each session has its own [st.session_state], widget values and
    page; the process environment and whatever the libraries keep (the
    world) are shared.  An execution of the script runs for one
    session: [attach] builds the state it runs on from the process and
    the session, [detach] stores what it leaves.  [process_run] is an
    interleaving of the events of several sessions.

    The theorems: an execution for one session leaves the others'
    transcripts, input fields and pages as they were
    ([process_step_frame]); and with an answering service that keeps no
    state, the transcript of each session is the one the specification
    assigns to the events of that session alone, whatever happened in
    between in the other sessions ([session_projection]). *)

From S2P Require Import Prelude PyStr PyObj Content Agent Runtime Resolver Startup App.
From S2P Require Import Contract.

(** What Streamlit keeps for one session. *)
Record session : Type := Session {
  s_state : gmap pystr (list turn);
  s_widgets : gmap pystr pystr;
  s_page : list ui_elem;
}.

(** A session that has not run yet. *)
Definition fresh : session := Session ∅ ∅ [].

Record process (W : Type) : Type := Process {
  p_world : W;
  p_environ : gmap pystr pystr;
  p_sessions : gmap N session;
}.

Arguments Process {W} _ _ _.
Arguments p_world {W} _.
Arguments p_environ {W} _.
Arguments p_sessions {W} _.

(** The events of session [sid] in an interleaving, in order. *)
Definition events_of (sid : N) (evs : list (N * event)) : list event :=
  (filter (λ x, x.1 = sid) evs).*2.

Section process.
Context {udb : UnicodeDB} {W : Type} {backend : Backend W} {agent : Agent W}.
Implicit Types (p : process W) (sid : N) (st : run_state W).
Implicit Types (dotenv : gmap pystr pystr).

Definition session_of sid p : session := default fresh (p_sessions p !! sid).

(** The state an execution for session [sid] runs on. *)
Definition attach sid p : run_state W :=
  RunState (p_world p) (p_environ p)
    (s_state (session_of sid p)) (s_widgets (session_of sid p)) (s_page (session_of sid p)).

(** The process after an execution for session [sid] has left [st]. *)
Definition detach sid st p : process W :=
  Process (world st) (environ st)
    (<[sid := Session (session_state st) (widget_state st) (page st)]> (p_sessions p)).

Definition process_step dotenv sid (ev : event) p : process W :=
  detach sid (step dotenv ev (attach sid p)) p.

Definition process_run dotenv (evs : list (N * event)) p : process W :=
  foldl (λ p x, process_step dotenv x.1 x.2 p) p evs.

(** ** What sessions share and what they do not *)

Lemma attach_detach sid st p : attach sid (detach sid st p) = st.
Proof.
  unfold attach, detach, session_of. cbn. rewrite lookup_insert_eq. by destruct st.
Qed.

Lemma attach_detach_ne sid sid' st p :
  sid ≠ sid' →
  attach sid' (detach sid st p)
  = set_world (world st) (set_environ (environ st) (attach sid' p)).
Proof.
  intros Hne. unfold attach, detach, session_of. cbn. by rewrite lookup_insert_ne.
Qed.

Lemma process_run_cons dotenv sid ev evs p :
  process_run dotenv ((sid, ev) :: evs) p
  = process_run dotenv evs (process_step dotenv sid ev p).
Proof. done. Qed.

Lemma events_of_cons sid sid' ev evs :
  events_of sid ((sid', ev) :: evs)
  = if decide (sid' = sid) then ev :: events_of sid evs else events_of sid evs.
Proof. unfold events_of. rewrite filter_cons. cbn. by case_decide. Qed.

(** An execution for one session leaves what Streamlit keeps for the
    others as it was. *)
Lemma process_step_frame dotenv sid sid' ev p :
  sid ≠ sid' →
  session_of sid' (process_step dotenv sid ev p) = session_of sid' p.
Proof. intros Hne. unfold session_of, process_step, detach. cbn. by rewrite lookup_insert_ne. Qed.

(** The merged environment of the process is the same after every
    execution, whichever session it ran for. *)
Lemma process_step_environ dotenv sid ev p :
  p_environ (process_step dotenv sid ev p) ∪ dotenv = p_environ p ∪ dotenv.
Proof. apply (merged_environ_step dotenv ev (attach sid p)). Qed.

End process.

(** ** Sessions on a service that keeps no state *)

Section projection.
Context {udb : UnicodeDB} {backend : Backend ()} (svc : service).
Context (dotenv : gmap pystr pystr).
Context (Hbuild : @reliable () backend) (Hsoft : fails_softly svc).
Implicit Types (p : process ()) (sid : N) (evs : list (N * event)).

Local Instance the_service : Agent () := service_agent svc.

(** Startup succeeds in this process, for every session. *)
Definition process_ready p : Prop :=
  truthy_opt ((p_environ p ∪ dotenv) !! api_key_name) = true.

Lemma process_ready_step sid ev p :
  process_ready p → process_ready (process_step dotenv sid ev p).
Proof. unfold process_ready. by rewrite process_step_environ. Qed.

Lemma process_step_same sid ev p :
  process_ready p →
  transcript (attach sid (process_step dotenv sid ev p))
  = transcript (attach sid p) ++ turns_of svc (current_input (deliver ev (attach sid p)))
  ∧ current_input (attach sid (process_step dotenv sid ev p))
    = current_input (deliver ev (attach sid p)).
Proof.
  intros Hk. unfold process_step. rewrite attach_detach. split.
  - by apply step_service.
  - apply run_widgets.
Qed.

Lemma process_step_other sid sid' ev p :
  sid ≠ sid' →
  transcript (attach sid' (process_step dotenv sid ev p)) = transcript (attach sid' p)
  ∧ current_input (attach sid' (process_step dotenv sid ev p))
    = current_input (attach sid' p).
Proof. intros Hne. unfold process_step. by rewrite attach_detach_ne. Qed.

Lemma process_run_service evs p sid :
  process_ready p →
  transcript (attach sid (process_run dotenv evs p))
  = transcript (attach sid p)
    ++ session_transcript svc (current_input (attach sid p)) (events_of sid evs).
Proof.
  unfold session_transcript. revert p.
  induction evs as [|[sid' ev] evs IH]; intros p Hk.
  { cbn. by rewrite app_nil_r. }
  rewrite process_run_cons, IH, events_of_cons by by apply process_ready_step.
  case_decide as Hsid.
  - subst sid'. destruct (process_step_same sid ev p Hk) as [-> ->].
    rewrite <-app_assoc, current_input_deliver. f_equal. by destruct ev.
  - by destruct (process_step_other sid' sid ev p Hsid) as [-> ->].
Qed.

End projection.

(** C26. Sessions do not interfere.  In a process that serves any number
    of sessions, with the API key in the environment, constructors that
    succeed and an answering service that keeps no state, the
    transcript of each session after any interleaving of events is the
    one the specification assigns to the events of that session alone,
    in their order: what the other sessions did in between has no part
    in it, although they share the environment. *)
Theorem session_projection {udb : UnicodeDB} {backend : Backend ()}
    svc dotenv env evs sid :
  truthy_opt ((env ∪ dotenv) !! py "OPENAI_API_KEY") = true →
  (∀ c (w : ()), (construct c w).1 = Ok ()) →
  (∀ prompt e, svc prompt = Raise e → is_Exception e = true) →
  transcript (attach sid (process_run (agent := service_agent svc) dotenv evs
                            (Process () env ∅)))
  = session_transcript svc [] (events_of sid evs).
Proof.
  intros Hk Hb Hsoft. by rewrite (process_run_service svc dotenv Hb Hsoft).
Qed.

(** ** The theorems at concrete inputs *)

Definition demo_interleaving : list (N * event) :=
  [(1%N, Submit demo_question); (2%N, Submit demo_free_input);
   (1%N, Rerun); (2%N, Submit (py "rainfall?"))].

Lemma session_projection_witness :
  transcript (attach 2 (process_run (backend := ready_backend)
                          (agent := service_agent demo_service) demo_dotenv
                          demo_interleaving (Process () ∅ ∅)))
  = session_transcript demo_service [] (events_of 2 demo_interleaving).
Proof.
  apply (session_projection (backend := ready_backend));
    [vm_compute; reflexivity|done|apply demo_service_soft].
Defined.

(** The transcript of the second session of the demonstration: its two
    questions, whatever the first session does in between. *)
Example demo_second_session :
  session_transcript demo_service [] (events_of 2 demo_interleaving)
  = [(py "User", demo_free_input); (py "Assistant", py "0.75 inches");
     (py "Assistant", py "Error: connection refused")].
Proof. vm_compute. reflexivity. Qed.

(** With an agent that keeps state the sessions do interfere: on the
    scripted agent, which hands out its replies in the order of the
    calls, the answer a session gets depends on whether another
    session asked first. *)
Example stateful_agent_interferes :
  let p := Process (Scripted [Ok {[py "output" := py "first"]};
                              Ok {[py "output" := py "second"]}] []) ∅ ∅ in
  transcript (attach 1 (process_run (backend := ready_backend) demo_dotenv
                          [(1%N, Submit (py "a?")); (2%N, Submit (py "b?"))] p))
  ≠ transcript (attach 1 (process_run (backend := ready_backend) demo_dotenv
                            [(2%N, Submit (py "b?")); (1%N, Submit (py "a?"))] p)).
Proof. vm_compute. discriminate. Qed.
